(** * RSSManager: feed ingestion and de-duplication

    A shallow embedding of [rss_manager.py] (class [RSSManager]), of
    [config_manager.py] and of the commands of [bot.py] that change the
    configuration, and the properties of their fingerprinting,
    de-duplication, fetching, extraction, orchestration, pruning and
    registration code. *)

From Stdlib Require Import ZArith List String Ascii Lia Bool.
From Stdlib Require Import DecimalString DecimalN.
From stdpp Require Import gmap strings list fin_maps.

Local Open Scope Z_scope.

(** ** Python values *)

(** A Python [str] is a sequence of Unicode code points.  Lone surrogates
    (U+D800..U+DFFF) are legal members of a [str]; they only fail when the
    string is encoded. *)
Abbreviation pystr := (list Z).
Abbreviation bytes := (list Z) (only parsing).

(** A source literal, all of whose characters are ASCII. *)
Definition py (s : string) : pystr :=
  map (fun a => Z.of_N (N_of_ascii a)) (list_ascii_of_string s).
Arguments py : simpl never.

(** The exceptions that the modelled code can meet.  All of them are
    subclasses of [Exception], which is what [except Exception] and the bare
    [except] of the manager catch; task cancellation and interpreter exit
    are outside the model. *)
Inductive exn : Type :=
| UnicodeEncodeError
| TypeError
| ValueError
| OverflowError
| ClientError (msg : string)
| TimeoutError.

(** Outcome of an expression that may raise. *)
Inductive Exc (A : Type) : Type :=
| Ret (a : A)
| Raise (e : exn).
Arguments Ret {A} a.
Arguments Raise {A} e.

(** [isinstance(e, ValueError)]: [UnicodeEncodeError] is a subclass of
    [ValueError]. *)
Definition is_ValueError (e : exn) : bool :=
  match e with
  | ValueError | UnicodeEncodeError => true
  | _ => false
  end.

(** The values that [json.load] builds and [json.dump] writes.  A dict
    keeps its items in insertion order; numbers are the integral ones. *)
#[local] Unset Elimination Schemes.
Inductive pyval : Type :=
| VNone
| VBool (b : bool)
| VInt (z : Z)
| VStr (s : pystr)
| VList (l : list pyval)
| VDict (items : list (pystr * pyval)).
#[local] Set Elimination Schemes.

(** [d.get(key)] *)
Fixpoint items_get {V} (key : pystr) (d : list (pystr * V)) : option V :=
  match d with
  | [] => None
  | (k, v) :: d' => if decide (k = key) then Some v else items_get key d'
  end.

(** [d[key] = value]: a present key keeps its place. *)
Fixpoint items_set {V} (key : pystr) (value : V) (d : list (pystr * V))
    : list (pystr * V) :=
  match d with
  | [] => [(key, value)]
  | (k, v) :: d' =>
      if decide (k = key) then (k, value) :: d'
      else (k, v) :: items_set key value d'
  end.

(** [del d[key]], for a key that may be absent. *)
Fixpoint items_del {V} (key : pystr) (d : list (pystr * V))
    : list (pystr * V) :=
  match d with
  | [] => []
  | (k, v) :: d' =>
      if decide (k = key) then d' else (k, v) :: items_del key d'
  end.

(** A value that is a dict of strings, as a mapping. *)
Definition as_str_dict (v : pyval) : option (gmap pystr pystr) :=
  match v with
  | VDict items =>
      list_to_map <$>
        mapM (fun kv => match kv.2 with
                        | VStr s => Some (kv.1, s)
                        | _ => None
                        end) items
  | _ => None
  end.

(** A mapping of strings as the value that [json.dump] writes for it. *)
Definition of_str_dict (d : gmap pystr pystr) : pyval :=
  VDict (map (fun kv => (kv.1, VStr kv.2)) (map_to_list d)).

(** ** [str.encode('utf-8')] *)

Definition utf8_char (c : Z) : Exc bytes :=
  if c <? 0 then Raise UnicodeEncodeError
  else if c <? 128 then Ret [c]
  else if c <? 2048 then
    Ret [Z.lor 192 (Z.shiftr c 6); Z.lor 128 (Z.land c 63)]
  else if c <? 65536 then
    if (55296 <=? c) && (c <=? 57343) then Raise UnicodeEncodeError
    else Ret [Z.lor 224 (Z.shiftr c 12);
              Z.lor 128 (Z.land (Z.shiftr c 6) 63);
              Z.lor 128 (Z.land c 63)]
  else if c <? 1114112 then
    Ret [Z.lor 240 (Z.shiftr c 18);
         Z.lor 128 (Z.land (Z.shiftr c 12) 63);
         Z.lor 128 (Z.land (Z.shiftr c 6) 63);
         Z.lor 128 (Z.land c 63)]
  else Raise UnicodeEncodeError.

Fixpoint encode_utf8 (s : pystr) : Exc bytes :=
  match s with
  | [] => Ret []
  | c :: s' =>
      match utf8_char c with
      | Raise e => Raise e
      | Ret bs =>
          match encode_utf8 s' with
          | Raise e => Raise e
          | Ret rest => Ret (bs ++ rest)
          end
      end
  end.

(** ** [hashlib.md5(...).hexdigest()] (RFC 1321) *)

Module MD5.

Definition mask32 : Z := 4294967295.
Definition add32 (a b : Z) : Z := Z.land (a + b) mask32.
Definition not32 (a : Z) : Z := Z.lxor a mask32.
Definition rotl32 (x c : Z) : Z :=
  Z.land (Z.lor (Z.shiftl x c) (Z.shiftr x (32 - c))) mask32.

Definition K : list Z :=
  [ 3614090360; 3905402710; 606105819; 3250441966;
    4118548399; 1200080426; 2821735955; 4249261313;
    1770035416; 2336552879; 4294925233; 2304563134;
    1804603682; 4254626195; 2792965006; 1236535329;
    4129170786; 3225465664; 643717713; 3921069994;
    3593408605; 38016083; 3634488961; 3889429448;
    568446438; 3275163606; 4107603335; 1163531501;
    2850285829; 4243563512; 1735328473; 2368359562;
    4294588738; 2272392833; 1839030562; 4259657740;
    2763975236; 1272893353; 4139469664; 3200236656;
    681279174; 3936430074; 3572445317; 76029189;
    3654602809; 3873151461; 530742520; 3299628645;
    4096336452; 1126891415; 2878612391; 4237533241;
    1700485571; 2399980690; 4293915773; 2240044497;
    1873313359; 4264355552; 2734768916; 1309151649;
    4149444226; 3174756917; 718787259; 3951481745 ].

Definition S : list Z :=
  [ 7; 12; 17; 22; 7; 12; 17; 22; 7; 12; 17; 22; 7; 12; 17; 22;
    5; 9; 14; 20; 5; 9; 14; 20; 5; 9; 14; 20; 5; 9; 14; 20;
    4; 11; 16; 23; 4; 11; 16; 23; 4; 11; 16; 23; 4; 11; 16; 23;
    6; 10; 15; 21; 6; 10; 15; 21; 6; 10; 15; 21; 6; 10; 15; 21 ].

Definition zth (l : list Z) (i : Z) : Z := nth (Z.to_nat i) l 0.

(** Little-endian bytes of a word, and back. *)
Fixpoint le_bytes (n : nat) (x : Z) : bytes :=
  match n with
  | O => []
  | Datatypes.S n' => Z.land x 255 :: le_bytes n' (Z.shiftr x 8)
  end.

Fixpoint le_word (bs : bytes) : Z :=
  match bs with
  | [] => 0
  | b :: bs' => Z.lor b (Z.shiftl (le_word bs') 8)
  end.

Fixpoint words (n : nat) (bs : bytes) : list Z :=
  match n with
  | O => []
  | Datatypes.S n' => le_word (firstn 4 bs) :: words n' (skipn 4 bs)
  end.

Definition pad (msg : bytes) : bytes :=
  let len := Z.of_nat (length msg) in
  let zeros := Z.to_nat ((55 - len) mod 64) in
  msg ++ [128] ++ repeat 0 zeros ++ le_bytes 8 (8 * len).

Definition state : Type := Z * Z * Z * Z.

Definition init : state := (1732584193, 4023233417, 2562383102, 271733878).

Definition step (M : list Z) (st : state) (i : Z) : state :=
  let '(A, B, C, D) := st in
  let '(F, g) :=
    if i <? 16 then (Z.lor (Z.land B C) (Z.land (not32 B) D), i)
    else if i <? 32 then
      (Z.lor (Z.land D B) (Z.land (not32 D) C), (5 * i + 1) mod 16)
    else if i <? 48 then (Z.lxor B (Z.lxor C D), (3 * i + 5) mod 16)
    else (Z.lxor C (Z.lor B (not32 D)), (7 * i) mod 16) in
  let F' := add32 (add32 (add32 F A) (zth K i)) (zth M g) in
  (D, add32 B (rotl32 F' (zth S i)), B, C).

Definition block (st : state) (chunk : bytes) : state :=
  let M := words 16 chunk in
  let '(A, B, C, D) := st in
  let '(A', B', C', D') :=
    fold_left (step M) (map Z.of_nat (seq 0 64)) st in
  (add32 A A', add32 B B', add32 C C', add32 D D').

Fixpoint blocks (n : nat) (st : state) (bs : bytes) : state :=
  match n with
  | O => st
  | Datatypes.S n' => blocks n' (block st (firstn 64 bs)) (skipn 64 bs)
  end.

Definition digest (msg : bytes) : bytes :=
  let p := pad msg in
  let '(A, B, C, D) := blocks (length p / 64)%nat init p in
  le_bytes 4 A ++ le_bytes 4 B ++ le_bytes 4 C ++ le_bytes 4 D.

Definition hex_digit (d : Z) : ascii :=
  ascii_of_N (Z.to_N (if d <? 10 then 48 + d else 87 + d)).

Fixpoint hex (bs : bytes) : string :=
  match bs with
  | [] => EmptyString
  | b :: bs' =>
      String (hex_digit (Z.shiftr b 4))
             (String (hex_digit (Z.land b 15)) (hex bs'))
  end.

Definition hexdigest (msg : bytes) : string := hex (digest msg).

End MD5.

(** ** The [datetime] module *)

(** A [datetime] value: microseconds since 0001-01-01T00:00:00 on the
    proleptic Gregorian calendar, and the UTC offset in minutes of an aware
    value ([None] for a naive one, such as [datetime.now()]). *)
Record datetime : Type := mkDatetime {
  micros : Z;
  utcoffset : option Z
}.

Definition naive (us : Z) : datetime := mkDatetime us None.

Definition MICROS_PER_DAY : Z := 86400000000.
Definition MAXORDINAL : Z := 3652059.

(** [timedelta(days=days)] *)
Definition timedelta (days : Z) : Exc Z :=
  if Z.abs days <=? 999999999 then Ret (days * MICROS_PER_DAY)
  else Raise OverflowError.

(** [d - delta] for a [datetime] and a [timedelta] *)
Definition dt_sub (d : datetime) (delta : Z) : Exc datetime :=
  let r := micros d - delta in
  if (0 <=? r) && (r <? MAXORDINAL * MICROS_PER_DAY)
  then Ret (mkDatetime r (utcoffset d))
  else Raise OverflowError.

(** [a > b]: a naive and an aware value cannot be compared. *)
Definition dt_gt (a b : datetime) : Exc bool :=
  match utcoffset a, utcoffset b with
  | None, None => Ret (micros b <? micros a)
  | Some oa, Some ob =>
      Ret (micros b - ob * 60000000 <? micros a - oa * 60000000)
  | _, _ => Raise TypeError
  end.

(** The two conversions between [datetime] and [str] that the manager calls.
    Which strings [datetime.fromisoformat] accepts beyond those written by
    [isoformat()] depends on the interpreter version, so the manager is
    stated over this interface. *)
Class DatetimeLib : Type := {
  isoformat : datetime -> pystr;
  fromisoformat : pystr -> Exc datetime
}.

(** *** The instance for the format written by [isoformat()] *)

Module Iso.

Fixpoint digits_ (n : nat) (x : Z) (acc : pystr) : pystr :=
  match n with
  | O => acc
  | S n' => digits_ n' (x / 10) ((48 + x mod 10) :: acc)
  end.

(** [x] in decimal, zero-padded to [n] digits. *)
Definition digits (n : nat) (x : Z) : pystr := digits_ n x [].

Definition is_leap (y : Z) : bool :=
  (y mod 4 =? 0) && (negb (y mod 100 =? 0) || (y mod 400 =? 0)).

Definition days_in_month (y m : Z) : Z :=
  if m =? 2 then (if is_leap y then 29 else 28)
  else if (m =? 4) || (m =? 6) || (m =? 9) || (m =? 11) then 30 else 31.

Definition days_before_year (y : Z) : Z :=
  let y' := y - 1 in y' * 365 + y' / 4 - y' / 100 + y' / 400.

Definition days_before_month (y m : Z) : Z :=
  fold_left (fun acc k => acc + days_in_month y (Z.of_nat k))
            (seq 1 (Z.to_nat (m - 1))) 0.

(** 1-based ordinal of a calendar date. *)
Definition ymd2ord (y m d : Z) : Z :=
  days_before_year y + days_before_month y m + d.

(** Calendar date of the day [n] days after 0001-01-01. *)
Definition civil (n : Z) : Z * Z * Z :=
  let z := n + 306 in
  let era := z / 146097 in
  let doe := z mod 146097 in
  let yoe := (doe - doe / 1460 + doe / 36524 - doe / 146096) / 365 in
  let doy := doe - (365 * yoe + yoe / 4 - yoe / 100) in
  let mp := (5 * doy + 2) / 153 in
  let d := doy - (153 * mp + 2) / 5 + 1 in
  let m := if mp <? 10 then mp + 3 else mp - 9 in
  let y := yoe + era * 400 + (if m <=? 2 then 1 else 0) in
  (y, m, d).

Definition format_offset (o : Z) : pystr :=
  (if o <? 0 then [45] else [43]) ++
  digits 2 (Z.abs o / 60) ++ [58] ++ digits 2 (Z.abs o mod 60).

Definition format (d : datetime) : pystr :=
  let us := micros d in
  let '(y, m, dd) := civil (us / MICROS_PER_DAY) in
  let r := us mod MICROS_PER_DAY in
  let secs := r / 1000000 in
  let frac := r mod 1000000 in
  digits 4 y ++ [45] ++ digits 2 m ++ [45] ++ digits 2 dd ++ [84] ++
  digits 2 (secs / 3600) ++ [58] ++ digits 2 (secs / 60 mod 60) ++ [58] ++
  digits 2 (secs mod 60) ++
  (if frac =? 0 then [] else [46] ++ digits 6 frac) ++
  match utcoffset d with
  | None => []
  | Some o => format_offset o
  end.

(** Reads exactly [n] decimal digits. *)
Fixpoint number (n : nat) (acc : Z) (s : pystr) : option (Z * pystr) :=
  match n with
  | O => Some (acc, s)
  | S n' =>
      match s with
      | c :: s' =>
          if (48 <=? c) && (c <=? 57)
          then number n' (10 * acc + (c - 48)) s'
          else None
      | [] => None
      end
  end.

Definition expect (c : Z) (s : pystr) : option pystr :=
  match s with
  | c' :: s' => if c =? c' then Some s' else None
  | [] => None
  end.

Definition parse_offset (s : pystr) : option (option Z) :=
  match s with
  | [] => Some None
  | sign :: s1 =>
      if (sign =? 43) || (sign =? 45) then
        '(hh, s2) ← number 2 0 s1;
        s3 ← expect 58 s2;
        '(mm, s4) ← number 2 0 s3;
        match s4 with
        | [] =>
            if (hh <? 24) && (mm <? 60)
            then Some (Some ((if sign =? 45 then -1 else 1) * (hh * 60 + mm)))
            else None
        | _ => None
        end
      else None
  end.

Definition parse_fraction (s : pystr) : option (Z * pystr) :=
  match s with
  | 46 :: s1 => number 6 0 s1
  | _ => Some (0, s)
  end.

Definition parse (s : pystr) : option datetime :=
  '(y, s1) ← number 4 0 s;
  s2 ← expect 45 s1;
  '(m, s3) ← number 2 0 s2;
  s4 ← expect 45 s3;
  '(d, s5) ← number 2 0 s4;
  s6 ← expect 84 s5;
  '(hh, s7) ← number 2 0 s6;
  s8 ← expect 58 s7;
  '(mi, s9) ← number 2 0 s8;
  s10 ← expect 58 s9;
  '(ss, s11) ← number 2 0 s10;
  '(frac, s12) ← parse_fraction s11;
  off ← parse_offset s12;
  if (1 <=? y) && (1 <=? m) && (m <=? 12) && (1 <=? d) &&
     (d <=? days_in_month y m) && (hh <? 24) && (mi <? 60) && (ss <? 60)
  then Some (mkDatetime
               ((ymd2ord y m d - 1) * MICROS_PER_DAY +
                (hh * 3600 + mi * 60 + ss) * 1000000 + frac) off)
  else None.

End Iso.

(** Strings in the format [isoformat()] writes are read back; every other
    string is a [ValueError]. *)
Definition py_datetime : DatetimeLib := {|
  isoformat := Iso.format;
  fromisoformat := fun s =>
    match Iso.parse s with
    | Some d => Ret d
    | None => Raise ValueError
    end
|}.

(** ** Feeds, articles and the world the manager runs in *)

(** A plain Python [dict] with [str] keys and values, read with
    [d.get(key, default)]. *)
Definition dict_get (d : gmap pystr pystr) (key default : pystr) : pystr :=
  match d !! key with
  | Some v => v
  | None => default
  end.

(** *** [feedparser.FeedParserDict]

    The entries of a feed and the channel's mapping are [FeedParserDict]s
    (feedparser 6.0): dicts whose [__getitem__], and with it [get] and
    [in], reads a key through a table of the names it had in older
    versions.  The model keeps the items whose values are text. *)

(** [FeedParserDict.keymap]: the keys tried, in order, before the key
    itself.  A single name stands as a list of one. *)
Definition keymap : list (pystr * list pystr) :=
  [ (py "channel", [py "feed"]);
    (py "items", [py "entries"]);
    (py "guid", [py "id"]);
    (py "date", [py "updated"]);
    (py "date_parsed", [py "updated_parsed"]);
    (py "description", [py "summary"; py "subtitle"]);
    (py "description_detail", [py "summary_detail"; py "subtitle_detail"]);
    (py "url", [py "href"]);
    (py "modified", [py "updated"]);
    (py "modified_parsed", [py "updated_parsed"]);
    (py "issued", [py "published"]);
    (py "issued_parsed", [py "published_parsed"]);
    (py "copyright", [py "rights"]);
    (py "copyright_detail", [py "rights_detail"]);
    (py "tagline", [py "subtitle"]);
    (py "tagline_detail", [py "subtitle_detail"]) ].

(** [FeedParserDict.__getitem__]; [None] stands for [KeyError].  The keys
    [category], [enclosures] and [license] are computed from the items
    [tags] and [links], which hold lists and are not items of the model:
    they are looked up as in a dict without these two.  [updated] falls
    back to [published]. *)
Definition FeedParserDict_getitem (d : gmap pystr pystr) (key : pystr)
    : option pystr :=
  if decide (key = py "category") then None
  else if decide (key = py "enclosures") then None
  else if decide (key = py "license") then None
  else if decide (key = py "updated") then
    match d !! py "updated" with
    | Some v => Some v
    | None => d !! py "published"
    end
  else if decide (key = py "updated_parsed") then
    match d !! py "updated_parsed" with
    | Some v => Some v
    | None => d !! py "published_parsed"
    end
  else
    let realkey :=
      match items_get key keymap with
      | Some names => names
      | None => [key]
      end in
    match omap (fun k => d !! k) realkey with
    | v :: _ => Some v
    | [] => d !! key
    end.

(** [FeedParserDict.get] *)
Definition FeedParserDict_get (d : gmap pystr pystr) (key default : pystr)
    : pystr :=
  match FeedParserDict_getitem d key with
  | Some v => v
  | None => default
  end.

(** What [feedparser.parse] returns: the entry list, the channel's mapping
    [feed.feed] and the flag [bozo].  The parser does not raise on a body
    that is not a feed: it returns an object without entries whose [bozo]
    is set.  Such an object is never empty, hence truthy. *)
Record Feed : Type := mkFeed {
  entries : list (gmap pystr pystr);
  feed : gmap pystr pystr;
  bozo : bool
}.

(** The article dictionary built by [get_new_articles]. *)
Record Article : Type := mkArticle {
  title : pystr;
  link : pystr;
  description : pystr;
  published : pystr;
  feed_title : pystr;
  feed_url : pystr
}.

(** What [session.get(feed_url, timeout=30)] leads to: the request raises
    (connection error, timeout), or a response arrives with a status and a
    body whose [text()] may itself raise. *)
Inductive HttpOutcome : Type :=
| NetworkError (e : exn)
| Response (status : Z) (text : Exc pystr).

(** Everything outside the manager: the successive readings of
    [datetime.now()], the network, the feed parser and the feeds of the
    configuration ([config_manager.get_feeds()], a dict in insertion order). *)
Record Env : Type := mkEnv {
  clock : nat -> Z;
  http_get : pystr -> HttpOutcome;
  feedparser_parse : pystr -> Exc Feed;
  get_feeds : list (pystr * gmap pystr pystr)
}.

(** The manager's state: [self.processed_articles], the content of
    [self.processed_articles_file] ([None] while the file does not exist),
    the number of clock readings made so far, and a ghost log of the
    fingerprints that [mark_article_processed] has recorded. *)
Record World : Type := mkWorld {
  processed_articles : gmap pystr pystr;
  stored : option (gmap pystr pystr);
  ticks : nat;
  marked : list pystr
}.

(** ** Computations that mutate the world and may raise *)

Definition M (A : Type) : Type := World -> Exc A * World.

Definition ret {A} (a : A) : M A := fun w => (Ret a, w).

Definition bind {A B} (m : M A) (k : A -> M B) : M B :=
  fun w =>
    match m w with
    | (Ret a, w') => k a w'
    | (Raise e, w') => (Raise e, w')
    end.

Definition lift {A} (x : Exc A) : M A := fun w => (x, w).

Definition get_world : M World := fun w => (Ret w, w).

Definition modify (f : World -> World) : M unit := fun w => (Ret tt, f w).

(** [try: m except Exception as e: h e] *)
Definition try_except {A} (m : M A) (h : exn -> M A) : M A :=
  fun w =>
    match m w with
    | (Ret a, w') => (Ret a, w')
    | (Raise e, w') => h e w'
    end.

Declare Scope py_scope.
Delimit Scope py_scope with py.
Notation "'let*' x ':=' m 'in' k" := (bind m (fun x => k))
  (at level 10, x name, m at level 100, k at level 200) : py_scope.
Notation "m '>>' k" := (bind m (fun _ => k))
  (at level 90, right associativity) : py_scope.

(** [l[:n]] *)
Definition slice_to {A} (l : list A) (n : Z) : list A :=
  if 0 <=? n then firstn (Z.to_nat n) l
  else firstn (length l - Z.to_nat (- n))%nat l.

(** ** class RSSManager *)

(** [generate_article_hash] *)
Definition generate_article_hash (title link : pystr) : Exc pystr :=
  let content := title ++ py "|" ++ link in
  match encode_utf8 content with
  | Ret b => Ret (py (MD5.hexdigest b))
  | Raise e => Raise e
  end.

Section Manager.

Context {DT : DatetimeLib}.
Variable env : Env.

Local Open Scope py_scope.

(** [datetime.now()] *)
Definition datetime_now : M datetime :=
  fun w =>
    (Ret (naive (clock env (ticks w))),
     mkWorld (processed_articles w) (stored w) (S (ticks w)) (marked w)).

(** [save_processed_articles]: the whole mapping is written out; the write
    is taken to succeed. *)
Definition save_processed_articles : M unit :=
  modify (fun w =>
    mkWorld (processed_articles w) (Some (processed_articles w))
            (ticks w) (marked w)).

(** [is_article_processed] *)
Definition is_article_processed (title link : pystr) : M bool :=
  let* article_hash := lift (generate_article_hash title link) in
  let* w := get_world in
  ret (bool_decide (is_Some (processed_articles w !! article_hash))).

(** [mark_article_processed] *)
Definition mark_article_processed (title link : pystr) : M unit :=
  let* article_hash := lift (generate_article_hash title link) in
  let* now := datetime_now in
  modify (fun w =>
    mkWorld (<[article_hash := isoformat now]> (processed_articles w))
            (stored w) (ticks w) (marked w ++ [article_hash])) >>
  save_processed_articles.

(** [fetch_feed] *)
Definition fetch_feed (feed_url : pystr) : M (option Feed) :=
  try_except
    (match http_get env feed_url with
     | NetworkError e => lift (Raise e)
     | Response status text =>
         if status =? 200 then
           let* content := lift text in
           let* parsed := lift (feedparser_parse env content) in
           ret (Some parsed)
         else ret None
     end)
    (fun e => ret None).

(** The body of the loop of [get_new_articles] over the entries that are
    left, with the list [new_articles] built so far. *)
Fixpoint get_new_articles_loop (fd : Feed) (feed_url : pystr)
    (es : list (gmap pystr pystr)) (new_articles : list Article)
    : M (list Article) :=
  match es with
  | [] => ret new_articles
  | entry :: es' =>
      let title := FeedParserDict_get entry (py "title") (py "No Title") in
      let link := FeedParserDict_get entry (py "link") (py "") in
      let description :=
        FeedParserDict_get entry (py "description")
          (FeedParserDict_get entry (py "summary") (py "")) in
      let published :=
        FeedParserDict_get entry (py "published")
          (FeedParserDict_get entry (py "updated") (py "")) in
      let* processed := is_article_processed title link in
      if negb processed then
        let article :=
          mkArticle title link description published
            (FeedParserDict_get (feed fd) (py "title") (py "Unknown Feed"))
            feed_url in
        mark_article_processed title link >>
        get_new_articles_loop fd feed_url es' (new_articles ++ [article])
      else get_new_articles_loop fd feed_url es' new_articles
  end.

(** [get_new_articles] *)
Definition get_new_articles (feed_url : pystr) (max_articles : Z)
    : M (list Article) :=
  let* fetched := fetch_feed feed_url in
  match fetched with
  | None => ret []
  | Some fd =>
      get_new_articles_loop fd feed_url
        (slice_to (entries fd) max_articles) []
  end.

(** The first loop of [check_all_feeds]: one task per feed whose ['url'] is
    present and non-empty.  A task is a coroutine that has not started; it
    runs when it is awaited. *)
Fixpoint make_tasks (feeds : list (pystr * gmap pystr pystr))
    : list (pystr * pystr) :=
  match feeds with
  | [] => []
  | (feed_id, feed_data) :: feeds' =>
      match feed_data !! py "url" with
      | Some (c :: u) => (feed_id, c :: u) :: make_tasks feeds'
      | _ => make_tasks feeds'
      end
  end.

(** The second loop of [check_all_feeds]: the tasks are awaited in turn. *)
Fixpoint await_tasks (tasks : list (pystr * pystr))
    (results : gmap pystr (list Article)) : M (gmap pystr (list Article)) :=
  match tasks with
  | [] => ret results
  | (feed_id, task_url) :: tasks' =>
      let* results' :=
        try_except
          (let* articles := get_new_articles task_url 10 in
           match articles with
           | [] => ret results
           | _ :: _ => ret (<[feed_id := articles]> results)
           end)
          (fun e => ret results) in
      await_tasks tasks' results'
  end.

(** [check_all_feeds] *)
Definition check_all_feeds : M (gmap pystr (list Article)) :=
  let feeds := get_feeds env in
  await_tasks (make_tasks feeds) ∅.

(** One round of the loop of [cleanup_old_processed_articles]: the entry is
    copied when its date parses and is later than the cutoff; when either
    step raises, the entry is skipped. *)
Definition cleanup_step (cutoff_date : datetime) (article_hash : pystr)
    (processed_date_str : pystr) (cleaned_articles : gmap pystr pystr)
    : gmap pystr pystr :=
  match fromisoformat processed_date_str with
  | Ret processed_date =>
      match dt_gt processed_date cutoff_date with
      | Ret true => <[article_hash := processed_date_str]> cleaned_articles
      | Ret false => cleaned_articles
      | Raise _ => cleaned_articles
      end
  | Raise _ => cleaned_articles
  end.

(** [cleanup_old_processed_articles] *)
Definition cleanup_old_processed_articles (days : Z) : M Z :=
  let* now := datetime_now in
  let* delta := lift (timedelta days) in
  let* cutoff_date := lift (dt_sub now delta) in
  let* w := get_world in
  let cleaned_articles :=
    map_fold (cleanup_step cutoff_date) ∅ (processed_articles w) in
  modify (fun w =>
    mkWorld cleaned_articles (stored w) (ticks w) (marked w)) >>
  save_processed_articles >>
  let* w' := get_world in
  let removed_count :=
    Z.of_nat (size (processed_articles w')) -
    Z.of_nat (size cleaned_articles) in
  ret removed_count.

End Manager.

(** ** The backing file and the construction of the manager *)

(** What a path of the file system names: a directory, or a regular file.
    Of a regular file the manager sees what [open] and [json.load] make of
    it: the value it holds, or an exception. *)
Inductive Node : Type :=
| Directory
| RegularFile (content : Exc pyval).

(** [os.path.isdir] *)
Definition os_path_isdir (fs : gmap pystr Node) (path : pystr) : bool :=
  match fs !! path with
  | Some Directory => true
  | _ => false
  end.

(** [os.path.isfile] *)
Definition os_path_isfile (fs : gmap pystr Node) (path : pystr) : bool :=
  match fs !! path with
  | Some (RegularFile _) => true
  | _ => false
  end.

(** [os.path.join] of two components (POSIX). *)
Definition os_path_join (a b : pystr) : pystr :=
  match b with
  | 47 :: _ => b
  | _ =>
      match last a with
      | None => b
      | Some 47 => a ++ b
      | Some _ => a ++ py "/" ++ b
      end
  end.

(** [load_processed_articles], for the manager's path: what [json.load]
    reads from the file, whatever value it is, or the empty dict when the
    path is not a regular file and when reading it raises. *)
Definition load_processed_articles (fs : gmap pystr Node) (path : pystr)
    : pyval :=
  if os_path_isfile fs path then
    match fs !! path with
    | Some (RegularFile (Ret loaded)) => loaded
    | _ => VDict []
    end
  else VDict [].

(** A freshly constructed manager: [self.processed_articles_file] and
    [self.processed_articles]. *)
Record Manager : Type := mkManager {
  processed_articles_file : pystr;
  loaded_articles : pyval
}.

(** [RSSManager.__init__] *)
Definition RSSManager_init (fs : gmap pystr Node) : Manager :=
  let file := py "processed_articles.json" in
  let file :=
    if os_path_isdir fs file then os_path_join file (py "data.json")
    else file in
  mkManager file (load_processed_articles fs file).

(** The state of a freshly constructed manager whose index is a dict of
    strings, as [Dict[str, str]] announces; the rest of the model is about
    such managers.  [stored] is the mapping that the file holds, if the
    index was read from it. *)
Definition manager_world (fs : gmap pystr Node) (m : Manager)
    : option World :=
  match as_str_dict (loaded_articles m) with
  | Some idx =>
      Some (mkWorld idx
              (match fs !! processed_articles_file m with
               | Some (RegularFile (Ret _)) => Some idx
               | _ => None
               end)
              0 [])
  | None => None
  end.

(** The file system once what [save_processed_articles] has written has
    reached the file at [path].  There is no such file system when [path]
    is a directory: [open(path, 'w')] raises there. *)
Definition disk_after (fs : gmap pystr Node) (path : pystr) (w : World)
    : option (gmap pystr Node) :=
  match stored w with
  | Some written =>
      if os_path_isdir fs path then None
      else Some (<[path := RegularFile (Ret (of_str_dict written))]> fs)
  | None => Some fs
  end.

(** ** Validating a feed URL *)

(** What the manager reads of [urllib.parse.urlparse(url)]. *)
Record ParseResult : Type := mkParseResult {
  scheme : pystr;
  netloc : pystr
}.

(** [urlparse] itself belongs to the standard library; it may raise
    [ValueError]. *)
Class UrlLib : Type := {
  urlparse : pystr -> Exc ParseResult
}.

(** The messages of the result dictionaries. *)
Inductive FeedError : Type :=
| InvalidUrl                (* "無効なURLです" *)
| SchemeNotAllowed          (* "HTTPまたはHTTPSのURLを使用してください" *)
| UrlCheckError (e : exn)   (* f"URL検証エラー: {str(e)}" *)
| FetchFailed               (* "フィードを取得できませんでした" *)
| NoEntries                 (* "有効な記事が見つかりませんでした" *)
| TestError (e : exn).      (* f"フィードテストエラー: {str(e)}" *)

(** The dictionaries returned by [validate_feed_url] and [test_feed_url]:
    [{"valid": False, "error": ...}], [{"valid": True, "error": None}], and
    the feed information with ["valid": True]. *)
Inductive TestResult : Type :=
| Invalid (error : FeedError)
| ValidUrl
| ValidFeed (feed_name feed_description : pystr) (entries_count : Z)
            (latest_entry : pystr).

Section Validator.

Context {UL : UrlLib}.
Variable env : Env.

Local Open Scope py_scope.

(** [validate_feed_url] *)
Definition validate_feed_url (url : pystr) : TestResult :=
  match urlparse url with
  | Ret parsed_url =>
      match netloc parsed_url with
      | [] => Invalid InvalidUrl
      | _ :: _ =>
          if bool_decide (scheme parsed_url ∈ [py "http"; py "https"])
          then ValidUrl
          else Invalid SchemeNotAllowed
      end
  | Raise e => Invalid (UrlCheckError e)
  end.

(** [test_feed_url] *)
Definition test_feed_url (url : pystr) : M TestResult :=
  match validate_feed_url url with
  | Invalid error => ret (Invalid error)
  | _ =>
      try_except
        (let* fetched := fetch_feed env url in
         match fetched with
         | None => ret (Invalid FetchFailed)
         | Some fd =>
             match entries fd with
             | [] => ret (Invalid NoEntries)
             | first :: _ =>
                 ret (ValidFeed
                        (FeedParserDict_get (feed fd) (py "title")
                                            (py "Unknown Feed"))
                        (FeedParserDict_get (feed fd) (py "description")
                                            (py ""))
                        (Z.of_nat (length (entries fd)))
                        (FeedParserDict_get first (py "title") (py "")))
             end
         end)
        (fun e => ret (Invalid (TestError e)))
  end.

End Validator.

(** *** An instance of [urlparse] for URLs of the form scheme://netloc/... *)

Module Url.

Definition is_alpha (c : Z) : bool :=
  ((65 <=? c) && (c <=? 90)) || ((97 <=? c) && (c <=? 122)).

Definition is_scheme_char (c : Z) : bool :=
  is_alpha c || ((48 <=? c) && (c <=? 57)) ||
  (c =? 43) || (c =? 45) || (c =? 46).

Definition lower (c : Z) : Z :=
  if (65 <=? c) && (c <=? 90) then c + 32 else c.

(** The text before the first [c] and the text after it. *)
Fixpoint split_at (c : Z) (s : pystr) : option (pystr * pystr) :=
  match s with
  | [] => None
  | x :: s' =>
      if x =? c then Some ([], s')
      else match split_at c s' with
           | Some (before, rest) => Some (x :: before, rest)
           | None => None
           end
  end.

Fixpoint until_delimiter (s : pystr) : pystr :=
  match s with
  | [] => []
  | x :: s' =>
      if (x =? 47) || (x =? 63) || (x =? 35) then []
      else x :: until_delimiter s'
  end.

Definition has (c : Z) (s : pystr) : bool := existsb (Z.eqb c) s.

Definition urlsplit (url : pystr) : Exc ParseResult :=
  let '(sch, rest) :=
    match split_at 58 url with
    | Some (c :: before, after) =>
        if is_alpha c && forallb is_scheme_char (c :: before)
        then (map lower (c :: before), after)
        else ([], url)
    | _ => ([], url)
    end in
  let loc :=
    match rest with
    | 47 :: 47 :: rest' => until_delimiter rest'
    | _ => []
    end in
  if (has 91 loc && negb (has 93 loc)) || (has 93 loc && negb (has 91 loc))
  then Raise ValueError
  else Ret (mkParseResult sch loc).

End Url.

(** Control characters and the normalisation checks of recent interpreters
    are outside this instance. *)
Definition py_urllib : UrlLib := {| urlparse := Url.urlsplit |}.

(** ** class ConfigManager *)

(** [needle in hay] for two strings. *)
Fixpoint is_prefix (needle hay : pystr) : bool :=
  match needle, hay with
  | [], _ => true
  | _ :: _, [] => false
  | x :: needle', y :: hay' => (x =? y) && is_prefix needle' hay'
  end.

Fixpoint is_substring (needle hay : pystr) : bool :=
  is_prefix needle hay ||
  match hay with
  | [] => false
  | _ :: hay' => is_substring needle hay'
  end.

(** The manager and its file: [self.config], and what is at
    [self.config_file]: nothing, or a path whose reading by [open] and
    [json.load] gives a dict or raises. *)
Record ConfigWorld : Type := mkConfigWorld {
  config : list (pystr * pyval);
  config_disk : option (Exc (list (pystr * pyval)))
}.

Module ConfigManager.

(** [get_default_config] *)
Definition get_default_config : list (pystr * pyval) :=
  [ (py "discord_token", VStr (py ""));
    (py "gemini_api_key", VStr (py ""));
    (py "lmstudio_api_url",
     VStr (py "http://localhost:1234/v1/chat/completions"));
    (py "lmstudio_api_key", VStr (py "lm-studio"));
    (py "admin_user_id", VStr (py ""));
    (py "default_check_interval", VInt 15);
    (py "feeds", VDict []);
    (py "channels", VDict []);
    (py "ai_model_settings",
     VDict [ (py "translation_model", VStr (py "gemini"));
             (py "summary_model", VStr (py "gemini"));
             (py "summary_length", VInt 200) ]) ].

(** [load_config], given what is at the path. *)
Definition load_config (disk : option (Exc (list (pystr * pyval))))
    : Exc (list (pystr * pyval)) :=
  match disk with
  | Some content => content
  | None => Ret get_default_config
  end.

(** [__init__] *)
Definition init (disk : option (Exc (list (pystr * pyval))))
    : Exc ConfigWorld :=
  match load_config disk with
  | Ret loaded => Ret (mkConfigWorld loaded disk)
  | Raise e => Raise e
  end.

(** [save_config]: the whole configuration is written out; the write is
    taken to succeed. *)
Definition save_config (c : ConfigWorld) : ConfigWorld :=
  mkConfigWorld (config c) (Some (Ret (config c))).

(** [get] *)
Definition get (key : pystr) (default : pyval) (c : ConfigWorld) : pyval :=
  match items_get key (config c) with
  | Some v => v
  | None => default
  end.

(** [set] *)
Definition set (key : pystr) (value : pyval) (c : ConfigWorld)
    : Exc unit * ConfigWorld :=
  (Ret tt,
   save_config
     (mkConfigWorld (items_set key value (config c)) (config_disk c))).

(** The body shared by [add_feed] and [add_channel]: the section is created
    when missing, the item is stored in it, and the file is written.
    Storing into a section that is not a dict raises. *)
Definition add_item (section id : pystr) (data : pyval) (c : ConfigWorld)
    : Exc unit * ConfigWorld :=
  let c1 :=
    match items_get section (config c) with
    | Some _ => c
    | None =>
        mkConfigWorld (items_set section (VDict []) (config c)) (config_disk c)
    end in
  match items_get section (config c1) with
  | Some (VDict items) =>
      (Ret tt,
       save_config
         (mkConfigWorld
            (items_set section (VDict (items_set id data items)) (config c1))
            (config_disk c1)))
  | _ => (Raise TypeError, c1)
  end.

(** [add_feed] *)
Definition add_feed (feed_id : pystr) (feed_data : pyval) (c : ConfigWorld)
    : Exc unit * ConfigWorld :=
  add_item (py "feeds") feed_id feed_data c.

(** [remove_feed].  The membership test is that of the value found under
    ["feeds"]: key of a dict, element of a list, substring of a string;
    other values are not iterable.  Deleting by a string from a list or a
    string raises. *)
Definition remove_feed (feed_id : pystr) (c : ConfigWorld)
    : Exc unit * ConfigWorld :=
  match items_get (py "feeds") (config c) with
  | None => (Ret tt, c)
  | Some (VDict feeds) =>
      match items_get feed_id feeds with
      | Some _ =>
          (Ret tt,
           save_config
             (mkConfigWorld
                (items_set (py "feeds") (VDict (items_del feed_id feeds))
                           (config c))
                (config_disk c)))
      | None => (Ret tt, c)
      end
  | Some (VList l) =>
      if existsb (fun x => match x with
                           | VStr s => bool_decide (s = feed_id)
                           | _ => false
                           end) l
      then (Raise TypeError, c) else (Ret tt, c)
  | Some (VStr s) =>
      if is_substring feed_id s then (Raise TypeError, c) else (Ret tt, c)
  | Some _ => (Raise TypeError, c)
  end.

(** [get_feeds] *)
Definition get_feeds (c : ConfigWorld) : pyval :=
  get (py "feeds") (VDict []) c.

(** [add_channel] *)
Definition add_channel (channel_id : pystr) (channel_data : pyval)
    (c : ConfigWorld) : Exc unit * ConfigWorld :=
  add_item (py "channels") channel_id channel_data c.

(** [get_channels] *)
Definition get_channels (c : ConfigWorld) : pyval :=
  get (py "channels") (VDict []) c.

End ConfigManager.

(** The feeds as [check_all_feeds] iterates over them: the items of the
    dict, each value a dict of strings. *)
Definition feeds_view (v : pyval)
    : option (list (pystr * gmap pystr pystr)) :=
  match v with
  | VDict items =>
      mapM (fun kv => match as_str_dict kv.2 with
                      | Some fields => Some (kv.1, fields)
                      | None => None
                      end) items
  | _ => None
  end.

(** ** The commands of the bot that change the configuration *)

(** Two built-ins whose full behaviour belongs to the interpreter:
    [int(text)], which raises [ValueError] on what is not a numeral, and
    [str.lower]. *)
Class Builtins : Type := {
  py_int : pystr -> Exc Z;
  str_lower : pystr -> pystr
}.

(** [str(n)] for a natural number. *)
Definition str_N (n : N) : pystr := py (NilZero.string_of_uint (N.to_uint n)).

(** [len(v)] *)
Definition py_len (v : pyval) : Exc N :=
  match v with
  | VDict items => Ret (N.of_nat (length items))
  | VList l => Ret (N.of_nat (length l))
  | VStr s => Ret (N.of_nat (length s))
  | _ => Raise TypeError
  end.

(** [s.replace(' ', '-')] *)
Definition replace_spaces (s : pystr) : pystr :=
  map (fun c => if c =? 32 then 45 else c) s.

(** What the commands see of a guild: the name and the id of its text
    channels, and what creating a channel of a given name leads to. *)
Record Guild : Type := mkGuild {
  text_channels : list (pystr * N);
  create_text_channel : pystr -> Exc N
}.

(** [RSSCog.create_or_get_channel]: the id of the channel, or [None]. *)
Definition create_or_get_channel (guild : Guild) (channel_name : pystr)
    : option N :=
  match find (fun ch => bool_decide (ch.1 = channel_name))
             (text_channels guild) with
  | Some ch => Some ch.2
  | None =>
      match create_text_channel guild channel_name with
      | Ret created => Some created
      | Raise _ => None
      end
  end.

(** What [add_rss] answers: the refusal of the test, the failure to get a
    channel, or the feed it has added with the number of entries found. *)
Inductive AddReply : Type :=
| AddRefused (error : FeedError)
| AddNoChannel
| Added (feed_id : pystr) (feed_data : pyval) (channel : N)
        (entries_count : Z).

(** What [IntervalSettingsModal.on_submit] answers. *)
Inductive IntervalReply : Type :=
| IntervalNotAllowed
| IntervalChanged (interval : Z)
| IntervalNotANumber.

(** What the commands do to the interaction they answer, each call with
    what it leads to: [interaction.response.defer()],
    [interaction.followup.send(...)] and
    [interaction.response.send_message(...)]. *)
Record Interaction : Type := mkInteraction {
  response_defer : Exc unit;
  followup_send : AddReply -> Exc unit;
  response_send_message : IntervalReply -> Exc unit
}.

Section Commands.

Context {DT : DatetimeLib} {UL : UrlLib} {BL : Builtins}.
Variable env : Env.

Variable interaction : Interaction.

(** [await interaction.followup.send(...)] as the last statement of a
    branch of [add_rss]. *)
Definition followup (reply : AddReply) : Exc AddReply :=
  match followup_send interaction reply with
  | Ret _ => Ret reply
  | Raise e => Raise e
  end.

(** [RSSCog.add_rss], with the manager's state and the configuration: the
    answer it has sent when it returns, or the exception it raises. *)
Definition add_rss (guild : Guild) (url : pystr)
    (channel_name : option pystr) (w : World) (c : ConfigWorld)
    : Exc AddReply * World * ConfigWorld :=
  match response_defer interaction with
  | Raise e => (Raise e, w, c)
  | Ret _ =>
  match test_feed_url env url w with
  | (Raise e, w1) => (Raise e, w1, c)
  | (Ret (Invalid error), w1) => (followup (AddRefused error), w1, c)
  | (Ret test_result, w1) =>
      let result_title (default : pystr) :=
        match test_result with
        | ValidFeed feed_name _ _ _ => feed_name
        | _ => default
        end in
      let channel :=
        match channel_name with
        | Some (x :: name) => create_or_get_channel guild (x :: name)
        | _ =>
            let feed_title := result_title (py "rss-feed") in
            create_or_get_channel guild
              (py "rss-" ++ replace_spaces (str_lower feed_title))
        end in
      match channel with
      | None => (followup AddNoChannel, w1, c)
      | Some channel_id =>
          match py_len (ConfigManager.get_feeds c) with
          | Raise e => (Raise e, w1, c)
          | Ret count =>
              let feed_id := py "feed_" ++ str_N (count + 1) in
              match datetime_now env w1 with
              | (Raise e, w2) => (Raise e, w2, c)
              | (Ret now, w2) =>
                  let feed_data :=
                    VDict [ (py "url", VStr url);
                            (py "name",
                             VStr (result_title (py "Unknown Feed")));
                            (py "channel_id", VStr (str_N channel_id));
                            (py "added_at", VStr (isoformat now)) ] in
                  match ConfigManager.add_feed feed_id feed_data c with
                  | (Raise e, c1) => (Raise e, w2, c1)
                  | (Ret _, c1) =>
                      (followup
                         (Added feed_id feed_data channel_id
                            match test_result with
                            | ValidFeed _ _ n _ => n
                            | _ => 0
                            end), w2, c1)
                  end
              end
          end
      end
  end
  end.

(** The handler [except ValueError] of [on_submit]: it answers that the
    text is not a number; other exceptions go on to the caller. *)
Definition on_submit_except (e : exn) (restarted : bool) (c : ConfigWorld)
    : Exc IntervalReply * bool * ConfigWorld :=
  if is_ValueError e then
    match response_send_message interaction IntervalNotANumber with
    | Ret _ => (Ret IntervalNotANumber, restarted, c)
    | Raise e' => (Raise e', restarted, c)
    end
  else (Raise e, restarted, c).

(** [IntervalSettingsModal.on_submit]: the answer it has sent when it
    returns or the exception it raises, whether [start_feed_checking] has
    been called, and the configuration.  The [try] encloses the reading of
    the number, the test, [set], [start_feed_checking] and the answers;
    [start_feed_checking], which cancels the task of the loop and creates
    a new one, is taken to return. *)
Definition IntervalSettingsModal_on_submit (value : pystr) (c : ConfigWorld)
    : Exc IntervalReply * bool * ConfigWorld :=
  match py_int value with
  | Raise e => on_submit_except e false c
  | Ret interval =>
      if bool_decide (interval ∈ [5; 15; 30; 60]) then
        match ConfigManager.set (py "default_check_interval")
                (VInt interval) c with
        | (Raise e, c1) => on_submit_except e false c1
        | (Ret _, c1) =>
            match response_send_message interaction
                    (IntervalChanged interval) with
            | Ret _ => (Ret (IntervalChanged interval), true, c1)
            | Raise e => on_submit_except e true c1
            end
        end
      else
        match response_send_message interaction IntervalNotAllowed with
        | Ret _ => (Ret IntervalNotAllowed, false, c)
        | Raise e => on_submit_except e false c
        end
  end.

End Commands.

(** *** An instance for decimal numerals and ASCII letters *)

Module Ascii10.

Fixpoint number (acc : Z) (s : pystr) : option Z :=
  match s with
  | [] => Some acc
  | c :: s' =>
      if (48 <=? c) && (c <=? 57) then number (10 * acc + (c - 48)) s'
      else None
  end.

Definition int (s : pystr) : Exc Z :=
  match s with
  | [] => Raise ValueError
  | 45 :: (_ :: _) as digits =>
      match number 0 (tl digits) with
      | Some n => Ret (- n)
      | None => Raise ValueError
      end
  | _ =>
      match number 0 s with
      | Some n => Ret n
      | None => Raise ValueError
      end
  end.

End Ascii10.

Definition py_builtins : Builtins := {|
  py_int := Ascii10.int;
  str_lower := map Url.lower
|}.

(** ** Notions used to state the properties *)

(** The fingerprint that [get_new_articles] computes for an entry. *)
Definition entry_hash (entry : gmap pystr pystr) : Exc pystr :=
  generate_article_hash
    (FeedParserDict_get entry (py "title") (py "No Title"))
    (FeedParserDict_get entry (py "link") (py "")).

(** The fingerprint of the entry can be computed: its title and link hold
    no lone surrogate. *)
Definition hashable (entry : gmap pystr pystr) : Prop :=
  exists h, entry_hash entry = Ret h.

(** The record that the loop of [get_new_articles] builds for an entry. *)
Definition article_of (fd : Feed) (url : pystr)
    (entry : gmap pystr pystr) : Article :=
  mkArticle (FeedParserDict_get entry (py "title") (py "No Title"))
            (FeedParserDict_get entry (py "link") (py ""))
            (FeedParserDict_get entry (py "description")
               (FeedParserDict_get entry (py "summary") (py "")))
            (FeedParserDict_get entry (py "published")
               (FeedParserDict_get entry (py "updated") (py "")))
            (FeedParserDict_get (feed fd) (py "title") (py "Unknown Feed"))
            url.

(** The article record of an entry, in the words of the extraction rules:
    each field is the first key of its chain that the entry has, else the
    literal.  The entry has a key when [key in entry] holds, which for a
    [FeedParserDict] is when [entry[key]] does not raise. *)
Definition first_of (entry : gmap pystr pystr) (keys : list string)
    (literal : string) : pystr :=
  match omap (fun k => FeedParserDict_getitem entry (py k)) keys with
  | v :: _ => v
  | [] => py literal
  end.

Definition spec_article (fd : Feed) (url : pystr)
    (entry : gmap pystr pystr) : Article :=
  {| title := first_of entry ["title"%string] "No Title";
     link := first_of entry ["link"%string] "";
     description := first_of entry ["description"%string; "summary"%string] "";
     published := first_of entry ["published"%string; "updated"%string] "";
     feed_title := first_of (feed fd) ["title"%string] "Unknown Feed";
     feed_url := url |}.

(** What [fetch_feed] hands to its caller. *)
Definition fetch_value (env : Env) (url : pystr) : option Feed :=
  match http_get env url with
  | NetworkError _ => None
  | Response status text =>
      if status =? 200 then
        match text with
        | Ret content =>
            match feedparser_parse env content with
            | Ret fd => Some fd
            | Raise _ => None
            end
        | Raise _ => None
        end
      else None
  end.

(** The first raw key among [keys] that the dict holds, else the
    literal. *)
Definition first_raw (d : gmap pystr pystr) (keys : list string)
    (literal : string) : pystr :=
  match omap (fun k => d !! py k) keys with
  | v :: _ => v
  | [] => py literal
  end.



(** The world after [mark_article_processed] has recorded fingerprint [h]. *)
Definition mark_world {DT : DatetimeLib} (env : Env) (h : pystr) (w : World)
    : World :=
  let idx :=
    <[h := isoformat (naive (clock env (ticks w)))]> (processed_articles w) in
  mkWorld idx (Some idx) (S (ticks w)) (marked w ++ [h]).

(** The outcome of every task of a cycle, in the order in which the tasks
    are awaited, each run in the world its predecessors left. *)
Fixpoint task_outcomes {DT : DatetimeLib} (env : Env)
    (tasks : list (pystr * pystr)) (w : World)
    : list (pystr * Exc (list Article)) :=
  match tasks with
  | [] => []
  | (feed_id, url) :: tasks' =>
      let '(r, w') := get_new_articles env url 10 w in
      (feed_id, r) :: task_outcomes env tasks' w'
  end.

(** Every entry of [es], up to the first whose fingerprint cannot be
    computed, has its fingerprint among the keys of [idx]. *)
Fixpoint settled (idx : gmap pystr pystr) (es : list (gmap pystr pystr))
    : Prop :=
  match es with
  | [] => True
  | e :: es' =>
      match entry_hash e with
      | Ret h => is_Some (idx !! h) ∧ settled idx es'
      | Raise _ => True
      end
  end.


(** What the body of the second loop of [check_all_feeds] does to [results]
    with the outcome of one task. *)
Definition record_outcome (results : gmap pystr (list Article))
    (o : pystr * Exc (list Article)) : gmap pystr (list Article) :=
  match o.2 with
  | Ret (a :: arts) => <[o.1 := a :: arts]> results
  | Ret [] => results
  | Raise _ => results
  end.

(** The timestamp [s] reads as a naive date later than [cutoff]. *)
Definition newer_than {DT : DatetimeLib} (cutoff : datetime) (s : pystr)
    : Prop :=
  exists d, fromisoformat s = Ret d /\ utcoffset d = None /\
            utcoffset cutoff = None /\ micros cutoff < micros d.

(** The timestamp [s] reads as a date before [cutoff]. *)
Definition older_than {DT : DatetimeLib} (cutoff : datetime) (s : pystr)
    : Prop :=
  exists d, fromisoformat s = Ret d /\ micros d < micros cutoff.

(** The timestamp [s] does not read as a date. *)
Definition unparseable {DT : DatetimeLib} (s : pystr) : Prop :=
  exists e, fromisoformat s = Raise e.

(** The test of the loop of [cleanup_old_processed_articles], as a flag. *)
Definition retained {DT : DatetimeLib} (cutoff : datetime) (s : pystr)
    : bool :=
  match fromisoformat s with
  | Ret d =>
      match dt_gt d cutoff with
      | Ret b => b
      | Raise _ => false
      end
  | Raise _ => false
  end.

(** The world after one reading of the clock. *)
Definition tick (w : World) : World :=
  mkWorld (processed_articles w) (stored w) (S (ticks w)) (marked w).

(** The cutoff date of a pruning that starts in [w]. *)
Definition cutoff_of (env : Env) (days : Z) (w : World) : Exc datetime :=
  match timedelta days with
  | Ret delta => dt_sub (naive (clock env (ticks w))) delta
  | Raise e => Raise e
  end.

(** Pruning as the specification words it: an entry goes exactly when its
    timestamp is older than the cutoff or does not parse. *)
Definition prune_as_worded {DT : DatetimeLib} (env : Env) (days : Z)
    (w : World) : Prop :=
  forall cutoff k s,
    cutoff_of env days w = Ret cutoff ->
    processed_articles w !! k = Some s ->
    (processed_articles (cleanup_old_processed_articles env days w).2 !! k
       = None <->
     older_than cutoff s \/ unparseable s).

(** [h] is the fingerprint of the article [a]. *)
Definition hash_of (a : Article) (h : pystr) : Prop :=
  generate_article_hash (title a) (link a) = Ret h.

(** The articles that the tasks of a cycle returned, in the order of the
    tasks. *)
Definition returned (outs : list (pystr * Exc (list Article)))
    : list Article :=
  concat (map (fun o => match o.2 with
                        | Ret arts => arts
                        | Raise _ => []
                        end) outs).

(** A code point that UTF-8 can encode: a Unicode scalar value. *)
Definition scalar (c : Z) : Prop :=
  0 <= c < 1114112 /\ ~ (55296 <= c <= 57343).

(** The keys of a dict are pairwise distinct. *)
Definition distinct_keys {V} (d : list (pystr * V)) : Prop := NoDup d.*1.


(** The ids of the feeds are [feed_1], ..., [feed_n], in this order: what
    [add_rss] alone produces. *)
Definition numbered {V} (d : list (pystr * V)) : Prop :=
  d.*1 = map (fun i => py "feed_" ++ str_N (N.of_nat i)) (seq 1 (length d)).

(** The check interval that the loop reads is one the modal allows. *)
Definition allowed_interval (c : ConfigWorld) : Prop :=
  exists i, i ∈ [5; 15; 30; 60] /\
    ConfigManager.get (py "default_check_interval") (VInt 15) c = VInt i.

(** ** A concrete deployment, for evaluating the code *)

(** A dict given by its items, keys and values being ASCII literals. *)
Definition dict_of (items : list (string * string)) : gmap pystr pystr :=
  list_to_map (map (fun kv => (py kv.1, py kv.2)) items).

(** The manager right after construction without a backing file. *)
Definition world0 : World := mkWorld ∅ None 0 [].

Module Scenario.

(** 2024-01-31T00:00:00, in microseconds. *)
Definition jan31 : Z := 63842256000000000.

(** A feed with two entries. *)
Definition news : Feed :=
  mkFeed [ dict_of [("title", "A"); ("link", "http://x/1")];
           dict_of [("title", "B"); ("link", "http://x/2")] ]%string
         (dict_of [("title", "News")]%string) false.

(** A feed whose only entry has a lone surrogate for a title. *)
Definition broken : Feed :=
  mkFeed [ <[py "title" := [55296]]>
             (dict_of [("link", "http://y/1")]%string) ] ∅ false.

(** A feed that lists the same article twice.  The parser keeps the
    description of an item under ['summary']. *)
Definition twice : Feed :=
  mkFeed [ dict_of [("title", "A"); ("link", "http://x/1");
                    ("summary", "first")];
           dict_of [("title", "A"); ("link", "http://x/1");
                    ("summary", "rewritten")] ]%string ∅ false.

(** A feed with the two articles whose title and link join to the same
    text. *)
Definition joined : Feed :=
  mkFeed [ dict_of [("title", "a|b"); ("link", "c")];
           dict_of [("title", "a"); ("link", "b|c")] ]%string ∅ false.

(** What the parser makes of a body that is not a feed, such as a page
    that is not even well-formed XML. *)
Definition not_a_feed : Feed := mkFeed [] ∅ true.

(** A podcast: the channel has a subtitle and no summary; the first item
    has a summary, a subtitle and a date of publication, the second a
    subtitle and a date of update, the third a title alone. *)
Definition podcast : Feed :=
  mkFeed [ dict_of [("title", "P1"); ("link", "http://p/1");
                    ("summary", "long"); ("subtitle", "short");
                    ("published", "Mon")];
           dict_of [("title", "P2"); ("link", "http://p/2");
                    ("subtitle", "short"); ("updated", "Tue")];
           dict_of [("title", "P3")] ]%string
         (dict_of [("title", "Pod"); ("subtitle", "Chan desc")]%string)
         false.

Definition env : Env := {|
  clock := fun n => jan31 + Z.of_nat n;
  http_get := fun url =>
    if decide (url = py "http://news/rss") then Response 200 (Ret (py "news"))
    else if decide (url = py "http://broken/rss")
         then Response 200 (Ret (py "broken"))
    else if decide (url = py "http://twice/rss")
         then Response 200 (Ret (py "twice"))
    else if decide (url = py "http://joined/rss")
         then Response 200 (Ret (py "joined"))
    else if decide (url = py "http://podcast/rss")
         then Response 200 (Ret (py "podcast"))
    else if decide (url = py "http://page/index.html")
         then Response 200 (Ret (py "<html><p>Not found"))
    else if decide (url = py "http://gone/rss") then Response 404 (Ret [])
    else NetworkError TimeoutError;
  feedparser_parse := fun body =>
    if decide (body = py "news") then Ret news
    else if decide (body = py "broken") then Ret broken
    else if decide (body = py "twice") then Ret twice
    else if decide (body = py "joined") then Ret joined
    else if decide (body = py "podcast") then Ret podcast
    else if decide (body = py "<html><p>Not found") then Ret not_a_feed
    else Raise ValueError;
  get_feeds :=
    [ (py "f1", dict_of [("url", "http://broken/rss")]%string);
      (py "f2", dict_of [("url", "http://news/rss")]%string);
      (py "f3", dict_of [("name", "no url")]%string);
      (py "f4", dict_of [("url", "")]%string);
      (py "f5", dict_of [("url", "http://down/rss")]%string) ]
|}.

(** An index with one entry, recorded on the given date. *)
Definition recorded (date : string) : World :=
  mkWorld {[ py "0cc175b9c0f1b6a831c399e269772661" := py date ]} None 0 [].

End Scenario.

(** A second deployment: two feeds that share an article, a file system
    and a configuration. *)
Module Registry.

(** A feed that repeats the first article of [Scenario.news] and has one
    of its own. *)
Definition more : Feed :=
  mkFeed [ dict_of [("title", "A"); ("link", "http://x/1")];
           dict_of [("title", "C"); ("link", "http://x/3")] ]%string
         (dict_of [("title", "More")]%string) false.

Definition env : Env := {|
  clock := fun n => Scenario.jan31 + Z.of_nat n;
  http_get := fun url =>
    if decide (url = py "http://news/rss") then Response 200 (Ret (py "news"))
    else if decide (url = py "http://more/rss")
         then Response 200 (Ret (py "more"))
    else if decide (url = py "http://broken/rss")
         then Response 200 (Ret (py "broken"))
    else if decide (url = py "http://empty/rss")
         then Response 200 (Ret (py "empty"))
    else NetworkError TimeoutError;
  feedparser_parse := fun body =>
    if decide (body = py "news") then Ret Scenario.news
    else if decide (body = py "more") then Ret more
    else if decide (body = py "broken") then Ret Scenario.broken
    else if decide (body = py "empty") then Ret (mkFeed [] ∅ false)
    else Raise ValueError;
  get_feeds :=
    [ (py "feed_1", dict_of [("url", "http://news/rss")]%string);
      (py "feed_2", dict_of [("url", "http://more/rss")]%string) ]
|}.

(** The articles of the two feeds. *)
Definition article_a : Article :=
  mkArticle (py "A") (py "http://x/1") [] [] (py "News")
            (py "http://news/rss").
Definition article_b : Article :=
  mkArticle (py "B") (py "http://x/2") [] [] (py "News")
            (py "http://news/rss").
Definition article_c : Article :=
  mkArticle (py "C") (py "http://x/3") [] [] (py "More")
            (py "http://more/rss").

(** A file system in which the path of the index is a directory. *)
Definition mounted : gmap pystr Node :=
  {[ py "processed_articles.json" := Directory ]}.

(** A file system in which the index cannot be read. *)
Definition corrupted : gmap pystr Node :=
  {[ py "processed_articles.json" := RegularFile (Raise ValueError) ]}.

(** The data of a feed as [add_rss] builds it. *)
Definition feed_data (url : string) : pyval :=
  VDict [ (py "url", VStr (py url)); (py "name", VStr (py "News"));
          (py "channel_id", VStr (py "42"));
          (py "added_at", VStr (py "2024-01-31T00:00:00")) ].

(** The same data as [check_all_feeds] reads it. *)
Definition feed_fields (url : string) : gmap pystr pystr :=
  dict_of [ ("url", url); ("name", "News"); ("channel_id", "42");
            ("added_at", "2024-01-31T00:00:00") ]%string.

(** A file system in which the file of the index holds a list. *)
Definition listing : gmap pystr Node :=
  {[ py "processed_articles.json" := RegularFile (Ret (VList [])) ]}.

(** A guild with one text channel, in which no channel can be created. *)
Definition guild : Guild :=
  mkGuild [(py "news", 42%N)] (fun _ => Raise (ClientError "Forbidden")).

(** An interaction all of whose calls return. *)
Definition answered : Interaction :=
  mkInteraction (Ret tt) (fun _ => Ret tt) (fun _ => Ret tt).

(** An interaction that can be deferred but not answered. *)
Definition expired : Interaction :=
  mkInteraction (Ret tt)
    (fun _ => Raise (ClientError "Unknown interaction"))
    (fun _ => Raise (ClientError "Unknown interaction")).

(** A configuration left with [feed_2] alone, [feed_1] having been
    removed. *)
Definition thinned : ConfigWorld :=
  mkConfigWorld
    [ (py "feeds", VDict [(py "feed_2", feed_data "http://more/rss")]) ]
    None.

(** A configuration with [feed_1] alone. *)
Definition listed : ConfigWorld :=
  mkConfigWorld
    [ (py "feeds", VDict [(py "feed_1", feed_data "http://more/rss")]) ]
    None.

(** A configuration constructed without a file. *)
Definition fresh : ConfigWorld :=
  mkConfigWorld ConfigManager.get_default_config None.

(** A configuration whose ["feeds"] is a list. *)
Definition misshapen : ConfigWorld :=
  mkConfigWorld [ (py "feeds", VList [VStr (py "feed_1")]) ] None.

End Registry.

(** ** The library functions on known values *)

(** Closes an equation between closed terms by evaluating both sides. *)
Ltac vm_refl :=
  unfold hash_of;
  lazymatch goal with
  | |- ?a = ?b => vm_cast_no_check (@eq_refl _ b)
  end.

(** RFC 1321 test suite and digests of longer inputs. *)
Example md5_empty : MD5.hexdigest [] = "d41d8cd98f00b204e9800998ecf8427e"%string.
Proof. vm_compute. reflexivity. Qed.

Example md5_a : MD5.hexdigest (py "a") = "0cc175b9c0f1b6a831c399e269772661"%string.
Proof. vm_compute. reflexivity. Qed.

Example md5_abc :
  MD5.hexdigest (py "abc") = "900150983cd24fb0d6963f7d28e17f72"%string.
Proof. vm_compute. reflexivity. Qed.

Example md5_56 :
  MD5.hexdigest (repeat 120 56) = "668a72d5ba17f08e62dabcafad6db14b"%string.
Proof. vm_compute. reflexivity. Qed.

Example md5_64 :
  MD5.hexdigest (repeat 121 64) = "b0c4864f4e28d2d76929c38d87db7ed5"%string.
Proof. vm_compute. reflexivity. Qed.

Example md5_130 :
  MD5.hexdigest (repeat 122 130) = "f48252d002fc0c3ceeccf773fa136522"%string.
Proof. vm_compute. reflexivity. Qed.

Example utf8_latin :
  encode_utf8 [233; 124; 252] = Ret [195; 169; 124; 195; 188].
Proof. reflexivity. Qed.

Example isoformat_known :
  Iso.format (naive 63844808645000678) = py "2024-02-29T13:04:05.000678" /\
  Iso.format (naive 59931622923000000) = py "1900-02-28T01:02:03" /\
  Iso.format (naive Scenario.jan31) = py "2024-01-31T00:00:00".
Proof. vm_compute. repeat split; reflexivity. Qed.

Example fromisoformat_known :
  Iso.parse (py "2023-12-31T23:59:59.999999") =
    Some (naive 63839663999999999) /\
  Iso.parse (py "9999-12-31T23:59:59") = Some (naive 315537897599000000) /\
  Iso.parse (py "2024-01-01T00:00:00+09:00") =
    Some (mkDatetime 63839664000000000 (Some 540)) /\
  Iso.parse (py "1900-02-29T00:00:00") = None /\
  Iso.parse (py "yesterday") = None.
Proof. vm_compute. repeat split; reflexivity. Qed.

(** ** Reading a [FeedParserDict] *)

(** A key that the table does not know and that is not computed is read
    as in a plain dict. *)
Lemma FeedParserDict_getitem_plain d key :
  key ≠ py "category" -> key ≠ py "enclosures" -> key ≠ py "license" ->
  key ≠ py "updated" -> key ≠ py "updated_parsed" ->
  items_get key keymap = None ->
  FeedParserDict_getitem d key = d !! key.
Proof.
  intros H1 H2 H3 H4 H5 Hmap. unfold FeedParserDict_getitem.
  rewrite !decide_False by done. rewrite Hmap. cbn.
  by destruct (d !! key).
Qed.

Ltac plain_key :=
  apply FeedParserDict_getitem_plain;
  first [ by (intros H; vm_compute in H; discriminate H)
        | vm_compute; reflexivity ].

Lemma FeedParserDict_getitem_title d :
  FeedParserDict_getitem d (py "title") = d !! py "title".
Proof. plain_key. Qed.

Lemma FeedParserDict_getitem_link d :
  FeedParserDict_getitem d (py "link") = d !! py "link".
Proof. plain_key. Qed.

Lemma FeedParserDict_getitem_summary d :
  FeedParserDict_getitem d (py "summary") = d !! py "summary".
Proof. plain_key. Qed.

Lemma FeedParserDict_getitem_published d :
  FeedParserDict_getitem d (py "published") = d !! py "published".
Proof. plain_key. Qed.

(** ['description'] is read as ['summary'], then as ['subtitle'], and only
    then as itself. *)
Lemma FeedParserDict_getitem_description d :
  FeedParserDict_getitem d (py "description") =
  match d !! py "summary" with
  | Some v => Some v
  | None =>
      match d !! py "subtitle" with
      | Some v => Some v
      | None => d !! py "description"
      end
  end.
Proof.
  unfold FeedParserDict_getitem.
  rewrite !decide_False by (intros H; vm_compute in H; discriminate H).
  replace (items_get (py "description") keymap)
    with (Some [py "summary"; py "subtitle"]) by (vm_compute; reflexivity).
  cbn [omap list_omap].
  by destruct (d !! py "summary"), (d !! py "subtitle").
Qed.

Lemma FeedParserDict_getitem_updated d :
  FeedParserDict_getitem d (py "updated") =
  match d !! py "updated" with
  | Some v => Some v
  | None => d !! py "published"
  end.
Proof.
  unfold FeedParserDict_getitem.
  rewrite !decide_False by (intros H; vm_compute in H; discriminate H).
  by rewrite decide_True by reflexivity.
Qed.

Lemma FeedParserDict_get_title d default :
  FeedParserDict_get d (py "title") default = dict_get d (py "title") default.
Proof.
  unfold FeedParserDict_get, dict_get.
  by rewrite FeedParserDict_getitem_title.
Qed.

Lemma FeedParserDict_get_link d default :
  FeedParserDict_get d (py "link") default = dict_get d (py "link") default.
Proof.
  unfold FeedParserDict_get, dict_get.
  by rewrite FeedParserDict_getitem_link.
Qed.

(** The fields of a record in terms of the items that the entry holds. *)
Lemma article_of_raw fd url e :
  article_of fd url e =
  {| title := first_raw e ["title"%string] "No Title";
     link := first_raw e ["link"%string] "";
     description :=
       first_raw e ["summary"%string; "subtitle"%string;
                    "description"%string] "";
     published := first_raw e ["published"%string; "updated"%string] "";
     feed_title := first_raw (feed fd) ["title"%string] "Unknown Feed";
     feed_url := url |}.
Proof.
  unfold article_of, first_raw, FeedParserDict_get.
  rewrite !FeedParserDict_getitem_title, FeedParserDict_getitem_link,
    FeedParserDict_getitem_description, FeedParserDict_getitem_summary,
    FeedParserDict_getitem_published, FeedParserDict_getitem_updated.
  cbn [omap list_omap].
  destruct (e !! py "title"), (e !! py "link"), (e !! py "summary"),
    (e !! py "subtitle"), (e !! py "description"), (e !! py "published"),
    (e !! py "updated"), (feed fd !! py "title"); reflexivity.
Qed.

(** ** Basic facts *)

Section Facts.

Context {DT : DatetimeLib}.
Variable env : Env.

Lemma fetch_feed_value url w :
  fetch_feed env url w = (Ret (fetch_value env url), w).
Proof.
  unfold fetch_feed, fetch_value, try_except, bind, lift, ret.
  destruct (http_get env url) as [e | status text]; [reflexivity |].
  destruct (status =? 200); [| reflexivity].
  destruct text as [content | e]; [| reflexivity].
  destruct (feedparser_parse env content); reflexivity.
Qed.

Lemma mark_article_processed_eq t l h w :
  generate_article_hash t l = Ret h ->
  mark_article_processed env t l w = (Ret tt, mark_world env h w).
Proof.
  intros Hh. unfold mark_article_processed, bind, lift. rewrite Hh.
  reflexivity.
Qed.

Lemma is_article_processed_eq t l h w :
  generate_article_hash t l = Ret h ->
  is_article_processed t l w =
  (Ret (bool_decide (is_Some (processed_articles w !! h))), w).
Proof.
  intros Hh. unfold is_article_processed, bind, lift. rewrite Hh.
  reflexivity.
Qed.

Lemma is_article_processed_raise t l e w :
  generate_article_hash t l = Raise e ->
  is_article_processed t l w = (Raise e, w).
Proof.
  intros Hh. unfold is_article_processed, bind, lift. rewrite Hh.
  reflexivity.
Qed.

(** One round of the loop of [get_new_articles]. *)
Lemma loop_cons fd url e es acc w :
  get_new_articles_loop env fd url (e :: es) acc w =
  match entry_hash e with
  | Raise ex => (Raise ex, w)
  | Ret h =>
      if bool_decide (is_Some (processed_articles w !! h))
      then get_new_articles_loop env fd url es acc w
      else get_new_articles_loop env fd url es
             (acc ++ [article_of fd url e]) (mark_world env h w)
  end.
Proof.
  unfold entry_hash. cbn [get_new_articles_loop]. unfold bind at 1.
  destruct (generate_article_hash _ _) as [h | ex] eqn:Hh.
  - rewrite (is_article_processed_eq _ _ _ _ Hh).
    destruct (bool_decide _); cbn [negb]; [reflexivity |].
    unfold bind. rewrite (mark_article_processed_eq _ _ _ _ Hh).
    reflexivity.
  - rewrite (is_article_processed_raise _ _ _ _ Hh). reflexivity.
Qed.

End Facts.

(** ** The loop of [get_new_articles] *)

Section Loop.

Context {DT : DatetimeLib}.
Variable env : Env.

Lemma mark_world_lookup h w k :
  is_Some (processed_articles (mark_world env h w) !! k) <->
  k = h \/ is_Some (processed_articles w !! k).
Proof.
  cbn. rewrite lookup_insert_is_Some. split.
  - intros [-> | [_ H]]; auto.
  - intros [-> | H]; [by left |].
    destruct (decide (h = k)); [by left | by right].
Qed.

(** The fingerprints marked by a pass are pairwise distinct, none of them
    was in the index before, and the index grows by exactly them. *)
Lemma loop_marks fd url es : forall acc w,
  exists ms,
    marked (get_new_articles_loop env fd url es acc w).2 = marked w ++ ms /\
    NoDup ms /\
    (forall h, h ∈ ms -> processed_articles w !! h = None) /\
    (forall h,
       is_Some (processed_articles
                  (get_new_articles_loop env fd url es acc w).2 !! h) <->
       is_Some (processed_articles w !! h) \/ h ∈ ms).
Proof.
  induction es as [| e es IH]; intros acc w.
  - exists []. cbn. rewrite app_nil_r. repeat split; try constructor.
    + intros h Hh. inversion Hh.
    + auto.
    + intros [H | H]; [done | inversion H].
  - rewrite loop_cons. destruct (entry_hash e) as [h | ex].
    + case_bool_decide as Hin.
      * apply IH.
      * destruct (IH (acc ++ [article_of fd url e]) (mark_world env h w))
          as (ms & Hm & Hnd & Hfresh & Hdom).
        exists (h :: ms). repeat split.
        -- rewrite Hm. cbn. by rewrite <- app_assoc.
        -- constructor; [| done]. intros Hh. apply Hfresh in Hh.
           cbn in Hh. by rewrite lookup_insert_eq in Hh.
        -- intros k [-> | Hk]%elem_of_cons.
           ++ by apply eq_None_not_Some.
           ++ apply Hfresh in Hk. cbn in Hk.
              by apply lookup_insert_None in Hk as [? _].
        -- intros Hk. apply Hdom in Hk as [Hk | Hk].
           ++ apply mark_world_lookup in Hk as [-> | Hk].
              ** right. by left.
              ** by left.
           ++ right. by right.
        -- intros [Hk | [-> | Hk]%elem_of_cons]; apply Hdom.
           ++ left. apply mark_world_lookup. by right.
           ++ left. apply mark_world_lookup. by left.
           ++ by right.
    + exists []. cbn. rewrite app_nil_r. repeat split; try constructor.
      * intros h Hh. inversion Hh.
      * auto.
      * intros [H | H]; [done | inversion H].
Qed.

Lemma loop_mono fd url es acc w h :
  is_Some (processed_articles w !! h) ->
  is_Some (processed_articles
             (get_new_articles_loop env fd url es acc w).2 !! h).
Proof.
  intros H. destruct (loop_marks fd url es acc w) as (ms & _ & _ & _ & Hd).
  apply Hd. by left.
Qed.


(** After a pass, every entry it met is in the index. *)
Lemma loop_settles fd url es : forall acc w,
  settled (processed_articles
             (get_new_articles_loop env fd url es acc w).2) es.
Proof.
  induction es as [| e es IH]; intros acc w; [done |].
  rewrite loop_cons. cbn [settled].
  destruct (entry_hash e) as [h | ex] eqn:He; [| done].
  case_bool_decide as Hin.
  - split; [by apply loop_mono | apply IH].
  - split; [| apply IH].
    apply loop_mono. apply mark_world_lookup. by left.
Qed.


(** The records a pass returns are those of a subsequence of the entries,
    appended in order to the records it started with. *)
Lemma loop_records fd url es : forall acc w arts w',
  get_new_articles_loop env fd url es acc w = (Ret arts, w') ->
  exists kept,
    sublist kept es /\ arts = acc ++ map (article_of fd url) kept.
Proof.
  induction es as [| e es IH]; intros acc w arts w' Hrun.
  - cbn in Hrun. injection Hrun as <- <-. exists []. split; [done |].
    by rewrite app_nil_r.
  - rewrite loop_cons in Hrun. destruct (entry_hash e) as [h | ex]; [| done].
    case_bool_decide.
    + destruct (IH _ _ _ _ Hrun) as (kept & Hsub & ->).
      exists kept. split; [by apply sublist_cons | done].
    + destruct (IH _ _ _ _ Hrun) as (kept & Hsub & ->).
      exists (e :: kept). split; [by apply sublist_skip |].
      by rewrite <- app_assoc.
Qed.

(** The records added by a pass are those of the fingerprints it marks, in
    the same order. *)
Lemma loop_fingerprints fd url es : forall acc w arts w',
  get_new_articles_loop env fd url es acc w = (Ret arts, w') ->
  exists new hs,
    arts = acc ++ new /\ Forall2 hash_of new hs /\
    marked w' = marked w ++ hs.
Proof.
  induction es as [| e es IH]; intros acc w arts w' Hrun.
  - cbn in Hrun. injection Hrun as <- <-. exists [], [].
    rewrite !app_nil_r. repeat split. constructor.
  - rewrite loop_cons in Hrun.
    destruct (entry_hash e) as [h | ex] eqn:He; [| discriminate Hrun].
    case_bool_decide.
    + by apply IH.
    + destruct (IH _ _ _ _ Hrun) as (new & hs & -> & Hall & Hm).
      exists (article_of fd url e :: new), (h :: hs). split; [| split].
      * by rewrite <- app_assoc.
      * constructor; [exact He | exact Hall].
      * rewrite Hm. cbn. by rewrite <- app_assoc.
Qed.

(** A pass returns when every fingerprint can be computed. *)
Lemma loop_returns fd url es : forall acc w,
  Forall hashable es ->
  exists arts w', get_new_articles_loop env fd url es acc w = (Ret arts, w').
Proof.
  induction es as [| e es IH]; intros acc w Hall.
  - by exists acc, w.
  - rewrite loop_cons. inversion Hall as [| ? ? [h Hh] Hrest]; subst.
    rewrite Hh. case_bool_decide; by apply IH.
Qed.

Lemma get_new_articles_eq url n w :
  get_new_articles env url n w =
  match fetch_value env url with
  | None => (Ret [], w)
  | Some fd =>
      get_new_articles_loop env fd url (slice_to (entries fd) n) [] w
  end.
Proof.
  unfold get_new_articles, bind. rewrite fetch_feed_value.
  by destruct (fetch_value env url).
Qed.

End Loop.

(** ** The cycle of [check_all_feeds] *)

Section Cycle.

Context {DT : DatetimeLib}.
Variable env : Env.

Lemma await_cons fid url tasks results w :
  await_tasks env ((fid, url) :: tasks) results w =
  await_tasks env tasks
    (record_outcome results (fid, (get_new_articles env url 10 w).1))
    (get_new_articles env url 10 w).2.
Proof.
  cbn [await_tasks]. unfold bind at 1. unfold try_except, bind, ret.
  unfold record_outcome.
  destruct (get_new_articles env url 10 w) as [[[| a arts] | e] w'];
    reflexivity.
Qed.

(** The cycle never raises; its result is the record of the outcomes. *)
Lemma await_outcomes tasks : forall results w,
  exists w',
    await_tasks env tasks results w =
    (Ret (fold_left record_outcome (task_outcomes env tasks w) results), w').
Proof.
  induction tasks as [| [fid url] tasks IH]; intros results w.
  - by exists w.
  - rewrite await_cons. cbn [task_outcomes].
    destruct (get_new_articles env url 10 w) as [r w1]. apply IH.
Qed.

Lemma task_outcomes_ids tasks : forall w,
  (task_outcomes env tasks w).*1 = tasks.*1.
Proof.
  induction tasks as [| [fid url] tasks IH]; intros w; [done |].
  cbn [task_outcomes]. destruct (get_new_articles env url 10 w) as [r w1].
  cbn. by rewrite IH.
Qed.

Lemma record_absent outs : forall results fid,
  fid ∉ outs.*1 ->
  fold_left record_outcome outs results !! fid = results !! fid.
Proof.
  induction outs as [| [k r] outs IH]; intros results fid Hnot; [done |].
  cbn in Hnot. apply not_elem_of_cons in Hnot as [Hne Hnot].
  cbn [fold_left]. rewrite IH by done. unfold record_outcome. cbn.
  destruct r as [[| a arts] | e]; try done. by rewrite lookup_insert_ne.
Qed.

Lemma record_present outs : forall results fid r,
  NoDup outs.*1 -> (fid, r) ∈ outs ->
  fold_left record_outcome outs results !! fid =
  match r with
  | Ret (a :: arts) => Some (a :: arts)
  | _ => results !! fid
  end.
Proof.
  induction outs as [| [k r'] outs IH]; intros results fid r Hnd Hin.
  - inversion Hin.
  - cbn in Hnd. apply NoDup_cons in Hnd as [Hk Hnd].
    cbn [fold_left]. apply elem_of_cons in Hin as [[= -> ->] | Hin].
    + rewrite record_absent by done. unfold record_outcome. cbn.
      destruct r' as [[| a arts] | e]; try done. by rewrite lookup_insert_eq.
    + rewrite (IH _ _ _ Hnd Hin).
      assert (fid ≠ k) as Hne.
      { intros ->. apply Hk. apply list_elem_of_fmap. by exists (k, r). }
      destruct r as [[| a arts] | e]; try done;
        unfold record_outcome; cbn;
        destruct r' as [[| a' arts'] | e']; try done;
        by rewrite lookup_insert_ne.
Qed.

Lemma make_tasks_ids feeds : sublist (make_tasks feeds).*1 feeds.*1.
Proof.
  induction feeds as [| [fid fd] feeds IH]; [done |]. cbn.
  destruct (fd !! py "url") as [[| c u] |]; cbn;
    first [by apply sublist_cons | by apply sublist_skip].
Qed.

Lemma make_tasks_elem feeds fid url :
  (fid, url) ∈ make_tasks feeds <->
  exists fd, (fid, fd) ∈ feeds /\ fd !! py "url" = Some url /\ url ≠ [].
Proof.
  induction feeds as [| [k fd] feeds IH]; cbn.
  - split; [by intros ?%elem_of_nil | by intros (? & ?%elem_of_nil & _)].
  - destruct (fd !! py "url") as [[| c u] |] eqn:Hu.
    + rewrite IH. split.
      * intros (fd' & Hin & H). exists fd'. split; [by right | done].
      * intros (fd' & [[= -> ->] | Hin]%elem_of_cons & Hl & Hne).
        -- congruence.
        -- by exists fd'.
    + rewrite elem_of_cons, IH. split.
      * intros [[= -> ->] | (fd' & Hin & H)].
        -- exists fd. split; [by left | done].
        -- exists fd'. split; [by right | done].
      * intros (fd' & [[= -> ->] | Hin]%elem_of_cons & Hl & Hne).
        -- left. congruence.
        -- right. by exists fd'.
    + rewrite IH. split.
      * intros (fd' & Hin & H). exists fd'. split; [by right | done].
      * intros (fd' & [[= -> ->] | Hin]%elem_of_cons & Hl & Hne).
        -- congruence.
        -- by exists fd'.
Qed.





End Cycle.

(** ** Pruning *)

Section Pruning.

Context {DT : DatetimeLib}.
Variable env : Env.

Lemma cleanup_step_retained (cutoff : datetime) (k s : pystr)
    (m : gmap pystr pystr) :
  cleanup_step cutoff k s m = if retained cutoff s then <[k := s]> m else m.
Proof.
  unfold cleanup_step, retained. destruct (fromisoformat s); [| done].
  by destruct (dt_gt _ _) as [[|] |].
Qed.

(** The loop copies exactly the entries that pass its test. *)
Lemma cleanup_fold_lookup (cutoff : datetime) (m : gmap pystr pystr)
    (k : pystr) :
  map_fold (cleanup_step cutoff) ∅ m !! k =
  match m !! k with
  | Some s => if retained cutoff s then Some s else None
  | None => None
  end.
Proof.
  revert k.
  apply (map_fold_weak_ind (fun (r m : gmap pystr pystr) =>
    forall k, r !! k = match m !! k with
                       | Some s => if retained cutoff s then Some s else None
                       | None => None
                       end)).
  - intros k. by rewrite !lookup_empty.
  - intros i x m' r Hnone IH k. rewrite cleanup_step_retained.
    destruct (decide (i = k)) as [-> | Hne].
    + rewrite lookup_insert_eq. destruct (retained cutoff x).
      * by rewrite lookup_insert_eq.
      * by rewrite IH, Hnone.
    + rewrite lookup_insert_ne by done. destruct (retained cutoff x).
      * rewrite lookup_insert_ne by done. apply IH.
      * apply IH.
Qed.

Lemma retained_newer cutoff s :
  utcoffset cutoff = None ->
  retained cutoff s = true <-> newer_than cutoff s.
Proof.
  intros Hc. unfold retained, newer_than, dt_gt. rewrite Hc. split.
  - destruct (fromisoformat s) as [d | e]; [| done].
    destruct (utcoffset d) eqn:Hd; [done |]. intros H%Z.ltb_lt.
    by exists d.
  - intros (d & -> & -> & _ & H). by apply Z.ltb_lt.
Qed.

(** The whole of [cleanup_old_processed_articles]. *)
Lemma cleanup_eq days w :
  cleanup_old_processed_articles env days w =
  match cutoff_of env days w with
  | Raise e => (Raise e, tick w)
  | Ret cutoff =>
      let cleaned :=
        map_fold (cleanup_step cutoff) ∅ (processed_articles w) in
      (Ret 0, mkWorld cleaned (Some cleaned) (S (ticks w)) (marked w))
  end.
Proof.
  unfold cleanup_old_processed_articles, cutoff_of, bind, lift, datetime_now.
  destruct (timedelta days) as [delta | e]; [| done].
  destruct (dt_sub _ delta) as [cutoff | e]; [| done].
  cbn. by rewrite Z.sub_diag.
Qed.

Lemma cutoff_of_naive days w cutoff :
  cutoff_of env days w = Ret cutoff ->
  utcoffset cutoff = None /\
  micros cutoff = clock env (ticks w) - days * MICROS_PER_DAY.
Proof.
  unfold cutoff_of, timedelta, dt_sub.
  destruct (Z.abs days <=? 999999999); [| done]. cbn.
  destruct (_ && _); [| done]. by intros [= <-].
Qed.

(** Pruning returns for every retention whose cutoff is a date. *)
Lemma cutoff_of_defined days w :
  Z.abs days <= 999999999 ->
  0 <= clock env (ticks w) - days * MICROS_PER_DAY
    < MAXORDINAL * MICROS_PER_DAY ->
  exists cutoff, cutoff_of env days w = Ret cutoff.
Proof.
  intros Hd [Hlo Hhi]. unfold cutoff_of, timedelta, dt_sub.
  apply Z.leb_le in Hd. rewrite Hd. cbn.
  apply Z.leb_le in Hlo. apply Z.ltb_lt in Hhi. rewrite Hlo, Hhi. cbn. eauto.
Qed.

End Pruning.

(** ** Fingerprints *)

Lemma generate_article_hash_content t l t' l' :
  t ++ py "|" ++ l = t' ++ py "|" ++ l' ->
  generate_article_hash t l = generate_article_hash t' l'.
Proof. unfold generate_article_hash. cbv zeta. by intros ->. Qed.

(** C1: the fingerprint is a function of the title and the link alone: two
    articles with the same title and link, whatever their description and
    published date, get the same fingerprint, and so the same answer from
    the processed check in every state of the index. *)
Theorem fingerprint_of_title_and_link (a b : Article) (w : World) :
  title a = title b -> link a = link b ->
  generate_article_hash (title a) (link a) =
    generate_article_hash (title b) (link b) /\
  is_article_processed (title a) (link a) w =
    is_article_processed (title b) (link b) w /\
  forall (DT : DatetimeLib) (env : Env) (h : pystr),
    generate_article_hash (title a) (link a) = Ret h ->
    is_article_processed (title b) (link b)
      (mark_article_processed env (title a) (link a) w).2 =
    (Ret true, (mark_article_processed env (title a) (link a) w).2).
Proof.
  intros Ht Hl. rewrite <- Ht, <- Hl.
  split; [reflexivity |]. split; [reflexivity |].
  intros DT env h Hh. rewrite (mark_article_processed_eq env _ _ _ w Hh).
  rewrite (is_article_processed_eq _ _ _ _ Hh). cbn [snd].
  rewrite bool_decide_eq_true_2; [reflexivity |].
  apply mark_world_lookup. by left.
Qed.

Lemma fingerprint_of_title_and_link_witness :
  py "first" ≠ py "rewritten" /\ py "Mon" ≠ py "Tue" /\
  generate_article_hash
    (title (mkArticle (py "A") (py "http://x/1") (py "first") (py "Mon")
                      (py "News") (py "http://news/rss")))
    (link (mkArticle (py "A") (py "http://x/1") (py "first") (py "Mon")
                     (py "News") (py "http://news/rss"))) =
  generate_article_hash
    (title (mkArticle (py "A") (py "http://x/1") (py "rewritten") (py "Tue")
                      (py "News") (py "http://news/rss")))
    (link (mkArticle (py "A") (py "http://x/1") (py "rewritten") (py "Tue")
                     (py "News") (py "http://news/rss"))).
Proof.
  split; [intros H; vm_compute in H; discriminate H |].
  split; [intros H; vm_compute in H; discriminate H |].
  apply (fingerprint_of_title_and_link
           (mkArticle (py "A") (py "http://x/1") (py "first") (py "Mon")
                      (py "News") (py "http://news/rss"))
           (mkArticle (py "A") (py "http://x/1") (py "rewritten") (py "Tue")
                      (py "News") (py "http://news/rss"))
           world0); reflexivity.
Defined.

(** C10: ("a|b", "c") and ("a", "b|c") are distinct pairs whose joined text
    is the same, so they get the same fingerprint without any collision of
    the digest; once the first is marked the second counts as processed, and
    a feed that lists both yields the first only. *)
Theorem joined_text_gives_equal_fingerprints :
  (py "a|b", py "c") ≠ (py "a", py "b|c") /\
  py "a|b" ++ py "|" ++ py "c" = py "a" ++ py "|" ++ py "b|c" /\
  generate_article_hash (py "a|b") (py "c") =
    Ret (py "2e077b3ec5932ac3cf914ebdf242b4ee") /\
  generate_article_hash (py "a") (py "b|c") =
    Ret (py "2e077b3ec5932ac3cf914ebdf242b4ee") /\
  (forall (DT : DatetimeLib) (env : Env) (w : World),
     let w1 := (mark_article_processed env (py "a|b") (py "c") w).2 in
     is_article_processed (py "a") (py "b|c") w1 = (Ret true, w1)) /\
  (get_new_articles (DT := py_datetime) Scenario.env
                    (py "http://joined/rss") 10 world0).1 =
    Ret [mkArticle (py "a|b") (py "c") [] [] (py "Unknown Feed")
                   (py "http://joined/rss")].
Proof.
  assert (generate_article_hash (py "a|b") (py "c") =
          Ret (py "2e077b3ec5932ac3cf914ebdf242b4ee")) as H1
    by (vm_compute; reflexivity).
  assert (generate_article_hash (py "a") (py "b|c") =
          Ret (py "2e077b3ec5932ac3cf914ebdf242b4ee")) as H2
    by (vm_compute; reflexivity).
  split; [| split; [| split; [| split; [| split]]]].
  - intros H. apply (f_equal (fun p => length p.1)) in H.
    vm_compute in H. discriminate H.
  - vm_compute. reflexivity.
  - exact H1.
  - exact H2.
  - intros DT env w w1. subst w1.
    rewrite (mark_article_processed_eq env _ _ _ w H1).
    rewrite (is_article_processed_eq _ _ _ _ H2). cbn [snd].
    rewrite bool_decide_eq_true_2; [reflexivity |].
    apply mark_world_lookup. by left.
  - vm_compute. reflexivity.
Qed.

(** ** Fetching *)






(** A fetch that does not fail hands over the parsed feed. *)
Lemma fetch_feed_success env url content fd w :
  http_get env url = Response 200 (Ret content) ->
  feedparser_parse env content = Ret fd ->
  fetch_feed env url w = (Ret (Some fd), w).
Proof.
  intros Hg Hp. rewrite fetch_feed_value. unfold fetch_value.
  by rewrite Hg, Hp.
Qed.

(** ** One pass over a feed *)

Lemma hash_of_article_of fd url e h :
  hash_of (article_of fd url e) h <-> entry_hash e = Ret h.
Proof. reflexivity. Qed.

(** The first entry of a pass that has a fingerprint not yet in the index:
    it is marked and recorded, and nothing else of the pass is marked or
    recorded with this fingerprint. *)
Lemma loop_first_occurrence {DT : DatetimeLib} env fd url es1 e es2 h :
  forall acc w,
  Forall hashable es1 ->
  entry_hash e = Ret h ->
  processed_articles w !! h = None ->
  (forall e', e' ∈ es1 -> entry_hash e' ≠ Ret h) ->
  exists ms1 ms2,
    marked (get_new_articles_loop env fd url (es1 ++ e :: es2) acc w).2 =
      marked w ++ ms1 ++ h :: ms2 /\
    (h ∉ ms1) /\ (h ∉ ms2) /\
    forall arts,
      (get_new_articles_loop env fd url (es1 ++ e :: es2) acc w).1 =
        Ret arts ->
      exists as1 as2,
        arts = acc ++ as1 ++ article_of fd url e :: as2 /\
        length as1 = length ms1 /\
        forall a, a ∈ as1 ++ as2 -> ~ hash_of a h.
Proof.
  induction es1 as [| e' es1 IH]; intros acc w Hall He Hnone Hfirst.
  - cbn [app]. rewrite loop_cons, He.
    rewrite bool_decide_eq_false_2
      by (rewrite Hnone; by intros [? ?]).
    destruct (loop_marks env fd url es2 (acc ++ [article_of fd url e])
                (mark_world env h w)) as (ms & Hm & _ & Hfresh & _).
    assert (h ∉ ms) as Hnot.
    { intros Hin. apply Hfresh in Hin. cbn in Hin.
      by rewrite lookup_insert_eq in Hin. }
    exists [], ms. split; [| split; [| split]].
    + rewrite Hm. cbn. by rewrite <- app_assoc.
    + by intros ?%elem_of_nil.
    + exact Hnot.
    + intros arts Harts.
      destruct (get_new_articles_loop env fd url es2
                  (acc ++ [article_of fd url e]) (mark_world env h w))
        as [r w'] eqn:Hrun.
      cbn [fst snd] in Harts, Hm. subst r.
      destruct (loop_fingerprints env fd url _ _ _ _ _ Hrun)
        as (new & hs & -> & Hnew & Hm').
      rewrite Hm' in Hm. apply app_inv_head in Hm. subst hs.
      exists [], new. split; [by rewrite <- app_assoc |].
      split; [reflexivity |]. cbn [app]. intros a Ha Hah.
      apply list_elem_of_lookup in Ha as [i Hi].
      destruct (Forall2_lookup_l _ _ _ _ _ Hnew Hi) as (h' & Hh' & Hah').
      unfold hash_of in Hah, Hah'. rewrite Hah in Hah'.
      injection Hah' as <-. apply Hnot.
      apply list_elem_of_lookup. by exists i.
  - apply Forall_cons in Hall as [[h' He'] Hall].
    assert (h' ≠ h) as Hne.
    { intros ->. by apply (Hfirst e'); [left |]. }
    assert (forall x, x ∈ es1 -> entry_hash x ≠ Ret h) as Hfirst'.
    { intros x Hx. apply Hfirst. by right. }
    cbn [app]. rewrite loop_cons, He'. case_bool_decide as Hseen.
    + by apply IH.
    + destruct (IH (acc ++ [article_of fd url e']) (mark_world env h' w)
                  Hall He) as (ms1 & ms2 & Hm & Hn1 & Hn2 & Harts);
        [cbn; by rewrite lookup_insert_ne | exact Hfirst' |].
      exists (h' :: ms1), ms2. split; [| split; [| split]].
      * rewrite Hm. cbn. by rewrite <- app_assoc.
      * intros [-> | Hin]%elem_of_cons; [done | by apply Hn1].
      * exact Hn2.
      * intros arts Hr.
        destruct (Harts arts Hr) as (as1 & as2 & -> & Hlen & Hno).
        exists (article_of fd url e' :: as1), as2.
        split; [by rewrite <- app_assoc |].
        split; [cbn; by rewrite Hlen |].
        intros a [-> | Ha]%elem_of_cons.
        -- intros Hah. apply hash_of_article_of in Hah.
           rewrite He' in Hah. by injection Hah.
        -- by apply Hno.
Qed.

(** C7: in one pass of [get_new_articles] the fingerprints recorded by
    [mark_article_processed] are pairwise distinct; each was absent from the
    index when the pass began and is present when it ends, whether the pass
    returns or raises.  The first entry that has a given fingerprint, not
    yet in the index, is marked, once; when the pass returns, its record is
    among those returned and no other record has this fingerprint: the
    later entries with the same title and link are filtered out. *)
Theorem pass_marks_each_fingerprint_once
    {DT : DatetimeLib} (env : Env) (url : pystr) (n : Z) (w : World) :
  exists ms,
    marked (get_new_articles env url n w).2 = marked w ++ ms /\
    NoDup ms /\
    (forall h, h ∈ ms ->
       processed_articles w !! h = None /\
       is_Some (processed_articles (get_new_articles env url n w).2 !! h)) /\
    forall fd es1 e es2 h,
      fetch_value env url = Some fd ->
      slice_to (entries fd) n = es1 ++ e :: es2 ->
      Forall hashable es1 ->
      entry_hash e = Ret h ->
      processed_articles w !! h = None ->
      (forall e', e' ∈ es1 -> entry_hash e' ≠ Ret h) ->
      exists ms1 ms2,
        ms = ms1 ++ h :: ms2 /\ (h ∉ ms1) /\ (h ∉ ms2) /\
        forall arts,
          (get_new_articles env url n w).1 = Ret arts ->
          exists as1 as2,
            arts = as1 ++ article_of fd url e :: as2 /\
            length as1 = length ms1 /\
            forall a, a ∈ as1 ++ as2 -> ~ hash_of a h.
Proof.
  rewrite get_new_articles_eq. destruct (fetch_value env url) as [fd |].
  - destruct (loop_marks env fd url (slice_to (entries fd) n) [] w)
      as (ms & Hm & Hnd & Hfresh & Hdom).
    exists ms. split; [exact Hm |]. split; [exact Hnd |]. split.
    + intros h Hh. split; [by apply Hfresh |]. apply Hdom. by right.
    + intros fd' es1 e es2 h [= <-] Hslice Hall He Hnone Hfirst.
      rewrite Hslice in Hm |- *.
      destruct (loop_first_occurrence env fd url es1 e es2 h [] w
                  Hall He Hnone Hfirst)
        as (ms1 & ms2 & Hm' & Hn1 & Hn2 & Harts).
      rewrite Hm in Hm'. apply app_inv_head in Hm'.
      exists ms1, ms2. split; [exact Hm' |]. split; [exact Hn1 |].
      split; [exact Hn2 |]. intros arts Hr. by apply Harts.
  - exists []. cbn [snd]. rewrite app_nil_r. split; [reflexivity |].
    split; [constructor |]. split; [intros h Hh; inversion Hh |].
    intros fd es1 e es2 h Hf. discriminate Hf.
Qed.

Lemma pass_marks_each_fingerprint_once_witness :
  exists ms1 ms2,
    marked (get_new_articles (DT := py_datetime) Scenario.env
              (py "http://twice/rss") 10 world0).2 =
      ms1 ++ py "e3d09a78d92f4f4e288cb6d59a98f5da" :: ms2 /\
    (py "e3d09a78d92f4f4e288cb6d59a98f5da" ∉ ms1) /\
    (py "e3d09a78d92f4f4e288cb6d59a98f5da" ∉ ms2).
Proof.
  destruct (pass_marks_each_fingerprint_once (DT := py_datetime)
              Scenario.env (py "http://twice/rss") 10 world0)
    as (ms & Hm & _ & _ & Hfirst).
  destruct (Hfirst Scenario.twice []
              (dict_of [("title", "A"); ("link", "http://x/1");
                        ("summary", "first")]%string)
              [dict_of [("title", "A"); ("link", "http://x/1");
                        ("summary", "rewritten")]%string]
              (py "e3d09a78d92f4f4e288cb6d59a98f5da"))
    as (ms1 & ms2 & Hms & Hn1 & Hn2 & _).
  - vm_refl.
  - reflexivity.
  - constructor.
  - vm_refl.
  - reflexivity.
  - intros e' He'. inversion He'.
  - exists ms1, ms2. rewrite Hm, Hms. by repeat split.
Defined.

(** A feed that lists the same title and link twice: the second entry is
    dropped and its fingerprint is recorded once. *)
Example pass_over_repeated_entry :
  let run := get_new_articles (DT := py_datetime) Scenario.env
               (py "http://twice/rss") 10 world0 in
  run.1 = Ret [mkArticle (py "A") (py "http://x/1") (py "first") []
                         (py "Unknown Feed") (py "http://twice/rss")] /\
  marked run.2 = [py "e3d09a78d92f4f4e288cb6d59a98f5da"].
Proof. vm_compute. split; reflexivity. Qed.

Lemma article_of_spec fd url e : article_of fd url e = spec_article fd url e.
Proof.
  unfold article_of, spec_article, first_of, FeedParserDict_get.
  cbn [omap list_omap].
  destruct (FeedParserDict_getitem e (py "title")),
    (FeedParserDict_getitem e (py "link")),
    (FeedParserDict_getitem e (py "description")),
    (FeedParserDict_getitem e (py "summary")),
    (FeedParserDict_getitem e (py "published")),
    (FeedParserDict_getitem e (py "updated")),
    (FeedParserDict_getitem (feed fd) (py "title")); reflexivity.
Qed.

Lemma slice_to_nonneg {A} (l : list A) n :
  0 <= n -> slice_to l n = take (Z.to_nat n) l.
Proof. intros H. unfold slice_to. apply Z.leb_le in H. by rewrite H. Qed.

(** C8: for a cap that is not negative, [get_new_articles] returns as soon
    as the fingerprints of the first [max_articles] entries can be computed;
    the records it returns are those of a subsequence of the first
    [max_articles] entries, in the order of the feed, and so at most
    [max_articles] of them; each field is the first key of its chain that
    the entry has, else the literal.  Since an entry is a
    [FeedParserDict], which reads ['description'] as ['summary'] and then
    as ['subtitle'], the description is, in terms of the items that the
    entry holds, its summary, else its subtitle, else its description,
    else the empty string. *)
Theorem records_follow_first_entries
    {DT : DatetimeLib} (env : Env) (url : pystr) (max_articles : Z)
    (w : World) :
  0 <= max_articles ->
  (match fetch_value env url with
   | None => True
   | Some fd => Forall hashable (take (Z.to_nat max_articles) (entries fd))
   end ->
   exists arts w',
     get_new_articles env url max_articles w = (Ret arts, w')) /\
  (forall arts w',
     get_new_articles env url max_articles w = (Ret arts, w') ->
     Z.of_nat (length arts) <= max_articles /\
     match fetch_value env url with
     | None => arts = []
     | Some fd =>
         exists kept,
           sublist kept (take (Z.to_nat max_articles) (entries fd)) /\
           arts = map (spec_article fd url) kept
     end) /\
  (forall fd e,
     spec_article fd url e =
     {| title := first_raw e ["title"%string] "No Title";
        link := first_raw e ["link"%string] "";
        description :=
          first_raw e ["summary"%string; "subtitle"%string;
                       "description"%string] "";
        published := first_raw e ["published"%string; "updated"%string] "";
        feed_title := first_raw (feed fd) ["title"%string] "Unknown Feed";
        feed_url := url |}).
Proof.
  intros Hn. rewrite get_new_articles_eq. split; [| split].
  - destruct (fetch_value env url) as [fd |]; [| by eauto].
    rewrite slice_to_nonneg by done. intros Hall. by apply loop_returns.
  - intros arts w'. destruct (fetch_value env url) as [fd |].
    + rewrite slice_to_nonneg by done. intros Hrun.
      destruct (loop_records env fd url _ _ _ _ _ Hrun) as (kept & Hsub & ->).
      cbn [app]. split.
      * rewrite length_map. apply sublist_length in Hsub.
        rewrite length_take in Hsub. lia.
      * exists kept. split; [exact Hsub |].
        apply map_ext. intros e. apply article_of_spec.
    + intros [= <- <-]. split; [cbn; lia | reflexivity].
  - intros fd e. rewrite <- article_of_spec. apply article_of_raw.
Qed.

Lemma records_follow_first_entries_witness :
  0 <= 2 /\
  (get_new_articles (DT := py_datetime) Scenario.env
     (py "http://podcast/rss") 2 world0).1 =
    Ret [ mkArticle (py "P1") (py "http://p/1") (py "long") (py "Mon")
                    (py "Pod") (py "http://podcast/rss");
          mkArticle (py "P2") (py "http://p/2") (py "short") (py "Tue")
                    (py "Pod") (py "http://podcast/rss") ] /\
  Z.of_nat 2 <= 2.
Proof.
  assert ((get_new_articles (DT := py_datetime) Scenario.env
             (py "http://podcast/rss") 2 world0).1 =
          Ret [ mkArticle (py "P1") (py "http://p/1") (py "long") (py "Mon")
                          (py "Pod") (py "http://podcast/rss");
                mkArticle (py "P2") (py "http://p/2") (py "short") (py "Tue")
                          (py "Pod") (py "http://podcast/rss") ]) as Hres
    by (vm_compute; reflexivity).
  split; [lia |]. split; [exact Hres |].
  destruct (records_follow_first_entries (DT := py_datetime) Scenario.env
              (py "http://podcast/rss") 2 world0 ltac:(lia)) as (_ & Hrec & _).
  destruct (get_new_articles (DT := py_datetime) Scenario.env
              (py "http://podcast/rss") 2 world0) as [r w'] eqn:Hrun.
  cbn [fst] in Hres. subst r.
  by destruct (Hrec _ _ eq_refl) as [Hlen _].
Defined.

(** ** One cycle over all feeds *)


(** The scenario of the specification: both articles are new in the first
    cycle and marked, the second cycle has nothing to report. *)
Example two_cycles_over_news :
  let c1 := check_all_feeds (DT := py_datetime) Scenario.env world0 in
  c1.1 = Ret {[ py "f2" :=
                  [ mkArticle (py "A") (py "http://x/1") [] [] (py "News")
                              (py "http://news/rss");
                    mkArticle (py "B") (py "http://x/2") [] [] (py "News")
                              (py "http://news/rss") ] ]} /\
  marked c1.2 = [ py "e3d09a78d92f4f4e288cb6d59a98f5da";
                  py "3cd52d429672cb4d32e5c4c5d244ea15" ] /\
  (check_all_feeds (DT := py_datetime) Scenario.env c1.2).1 = Ret ∅.
Proof. vm_compute. repeat split; reflexivity. Qed.


Lemma get_feeds_tasks_NoDup {DT : DatetimeLib} env w :
  NoDup (get_feeds env).*1 ->
  NoDup (task_outcomes env (make_tasks (get_feeds env)) w).*1.
Proof.
  intros Hnd. rewrite task_outcomes_ids.
  eapply sublist_NoDup; [exact Hnd | apply make_tasks_ids].
Qed.


Lemma scenario_feed_ids : NoDup (get_feeds Scenario.env).*1.
Proof.
  apply (bool_decide_unpack _). vm_compute. exact I.
Qed.


Lemma assoc_functional {A B} (l : list (A * B)) x y1 y2 :
  NoDup l.*1 -> (x, y1) ∈ l -> (x, y2) ∈ l -> y1 = y2.
Proof.
  induction l as [| [k v] l IH]; cbn; intros Hnd H1 H2; [inversion H1 |].
  apply NoDup_cons in Hnd as [Hk Hnd].
  apply elem_of_cons in H1 as [[= -> ->] | H1];
    apply elem_of_cons in H2 as [[= ->] | H2].
  - reflexivity.
  - exfalso. apply Hk. apply list_elem_of_fmap. by exists (k, y2).
  - subst. exfalso. apply Hk. apply list_elem_of_fmap. by exists (k, y1).
  - by apply IH.
Qed.

(** C6: a feed id is a key of the returned mapping exactly when its task
    returned a non-empty list, which is then its value; no key has the empty
    list for a value, and a feed whose ['url'] is missing or empty is not a
    key. *)
Theorem mapping_has_feeds_with_new_articles
    {DT : DatetimeLib} (env : Env) (w : World) :
  NoDup (get_feeds env).*1 ->
  exists res w',
  check_all_feeds env w = (Ret res, w') /\
  forall fid,
    (forall arts,
       res !! fid = Some arts <->
       arts ≠ [] /\
       (fid, Ret arts) ∈ task_outcomes env (make_tasks (get_feeds env)) w) /\
    res !! fid ≠ Some [] /\
    (forall fd,
       (fid, fd) ∈ get_feeds env ->
       fd !! py "url" = None \/ fd !! py "url" = Some [] ->
       res !! fid = None).
Proof.
  intros Hnd. unfold check_all_feeds.
  destruct (await_outcomes env (make_tasks (get_feeds env)) ∅ w) as [w1 H].
  eexists _, w1. split; [exact H |]. intros fid.
  pose proof (get_feeds_tasks_NoDup env w Hnd) as Hnd'.
  set (outs := task_outcomes env (make_tasks (get_feeds env)) w) in *.
  assert (forall arts,
    fold_left record_outcome outs ∅ !! fid = Some arts <->
    arts ≠ [] /\ (fid, Ret arts) ∈ outs) as Hiff.
  { intros arts. split.
    - intros Hl. destruct (decide (fid ∈ outs.*1)) as [Hin | Hnot].
      + apply list_elem_of_fmap in Hin as ([k r] & -> & Hin). cbn in Hl.
        rewrite (record_present _ ∅ k r Hnd' Hin) in Hl.
        destruct r as [[| a arts'] | e]; rewrite ?lookup_empty in Hl;
          try discriminate Hl.
        injection Hl as <-. split; [discriminate | exact Hin].
      + rewrite record_absent, lookup_empty in Hl by done. discriminate Hl.
    - intros [Hne Hin]. rewrite (record_present _ ∅ fid _ Hnd' Hin).
      by destruct arts. }
  split; [exact Hiff |]. split.
  - intros Hl. apply Hiff in Hl as [Hl _]. by apply Hl.
  - intros fd Hin Hurl. rewrite record_absent; [apply lookup_empty |].
    unfold outs. rewrite task_outcomes_ids.
    intros ([k url] & -> & Ht)%list_elem_of_fmap. cbn in Hin.
    apply make_tasks_elem in Ht as (fd' & Hin' & Hu & Hne).
    rewrite (assoc_functional _ _ _ _ Hnd Hin Hin') in Hurl.
    destruct Hurl as [Hurl | Hurl]; congruence.
Qed.

Lemma mapping_has_feeds_with_new_articles_witness :
  NoDup (get_feeds Scenario.env).*1 /\
  exists res w',
    check_all_feeds (DT := py_datetime) Scenario.env world0 = (Ret res, w') /\
    res !! py "f3" = None /\ res !! py "f4" = None /\
    res !! py "f5" ≠ Some [].
Proof.
  split; [exact scenario_feed_ids |].
  destruct (mapping_has_feeds_with_new_articles (DT := py_datetime)
              Scenario.env world0 scenario_feed_ids) as (res & w' & Hrun & Hm).
  exists res, w'. split; [exact Hrun |].
  split; [| split].
  - destruct (Hm (py "f3")) as (_ & _ & Hno).
    apply (Hno (dict_of [("name", "no url")]%string)).
    + do 2 apply list_elem_of_further. apply list_elem_of_here.
    + left. vm_compute. reflexivity.
  - destruct (Hm (py "f4")) as (_ & _ & Hno).
    apply (Hno (dict_of [("url", "")]%string)).
    + do 3 apply list_elem_of_further. apply list_elem_of_here.
    + right. vm_compute. reflexivity.
  - by destruct (Hm (py "f5")) as (_ & Hne & _).
Defined.

(** ** Pruning the index *)

(** Whatever it removes, [cleanup_old_processed_articles] returns 0: the
    count is taken after the index has been replaced by the pruned one. *)
Lemma cleanup_returns_zero {DT : DatetimeLib} env days w r w' :
  cleanup_old_processed_articles env days w = (Ret r, w') -> r = 0.
Proof.
  rewrite cleanup_eq. destruct (cutoff_of env days w); [| discriminate].
  by intros [= <- _].
Qed.

(** C3 at an index with one entry recorded on 2020-01-01, pruned on
    2024-01-31 with a retention of 30 days: the entry is removed, and the
    value returned is 0, not 1. *)
Theorem prune_returns_zero_after_removing_one :
  let w := Scenario.recorded "2020-01-01T00:00:00" in
  let run := cleanup_old_processed_articles (DT := py_datetime)
               Scenario.env 30 w in
  size (processed_articles w) = 1%nat /\
  size (processed_articles run.2) = 0%nat /\
  run.1 = Ret 0.
Proof. vm_compute. repeat split; reflexivity. Qed.

(** C9, with the boundary as the code has it: pruning returns whenever
    now - days is a date, with that date for cutoff; the entries kept are
    exactly those whose timestamp reads as a naive date later than the
    cutoff; an entry whose timestamp is
    older than the cutoff or does not parse is removed; with 30 days, an
    entry recorded 40 days ago is removed and one recorded 10 days ago is
    kept; the pruned index is what the backing file holds. *)
Theorem prune_keeps_entries_after_cutoff
    {DT : DatetimeLib} (env : Env) (days : Z) (w : World) :
  Z.abs days <= 999999999 ->
  0 <= clock env (ticks w) - days * MICROS_PER_DAY
    < MAXORDINAL * MICROS_PER_DAY ->
  exists r w' cutoff,
    cleanup_old_processed_articles env days w = (Ret r, w') /\
    cutoff_of env days w = Ret cutoff /\
    micros cutoff = clock env (ticks w) - days * MICROS_PER_DAY /\
    (forall k s,
       processed_articles w' !! k = Some s <->
       processed_articles w !! k = Some s /\ newer_than cutoff s) /\
    (forall k s,
       processed_articles w !! k = Some s ->
       older_than cutoff s \/ unparseable s ->
       processed_articles w' !! k = None) /\
    (forall k s d,
       days = 30 ->
       processed_articles w !! k = Some s ->
       fromisoformat s = Ret (naive d) ->
       (d = clock env (ticks w) - 40 * MICROS_PER_DAY ->
        processed_articles w' !! k = None) /\
       (d = clock env (ticks w) - 10 * MICROS_PER_DAY ->
        processed_articles w' !! k = Some s)) /\
    stored w' = Some (processed_articles w').
Proof.
  intros Hdays Hrange. rewrite cleanup_eq.
  destruct (cutoff_of_defined env days w Hdays Hrange) as [cutoff Hc].
  rewrite Hc. cbv zeta. eexists 0, _, cutoff. split; [reflexivity |].
  cbn [processed_articles stored].
  destruct (cutoff_of_naive env days w cutoff Hc) as [Hnaive Hmic].
  split; [reflexivity |]. split; [exact Hmic |].
  assert (forall k s,
    map_fold (cleanup_step cutoff) ∅ (processed_articles w) !! k = Some s <->
    processed_articles w !! k = Some s /\ newer_than cutoff s) as Hkept.
  { intros k s. rewrite cleanup_fold_lookup.
    destruct (processed_articles w !! k) as [s' |];
      [| split; [discriminate | intros [Hs _]; discriminate Hs]].
    destruct (retained cutoff s') eqn:Hr.
    - apply (retained_newer cutoff s' Hnaive) in Hr. split.
      + intros Hs. injection Hs as ->. split; [reflexivity | exact Hr].
      + intros [Hs _]. exact Hs.
    - split; [discriminate |]. intros [Hs Hn]. injection Hs as ->.
      apply (retained_newer cutoff s Hnaive) in Hn. congruence. }
  assert (forall k s,
    processed_articles w !! k = Some s -> ~ newer_than cutoff s ->
    map_fold (cleanup_step cutoff) ∅ (processed_articles w) !! k = None)
    as Hgone.
  { intros k s Hl Hn. apply eq_None_not_Some. intros [s' Hs'].
    apply Hkept in Hs' as [Hl' Hn']. congruence. }
  split; [exact Hkept |]. split; [| split; [| reflexivity]].
  - intros k s Hl Hold. apply (Hgone k s Hl).
    intros (d & Hd & _ & _ & Hlt).
    destruct Hold as [(d' & Hd' & Hlt') | [e He]]; [| congruence].
    rewrite Hd in Hd'. injection Hd' as <-. lia.
  - intros k s d -> Hl Hd. split; intros ->.
    + apply (Hgone k s Hl). intros (d' & Hd' & _ & _ & Hlt).
      rewrite Hd in Hd'. injection Hd' as <-. cbn in Hlt.
      unfold MICROS_PER_DAY in *. lia.
    + apply Hkept. split; [exact Hl |].
      exists (naive (clock env (ticks w) - 10 * MICROS_PER_DAY)).
      split; [exact Hd |]. split; [reflexivity |]. split; [exact Hnaive |].
      cbn. unfold MICROS_PER_DAY in *. lia.
Qed.

Lemma prune_keeps_entries_after_cutoff_witness :
  Z.abs 30 <= 999999999 /\
  0 <= Scenario.jan31 - 30 * MICROS_PER_DAY < MAXORDINAL * MICROS_PER_DAY /\
  exists r w',
    cleanup_old_processed_articles (DT := py_datetime) Scenario.env 30
      (Scenario.recorded "2024-01-21T00:00:00") = (Ret r, w') /\
    processed_articles w' !! py "0cc175b9c0f1b6a831c399e269772661" =
      Some (py "2024-01-21T00:00:00") /\
    stored w' = Some (processed_articles w').
Proof.
  assert (Z.abs 30 <= 999999999) as Hd by (vm_compute; discriminate).
  assert (0 <= Scenario.jan31 - 30 * MICROS_PER_DAY
            < MAXORDINAL * MICROS_PER_DAY) as Hr
    by (split; vm_compute; [discriminate | reflexivity]).
  split; [exact Hd |]. split; [exact Hr |].
  destruct (prune_keeps_entries_after_cutoff (DT := py_datetime)
              Scenario.env 30 (Scenario.recorded "2024-01-21T00:00:00")
              Hd Hr)
    as (r & w' & cutoff & Hrun & _ & _ & _ & _ & Hdays & Hstored).
  exists r, w'. split; [exact Hrun |]. split; [| exact Hstored].
  apply (Hdays (py "0cc175b9c0f1b6a831c399e269772661")
               (py "2024-01-21T00:00:00")
               (Scenario.jan31 - 10 * MICROS_PER_DAY) eq_refl).
  - vm_compute. reflexivity.
  - vm_compute. reflexivity.
  - vm_compute. reflexivity.
Defined.

(** C9 as worded fails at the boundary: an entry recorded exactly [days]
    days ago is neither older than the cutoff nor unparseable, and it is
    removed. *)
Lemma prune_removes_entry_at_cutoff :
  ~ prune_as_worded (DT := py_datetime) Scenario.env 30
      (Scenario.recorded "2024-01-01T00:00:00").
Proof.
  intros H.
  specialize (H (naive 63839664000000000)
                (py "0cc175b9c0f1b6a831c399e269772661")
                (py "2024-01-01T00:00:00")).
  destruct H as [H _]; [vm_compute; reflexivity | vm_compute; reflexivity |].
  destruct H as [(d & Hd & Hlt) | (e & He)].
  - vm_compute; reflexivity.
  - vm_compute in Hd. injection Hd as <-. cbn in Hlt. lia.
  - vm_compute in He. discriminate He.
Qed.

(** The same pruning keeps an entry recorded one microsecond later, and
    removes a future entry that carries a UTC offset. *)
Example prune_around_cutoff :
  processed_articles
    (cleanup_old_processed_articles (DT := py_datetime) Scenario.env 30
       (Scenario.recorded "2024-01-01T00:00:00.000001")).2
    !! py "0cc175b9c0f1b6a831c399e269772661" =
    Some (py "2024-01-01T00:00:00.000001") /\
  processed_articles
    (cleanup_old_processed_articles (DT := py_datetime) Scenario.env 30
       (Scenario.recorded "2030-01-01T00:00:00+00:00")).2
    !! py "0cc175b9c0f1b6a831c399e269772661" = None.
Proof. vm_compute. split; reflexivity. Qed.

(** ** What a pass returns and what it marks *)

Section Passes.

Context {DT : DatetimeLib}.
Variable env : Env.

(** Entries that were in the index before a pass are there afterwards, with
    the timestamp they had. *)
Lemma loop_keeps_entries fd url es : forall acc w h ts,
  processed_articles w !! h = Some ts ->
  processed_articles (get_new_articles_loop env fd url es acc w).2 !! h
    = Some ts.
Proof.
  induction es as [| e es IH]; intros acc w h ts Hl; [exact Hl |].
  rewrite loop_cons. destruct (entry_hash e) as [h' | ex]; [| exact Hl].
  case_bool_decide as Hin; [by apply IH |].
  apply IH. cbn. rewrite lookup_insert_ne; [exact Hl |].
  intros ->. apply Hin. by exists ts.
Qed.

(** A pass that adds no record leaves the world as it found it. *)
Lemma loop_nothing_new fd url es : forall acc w w',
  get_new_articles_loop env fd url es acc w = (Ret acc, w') -> w' = w.
Proof.
  induction es as [| e es IH]; intros acc w w' Hrun.
  - cbn in Hrun. by injection Hrun as <-.
  - rewrite loop_cons in Hrun.
    destruct (entry_hash e) as [h | ex]; [| discriminate Hrun].
    case_bool_decide; [by eapply IH |].
    destruct (loop_records env fd url _ _ _ _ _ Hrun) as (kept & _ & Heq).
    apply (f_equal length) in Heq. rewrite !length_app in Heq. cbn in Heq.
    lia.
Qed.

(** The world after a pass either is the one before it, or has the index
    written to the file. *)
Lemma loop_written fd url es : forall acc w,
  (get_new_articles_loop env fd url es acc w).2 = w \/
  stored (get_new_articles_loop env fd url es acc w).2 =
    Some (processed_articles (get_new_articles_loop env fd url es acc w).2).
Proof.
  induction es as [| e es IH]; intros acc w; [by left |].
  rewrite loop_cons. destruct (entry_hash e) as [h | ex]; [| by left].
  case_bool_decide; [apply IH |].
  right. destruct (IH (acc ++ [article_of fd url e]) (mark_world env h w))
    as [-> | Hs]; [reflexivity | exact Hs].
Qed.

Lemma get_new_articles_written url n w :
  (get_new_articles env url n w).2 = w \/
  stored (get_new_articles env url n w).2 =
    Some (processed_articles (get_new_articles env url n w).2).
Proof.
  rewrite get_new_articles_eq.
  destruct (fetch_value env url); [apply loop_written | by left].
Qed.

Lemma await_written tasks : forall results w,
  (await_tasks env tasks results w).2 = w \/
  stored (await_tasks env tasks results w).2 =
    Some (processed_articles (await_tasks env tasks results w).2).
Proof.
  induction tasks as [| [fid url] tasks IH]; intros results w; [by left |].
  rewrite await_cons.
  destruct (IH (record_outcome results (fid, (get_new_articles env url 10 w).1))
               (get_new_articles env url 10 w).2) as [Heq | Hs];
    [| by right].
  rewrite Heq. apply get_new_articles_written.
Qed.

Lemma get_new_articles_keeps_entries url n w h ts :
  processed_articles w !! h = Some ts ->
  processed_articles (get_new_articles env url n w).2 !! h = Some ts.
Proof.
  intros Hl. rewrite get_new_articles_eq.
  destruct (fetch_value env url); [by apply loop_keeps_entries | exact Hl].
Qed.

Lemma await_keeps_entries tasks : forall results w h ts,
  processed_articles w !! h = Some ts ->
  processed_articles (await_tasks env tasks results w).2 !! h = Some ts.
Proof.
  induction tasks as [| [fid url] tasks IH]; intros results w h ts Hl;
    [exact Hl |].
  rewrite await_cons. apply IH. by apply get_new_articles_keeps_entries.
Qed.

End Passes.

Lemma get_new_articles_marks
    {DT : DatetimeLib} (env : Env) (url : pystr) (n : Z) (w w' : World)
    (arts : list Article) :
  get_new_articles env url n w = (Ret arts, w') ->
  exists hs,
    Forall2 hash_of arts hs /\
    marked w' = marked w ++ hs /\
    NoDup hs /\
    forall h, h ∈ hs ->
      processed_articles w !! h = None /\
      is_Some (processed_articles w' !! h).
Proof.
  rewrite get_new_articles_eq. destruct (fetch_value env url) as [fd |].
  - intros Hrun.
    destruct (loop_fingerprints env fd url _ _ _ _ _ Hrun)
      as (new & hs & -> & Hall & Hm).
    destruct (loop_marks env fd url (slice_to (entries fd) n) [] w)
      as (ms & Hm' & Hnd & Hfresh & Hdom).
    rewrite Hrun in Hm', Hdom. cbn [snd] in Hm', Hdom.
    rewrite Hm in Hm'. apply app_inv_head in Hm'. subst ms.
    exists hs. cbn [app]. split; [exact Hall |]. split; [exact Hm |].
    split; [exact Hnd |]. intros h Hh.
    split; [by apply Hfresh | apply Hdom; by right].
  - intros [= <- <-]. exists []. rewrite app_nil_r.
    split; [constructor |]. split; [reflexivity |].
    split; [constructor |]. intros h Hh. inversion Hh.
Qed.

(** X1: when a pass of [get_new_articles] returns, the fingerprints it has
    recorded are, in order, those of the articles it returns: they are
    pairwise distinct, none was in the index before, all are in it after. *)
Theorem pass_returns_what_it_marks
    {DT : DatetimeLib} (env : Env) (url : pystr) (n : Z) (w w' : World)
    (arts : list Article) :
  get_new_articles env url n w = (Ret arts, w') ->
  exists hs,
    Forall2 hash_of arts hs /\
    marked w' = marked w ++ hs /\
    NoDup hs /\
    forall h, h ∈ hs ->
      processed_articles w !! h = None /\
      is_Some (processed_articles w' !! h).
Proof. apply get_new_articles_marks. Qed.

Lemma pass_returns_what_it_marks_witness :
  get_new_articles (DT := py_datetime) Scenario.env (py "http://news/rss") 10
                   world0 =
    (Ret [Registry.article_a; Registry.article_b],
     (get_new_articles (DT := py_datetime) Scenario.env
                       (py "http://news/rss") 10 world0).2) /\
  exists hs,
    Forall2 hash_of [Registry.article_a; Registry.article_b] hs /\ NoDup hs.
Proof.
  assert (get_new_articles (DT := py_datetime) Scenario.env
            (py "http://news/rss") 10 world0 =
          (Ret [Registry.article_a; Registry.article_b],
           (get_new_articles (DT := py_datetime) Scenario.env
                             (py "http://news/rss") 10 world0).2)) as Hrun
    by vm_refl.
  split; [exact Hrun |].
  destruct (pass_returns_what_it_marks (DT := py_datetime) Scenario.env
              (py "http://news/rss") 10 world0 _ _ Hrun)
    as (hs & Hall & _ & Hnd & _).
  exists hs. split; [exact Hall | exact Hnd].
Defined.

Lemma loop_ret_hashable {DT : DatetimeLib} env fd url es : forall acc w arts w',
  get_new_articles_loop env fd url es acc w = (Ret arts, w') ->
  Forall hashable es.
Proof.
  induction es as [| e es IH]; intros acc w arts w' Hrun; [constructor |].
  rewrite loop_cons in Hrun.
  destruct (entry_hash e) as [h | ex] eqn:He; [| discriminate Hrun].
  constructor; [by exists h |].
  case_bool_decide; by eapply IH.
Qed.

Lemma settled_hashable_elem (idx : gmap pystr pystr) es e h :
  settled idx es -> Forall hashable es -> e ∈ es -> entry_hash e = Ret h ->
  is_Some (idx !! h).
Proof.
  induction es as [| e' es IH]; intros Hs Hall Hin He; [inversion Hin |].
  cbn [settled] in Hs. apply Forall_cons in Hall as [[h' Hh'] Hall].
  rewrite Hh' in Hs. destruct Hs as [Hsome Hs].
  apply elem_of_cons in Hin as [-> | Hin].
  - rewrite Hh' in He. by injection He as <-.
  - by apply IH.
Qed.

(** X2: when a pass returns, no unseen entry among those it looked at is
    missed: for every entry of the slice whose fingerprint was not in the
    index, an article with that fingerprint is returned. *)
Theorem pass_reports_every_unseen_entry
    {DT : DatetimeLib} (env : Env) (url : pystr) (n : Z) (w w' : World)
    (arts : list Article) (fd : Feed) (e : gmap pystr pystr) (h : pystr) :
  get_new_articles env url n w = (Ret arts, w') ->
  fetch_value env url = Some fd ->
  e ∈ slice_to (entries fd) n ->
  entry_hash e = Ret h ->
  processed_articles w !! h = None ->
  exists a, a ∈ arts /\ hash_of a h.
Proof.
  intros Hrun Hf Hin He Hnone.
  rewrite get_new_articles_eq, Hf in Hrun.
  pose proof (loop_settles env fd url (slice_to (entries fd) n) [] w) as Hs.
  pose proof (loop_ret_hashable env fd url _ _ _ _ _ Hrun) as Hall.
  destruct (loop_marks env fd url (slice_to (entries fd) n) [] w)
    as (ms & Hm & _ & _ & Hdom).
  destruct (loop_fingerprints env fd url _ _ _ _ _ Hrun)
    as (new & hs & -> & Hnew & Hm').
  rewrite Hrun in Hs, Hm, Hdom. cbn [snd] in Hs, Hm, Hdom.
  rewrite Hm' in Hm. apply app_inv_head in Hm. subst ms.
  pose proof (settled_hashable_elem _ _ _ _ Hs Hall Hin He) as Hsome.
  apply Hdom in Hsome as [Hold | Hh].
  - rewrite Hnone in Hold. by destruct Hold.
  - apply list_elem_of_lookup in Hh as [i Hi].
    destruct (Forall2_lookup_r _ _ _ _ _ Hnew Hi) as (a & Ha & Hah).
    exists a. split; [| exact Hah]. cbn [app].
    apply list_elem_of_lookup. by exists i.
Qed.

Lemma pass_reports_every_unseen_entry_witness :
  exists a,
    a ∈ [Registry.article_a; Registry.article_b] /\
    hash_of a (py "3cd52d429672cb4d32e5c4c5d244ea15").
Proof.
  apply (pass_reports_every_unseen_entry (DT := py_datetime) Scenario.env
           (py "http://news/rss") 10 world0
           (get_new_articles (DT := py_datetime) Scenario.env
                             (py "http://news/rss") 10 world0).2
           [Registry.article_a; Registry.article_b] Scenario.news
           (dict_of [("title", "B"); ("link", "http://x/2")]%string)).
  - vm_refl.
  - vm_refl.
  - replace (slice_to (entries Scenario.news) 10)
      with (entries Scenario.news) by reflexivity.
    unfold Scenario.news. cbn [entries].
    apply list_elem_of_further, list_elem_of_here.
  - vm_refl.
  - vm_refl.
Defined.

(** X3: a pass that returns the empty list has changed nothing: no entry is
    added to the index, nothing is written, the clock is not read. *)
Theorem pass_without_news_changes_nothing
    {DT : DatetimeLib} (env : Env) (url : pystr) (n : Z) (w w' : World) :
  get_new_articles env url n w = (Ret [], w') -> w' = w.
Proof.
  rewrite get_new_articles_eq. destruct (fetch_value env url) as [fd |].
  - apply loop_nothing_new.
  - by intros [= <-].
Qed.

Lemma pass_without_news_changes_nothing_witness :
  get_new_articles (DT := py_datetime) Scenario.env (py "http://down/rss") 10
                   (Scenario.recorded "2024-01-21T00:00:00") =
    (Ret [], Scenario.recorded "2024-01-21T00:00:00") /\
  Scenario.recorded "2024-01-21T00:00:00" =
    Scenario.recorded "2024-01-21T00:00:00".
Proof.
  assert (get_new_articles (DT := py_datetime) Scenario.env
            (py "http://down/rss") 10
            (Scenario.recorded "2024-01-21T00:00:00") =
          (Ret [], Scenario.recorded "2024-01-21T00:00:00")) as Hrun
    by vm_refl.
  split; [exact Hrun |].
  apply (pass_without_news_changes_nothing (DT := py_datetime) Scenario.env
           (py "http://down/rss") 10 _ _ Hrun).
Defined.

(** X4: a cycle of [check_all_feeds] never removes an entry of the index
    and never changes the timestamp of one: what was recorded for a
    fingerprint before the cycle is recorded for it after. *)
Theorem cycle_keeps_first_seen_timestamps
    {DT : DatetimeLib} (env : Env) (w : World) (h ts : pystr) :
  processed_articles w !! h = Some ts ->
  processed_articles (check_all_feeds env w).2 !! h = Some ts.
Proof. intros Hl. unfold check_all_feeds. by apply await_keeps_entries. Qed.

Lemma cycle_keeps_first_seen_timestamps_witness :
  processed_articles
    (check_all_feeds (DT := py_datetime) Scenario.env
       (mkWorld {[ py "e3d09a78d92f4f4e288cb6d59a98f5da" :=
                     py "2024-01-21T00:00:00" ]} None 0 [])).2
    !! py "e3d09a78d92f4f4e288cb6d59a98f5da" =
  Some (py "2024-01-21T00:00:00").
Proof.
  apply (cycle_keeps_first_seen_timestamps (DT := py_datetime) Scenario.env).
  vm_compute. reflexivity.
Defined.

(** ** Fingerprints across the feeds of a cycle *)







(** ** When a fingerprint cannot be computed *)

Lemma utf8_char_scalar c : scalar c -> exists b, utf8_char c = Ret b.
Proof.
  intros [[Hlo Hhi] Hsur]. unfold utf8_char.
  destruct (Z.ltb_spec c 0); [lia |].
  destruct (Z.ltb_spec c 128); [eauto |].
  destruct (Z.ltb_spec c 2048); [eauto |].
  destruct (Z.ltb_spec c 65536).
  - destruct (Z.leb_spec 55296 c), (Z.leb_spec c 57343); cbn; eauto. lia.
  - destruct (Z.ltb_spec c 1114112); [eauto | lia].
Qed.

Lemma utf8_char_raise c e :
  utf8_char c = Raise e -> e = UnicodeEncodeError /\ ~ scalar c.
Proof.
  unfold utf8_char, scalar.
  destruct (Z.ltb_spec c 0); [intros [= <-]; split; [done | lia] |].
  destruct (Z.ltb_spec c 128); [discriminate |].
  destruct (Z.ltb_spec c 2048); [discriminate |].
  destruct (Z.ltb_spec c 65536).
  - destruct (Z.leb_spec 55296 c), (Z.leb_spec c 57343); cbn;
      try discriminate.
    intros [= <-]. split; [done | lia].
  - destruct (Z.ltb_spec c 1114112); [discriminate |].
    intros [= <-]. split; [done | lia].
Qed.

Lemma encode_utf8_scalar s : Forall scalar s -> exists b, encode_utf8 s = Ret b.
Proof.
  induction 1 as [| c s Hc Hs [b Hb]]; cbn; [eauto |].
  destruct (utf8_char_scalar c Hc) as [bc ->]. rewrite Hb. eauto.
Qed.

Lemma encode_utf8_raise s e :
  encode_utf8 s = Raise e ->
  e = UnicodeEncodeError /\ exists c, c ∈ s /\ ~ scalar c.
Proof.
  induction s as [| c s IH]; cbn; [discriminate |].
  destruct (utf8_char c) as [bc | ec] eqn:Hc.
  - destruct (encode_utf8 s) as [b | es]; [discriminate |].
    intros [= <-]. destruct (IH eq_refl) as [-> (c' & Hin & Hns)].
    split; [done |]. exists c'. split; [by right | done].
  - intros [= <-]. destruct (utf8_char_raise c ec Hc) as [-> Hns].
    split; [done |]. exists c. split; [by left | done].
Qed.

Lemma py_bar_scalar : Forall scalar (py "|").
Proof.
  change (py "|") with [124]. constructor; [| constructor].
  unfold scalar. lia.
Qed.

Lemma generate_article_hash_scalar t l :
  Forall scalar t -> Forall scalar l ->
  exists h, generate_article_hash t l = Ret h.
Proof.
  intros Ht Hl. unfold generate_article_hash. cbv zeta.
  destruct (encode_utf8_scalar (t ++ py "|" ++ l)) as [b ->]; [| eauto].
  apply Forall_app. split; [done |]. apply Forall_app. split; [| done].
  apply py_bar_scalar.
Qed.

Lemma generate_article_hash_raise t l e :
  generate_article_hash t l = Raise e ->
  e = UnicodeEncodeError /\ exists c, (c ∈ t \/ c ∈ l) /\ ~ scalar c.
Proof.
  unfold generate_article_hash. cbv zeta.
  destruct (encode_utf8 (t ++ py "|" ++ l)) as [b | ex] eqn:He;
    [discriminate |].
  intros [= <-]. destruct (encode_utf8_raise _ _ He) as [-> (c & Hin & Hns)].
  split; [done |]. exists c. split; [| done].
  apply elem_of_app in Hin as [Hin | Hin]; [by left |].
  apply elem_of_app in Hin as [Hin | Hin]; [| by right].
  exfalso. apply Hns.
  pose proof py_bar_scalar as Hbar. rewrite Forall_forall in Hbar.
  by apply Hbar.
Qed.

(** X6: [generate_article_hash] returns a digest exactly when the title and
    the link consist of Unicode scalar values; with a lone surrogate in
    either it raises [UnicodeEncodeError], and nothing else. *)
Theorem fingerprint_defined_for_scalar_text (t l : pystr) :
  ((exists h, generate_article_hash t l = Ret h) <->
   Forall scalar t /\ Forall scalar l) /\
  (forall e, generate_article_hash t l = Raise e -> e = UnicodeEncodeError).
Proof.
  split; [split |].
  - intros [h Hh].
    assert (forall c, c ∈ t \/ c ∈ l -> scalar c) as Hall.
    { intros c Hc.
      destruct (decide (0 <= c < 1114112 /\ ~ 55296 <= c <= 57343))
        as [Hs | Hns]; [exact Hs |].
      exfalso.
      assert (exists e, generate_article_hash t l = Raise e) as [e He].
      { unfold generate_article_hash. cbv zeta.
        assert (exists e, encode_utf8 (t ++ py "|" ++ l) = Raise e)
          as [e ->]; [| eauto].
        assert (c ∈ t ++ py "|" ++ l) as Hin.
        { rewrite !elem_of_app. tauto. }
        clear Hh Hc. induction (t ++ py "|" ++ l) as [| x s IH]; cbn.
        - inversion Hin.
        - destruct (utf8_char x) as [bx | ex] eqn:Hx; [| eauto].
          apply elem_of_cons in Hin as [-> | Hin].
          + exfalso. unfold utf8_char in Hx. unfold scalar in Hns.
            destruct (Z.ltb_spec x 0); [discriminate |].
            destruct (Z.ltb_spec x 128); [lia |].
            destruct (Z.ltb_spec x 2048); [lia |].
            destruct (Z.ltb_spec x 65536).
            * destruct (Z.leb_spec 55296 x), (Z.leb_spec x 57343);
                cbn in Hx; try discriminate; lia.
            * destruct (Z.ltb_spec x 1114112); [lia | discriminate].
          + destruct (IH Hin) as [e ->]. eauto. }
      rewrite Hh in He. discriminate He. }
    split; apply Forall_forall; intros c Hc; apply Hall; tauto.
  - intros [Ht Hl]. by apply generate_article_hash_scalar.
  - intros e He. by destruct (generate_article_hash_raise t l e He).
Qed.

Lemma utf8_char_ret c b : utf8_char c = Ret b -> scalar c.
Proof.
  unfold utf8_char, scalar.
  destruct (Z.ltb_spec c 0); [discriminate |].
  destruct (Z.ltb_spec c 128); [intros _; lia |].
  destruct (Z.ltb_spec c 2048); [intros _; lia |].
  destruct (Z.ltb_spec c 65536).
  - destruct (Z.leb_spec 55296 c), (Z.leb_spec c 57343); cbn;
      try discriminate; intros _; lia.
  - destruct (Z.ltb_spec c 1114112); [intros _; lia | discriminate].
Qed.

Lemma encode_utf8_ret s b : encode_utf8 s = Ret b -> Forall scalar s.
Proof.
  revert b. induction s as [| c s IH]; intros b; cbn; [constructor |].
  destruct (utf8_char c) as [bc | e] eqn:Hc; [| discriminate].
  destruct (encode_utf8 s) as [rest | e]; [| discriminate].
  intros _. constructor; [by eapply utf8_char_ret | by eapply IH].
Qed.

Lemma generate_article_hash_ret t l h :
  generate_article_hash t l = Ret h -> Forall scalar t /\ Forall scalar l.
Proof.
  unfold generate_article_hash. cbv zeta.
  destruct (encode_utf8 (t ++ py "|" ++ l)) as [b | e] eqn:He;
    [| discriminate].
  intros _. apply encode_utf8_ret in He.
  apply Forall_app in He as [Ht He]. by apply Forall_app in He as [_ Hl].
Qed.

(** X7: an entry among those that [get_new_articles] looks at whose title
    or link holds a code point that is not a scalar value makes the pass
    raise: nothing is returned, the records of the entries before it
    included. *)
Theorem unencodable_entry_aborts_pass
    {DT : DatetimeLib} (env : Env) (url : pystr) (n : Z) (w : World)
    (fd : Feed) (entry : gmap pystr pystr) (c : Z) :
  fetch_value env url = Some fd ->
  entry ∈ slice_to (entries fd) n ->
  c ∈ FeedParserDict_get entry (py "title") (py "No Title") \/
  c ∈ FeedParserDict_get entry (py "link") (py "") ->
  ~ scalar c ->
  exists e w', get_new_articles env url n w = (Raise e, w').
Proof.
  intros Hf Hin Hc Hns.
  destruct (get_new_articles env url n w) as [[arts | e] w'] eqn:Hrun;
    [| by eauto].
  exfalso. rewrite get_new_articles_eq, Hf in Hrun.
  pose proof (loop_ret_hashable env fd url _ _ _ _ _ Hrun) as Hall.
  rewrite Forall_forall in Hall. destruct (Hall entry Hin) as [h Hh].
  destruct (generate_article_hash_ret _ _ _ Hh) as [Ht Hl].
  rewrite Forall_forall in Ht, Hl.
  destruct Hc as [Hc | Hc]; [by apply Hns, Ht | by apply Hns, Hl].
Qed.

Lemma unencodable_entry_aborts_pass_witness :
  ~ scalar 55296 /\
  exists e w',
    get_new_articles (DT := py_datetime) Scenario.env (py "http://broken/rss")
                     10 world0 = (Raise e, w').
Proof.
  assert (~ scalar 55296) as Hns by (unfold scalar; lia).
  split; [exact Hns |].
  apply (unencodable_entry_aborts_pass (DT := py_datetime) Scenario.env
           (py "http://broken/rss") 10 world0 Scenario.broken
           (<[py "title" := [55296]]>
              (dict_of [("link", "http://y/1")]%string)) 55296).
  - vm_refl.
  - replace (slice_to (entries Scenario.broken) 10)
      with (entries Scenario.broken) by reflexivity.
    apply list_elem_of_here.
  - left.
    replace (FeedParserDict_get
               (<[py "title" := [55296]]>
                  (dict_of [("link", "http://y/1")]%string))
               (py "title") (py "No Title")) with [55296] by vm_refl.
    apply list_elem_of_here.
  - exact Hns.
Defined.

(** ** More on pruning *)

Lemma cutoff_of_raise env days w e :
  cutoff_of env days w = Raise e ->
  e = OverflowError /\
  (999999999 < Z.abs days \/
   ~ (0 <= clock env (ticks w) - days * MICROS_PER_DAY
        < MAXORDINAL * MICROS_PER_DAY)).
Proof.
  unfold cutoff_of, timedelta, dt_sub.
  destruct (Z.leb_spec (Z.abs days) 999999999) as [Hd | Hd].
  - cbn [micros naive].
    destruct (Z.leb_spec 0 (clock env (ticks w) - days * MICROS_PER_DAY)),
      (Z.ltb_spec (clock env (ticks w) - days * MICROS_PER_DAY)
                  (MAXORDINAL * MICROS_PER_DAY)); cbn; try discriminate;
      intros [= <-]; (split; [reflexivity | right; lia]).
  - intros [= <-]. split; [reflexivity | left; lia].
Qed.

Lemma cutoff_of_ret env days w cutoff :
  cutoff_of env days w = Ret cutoff ->
  Z.abs days <= 999999999 /\
  0 <= clock env (ticks w) - days * MICROS_PER_DAY
    < MAXORDINAL * MICROS_PER_DAY.
Proof.
  unfold cutoff_of, timedelta, dt_sub.
  destruct (Z.leb_spec (Z.abs days) 999999999) as [Hd | Hd];
    [| discriminate].
  cbn [micros naive].
  destruct (Z.leb_spec 0 (clock env (ticks w) - days * MICROS_PER_DAY)),
    (Z.ltb_spec (clock env (ticks w) - days * MICROS_PER_DAY)
                (MAXORDINAL * MICROS_PER_DAY)); cbn; try discriminate.
  intros _. lia.
Qed.

(** X8: a retention for which the cutoff date cannot be computed, because
    it exceeds what a [timedelta] holds or because now - days is not a
    date, makes [cleanup_old_processed_articles] raise [OverflowError] on
    its first line: it has read the clock and done nothing else, the
    index, the file and the log are as before. *)
Theorem prune_failure_leaves_index
    {DT : DatetimeLib} (env : Env) (days : Z) (w : World) :
  999999999 < Z.abs days \/
  ~ (0 <= clock env (ticks w) - days * MICROS_PER_DAY
       < MAXORDINAL * MICROS_PER_DAY) ->
  cleanup_old_processed_articles env days w = (Raise OverflowError, tick w).
Proof.
  intros Hwhy. rewrite cleanup_eq.
  destruct (cutoff_of env days w) as [cutoff | ex] eqn:Hc.
  - destruct (cutoff_of_ret env days w cutoff Hc) as [Hd Hr].
    exfalso. destruct Hwhy as [Hbig | Hout]; [lia | by apply Hout].
  - by destruct (cutoff_of_raise env days w ex Hc) as [-> _].
Qed.

Lemma prune_failure_leaves_index_witness :
  999999999 < Z.abs 1000000000 /\
  cleanup_old_processed_articles (DT := py_datetime) Scenario.env 1000000000
    (Scenario.recorded "2020-01-01T00:00:00") =
    (Raise OverflowError, tick (Scenario.recorded "2020-01-01T00:00:00")) /\
  processed_articles (tick (Scenario.recorded "2020-01-01T00:00:00")) =
    processed_articles (Scenario.recorded "2020-01-01T00:00:00").
Proof.
  assert (999999999 < Z.abs 1000000000) as Hbig by (cbn; lia).
  split; [exact Hbig |]. split; [| reflexivity].
  apply (prune_failure_leaves_index (DT := py_datetime) Scenario.env
           1000000000 (Scenario.recorded "2020-01-01T00:00:00")).
  by left.
Defined.

(** X9: pruning the same index at the same moment with a longer retention
    keeps every entry that a shorter retention keeps. *)
Theorem longer_retention_keeps_more
    {DT : DatetimeLib} (env : Env) (days1 days2 : Z) (w w1 w2 : World)
    (r1 r2 : Z) (k s : pystr) :
  days1 <= days2 ->
  cleanup_old_processed_articles env days1 w = (Ret r1, w1) ->
  cleanup_old_processed_articles env days2 w = (Ret r2, w2) ->
  processed_articles w1 !! k = Some s ->
  processed_articles w2 !! k = Some s.
Proof.
  intros Hle. rewrite !cleanup_eq.
  destruct (cutoff_of env days1 w) as [c1 |] eqn:Hc1; [| discriminate].
  destruct (cutoff_of env days2 w) as [c2 |] eqn:Hc2; [| discriminate].
  cbv zeta. intros [= _ <-] [= _ <-]. cbn [processed_articles].
  rewrite !cleanup_fold_lookup.
  destruct (processed_articles w !! k) as [s' |]; [| done].
  destruct (cutoff_of_naive env days1 w c1 Hc1) as [Hn1 Hm1].
  destruct (cutoff_of_naive env days2 w c2 Hc2) as [Hn2 Hm2].
  destruct (retained c1 s') eqn:Hr1; [| discriminate].
  intros Hs. apply (retained_newer c1 s' Hn1) in Hr1.
  destruct Hr1 as (d & Hd & Hdn & _ & Hlt).
  assert (retained c2 s' = true) as ->; [| exact Hs].
  apply (retained_newer c2 s' Hn2). exists d.
  repeat split; try done. unfold MICROS_PER_DAY in *. lia.
Qed.

Lemma longer_retention_keeps_more_witness :
  processed_articles
    (cleanup_old_processed_articles (DT := py_datetime) Scenario.env 60
       (Scenario.recorded "2024-01-21T00:00:00")).2
    !! py "0cc175b9c0f1b6a831c399e269772661" =
  Some (py "2024-01-21T00:00:00").
Proof.
  apply (longer_retention_keeps_more (DT := py_datetime) Scenario.env 30 60
           (Scenario.recorded "2024-01-21T00:00:00")
           (cleanup_old_processed_articles (DT := py_datetime) Scenario.env 30
              (Scenario.recorded "2024-01-21T00:00:00")).2
           (cleanup_old_processed_articles (DT := py_datetime) Scenario.env 60
              (Scenario.recorded "2024-01-21T00:00:00")).2
           0 0).
  - lia.
  - vm_refl.
  - vm_refl.
  - vm_refl.
Defined.

(** X10: an article that has just been marked survives a pruning whose
    cutoff lies before the moment of the marking, provided the timestamp
    written for it reads back as that moment. *)
Theorem fresh_mark_survives_pruning
    {DT : DatetimeLib} (env : Env) (t l h : pystr) (days r : Z)
    (w w' : World) :
  generate_article_hash t l = Ret h ->
  fromisoformat (isoformat (naive (clock env (ticks w)))) =
    Ret (naive (clock env (ticks w))) ->
  clock env (S (ticks w)) - days * MICROS_PER_DAY < clock env (ticks w) ->
  cleanup_old_processed_articles env days
    (mark_article_processed env t l w).2 = (Ret r, w') ->
  is_article_processed t l w' = (Ret true, w').
Proof.
  intros Hh Hround Hlt. rewrite (mark_article_processed_eq env _ _ _ w Hh).
  cbn [snd]. rewrite cleanup_eq.
  destruct (cutoff_of env days (mark_world env h w)) as [cutoff |] eqn:Hc;
    [| discriminate].
  cbv zeta. intros [= _ <-]. rewrite (is_article_processed_eq _ _ _ _ Hh).
  cbn [processed_articles]. rewrite bool_decide_eq_true_2; [reflexivity |].
  rewrite cleanup_fold_lookup. cbn [processed_articles mark_world].
  rewrite lookup_insert_eq.
  destruct (cutoff_of_naive env days _ cutoff Hc) as [Hn Hm].
  cbn [ticks mark_world] in Hm.
  assert (retained cutoff (isoformat (naive (clock env (ticks w)))) = true)
    as ->; [| by eexists].
  apply (retained_newer cutoff _ Hn).
  exists (naive (clock env (ticks w))). repeat split; try done. cbn. lia.
Qed.

Lemma fresh_mark_survives_pruning_witness :
  is_article_processed (py "A") (py "http://x/1")
    (cleanup_old_processed_articles (DT := py_datetime) Scenario.env 30
       (mark_article_processed (DT := py_datetime) Scenario.env
          (py "A") (py "http://x/1") world0).2).2 =
  (Ret true,
   (cleanup_old_processed_articles (DT := py_datetime) Scenario.env 30
      (mark_article_processed (DT := py_datetime) Scenario.env
         (py "A") (py "http://x/1") world0).2).2).
Proof.
  apply (fresh_mark_survives_pruning (DT := py_datetime) Scenario.env
           (py "A") (py "http://x/1")
           (py "e3d09a78d92f4f4e288cb6d59a98f5da") 30 0 world0).
  - vm_refl.
  - vm_refl.
  - vm_compute. reflexivity.
  - vm_refl.
Defined.

(** ** The index across restarts *)

Lemma as_str_dict_of_str_dict idx : as_str_dict (of_str_dict idx) = Some idx.
Proof.
  unfold as_str_dict, of_str_dict.
  assert (forall l : list (pystr * pystr),
    mapM (fun kv : pystr * pyval =>
            match kv.2 with
            | VStr s => Some (kv.1, s)
            | _ => None
            end)
         (map (fun kv : pystr * pystr => (kv.1, VStr kv.2)) l) = Some l)
    as Hl.
  { induction l as [| [k v] l IH]; [reflexivity |]. cbn. by rewrite IH. }
  rewrite Hl. cbn. by rewrite list_to_map_to_list.
Qed.

Lemma data_path_differs :
  os_path_join (py "processed_articles.json") (py "data.json") ≠
  py "processed_articles.json".
Proof. intros H. apply (f_equal length) in H. vm_compute in H. lia. Qed.

(** A manager constructed once the index has been written to the file of
    the one before uses the same file and loads what was written. *)
Lemma init_after_write fs idx :
  os_path_isdir fs (processed_articles_file (RSSManager_init fs)) = false ->
  RSSManager_init
    (<[processed_articles_file (RSSManager_init fs) :=
         RegularFile (Ret (of_str_dict idx))]> fs) =
  mkManager (processed_articles_file (RSSManager_init fs)) (of_str_dict idx).
Proof.
  unfold RSSManager_init. cbv zeta. cbn [processed_articles_file].
  destruct (os_path_isdir fs (py "processed_articles.json")) eqn:Hd;
    intros Hfile.
  - assert (os_path_isdir
              (<[os_path_join (py "processed_articles.json") (py "data.json")
                   := RegularFile (Ret (of_str_dict idx))]> fs)
              (py "processed_articles.json") = true) as ->.
    { unfold os_path_isdir in *.
      by rewrite lookup_insert_ne by apply data_path_differs. }
    unfold load_processed_articles, os_path_isfile.
    by rewrite lookup_insert_eq.
  - assert (os_path_isdir
              (<[py "processed_articles.json"
                   := RegularFile (Ret (of_str_dict idx))]> fs)
              (py "processed_articles.json") = false) as ->.
    { unfold os_path_isdir. by rewrite lookup_insert_eq. }
    unfold load_processed_articles, os_path_isfile.
    by rewrite lookup_insert_eq.
Qed.

Lemma restart_after_write fs w fs' :
  stored w = Some (processed_articles w) ->
  disk_after fs (processed_articles_file (RSSManager_init fs)) w = Some fs' ->
  processed_articles_file (RSSManager_init fs') =
    processed_articles_file (RSSManager_init fs) /\
  manager_world fs' (RSSManager_init fs') =
    Some (mkWorld (processed_articles w) (Some (processed_articles w)) 0 []).
Proof.
  intros Hs. unfold disk_after. rewrite Hs.
  destruct (os_path_isdir fs (processed_articles_file (RSSManager_init fs)))
    eqn:Hd; [discriminate |].
  intros [= <-]. rewrite (init_after_write fs _ Hd).
  split; [reflexivity |]. unfold manager_world.
  cbn [loaded_articles processed_articles_file].
  by rewrite as_str_dict_of_str_dict, lookup_insert_eq.
Qed.

(** A pass that returns a record has written the index to the file. *)
Lemma pass_with_news_is_written {DT : DatetimeLib} env url n w a arts w' :
  get_new_articles env url n w = (Ret (a :: arts), w') ->
  stored w' = Some (processed_articles w').
Proof.
  intros Hrun.
  destruct (get_new_articles_written env url n w) as [Heq | Hs];
    rewrite Hrun in *; cbn [snd] in *; [| exact Hs].
  subst w'. destruct (get_new_articles_marks env url n w w _ Hrun)
    as (hs & Hall & Hm & _).
  apply Forall2_length in Hall. apply (f_equal length) in Hm.
  rewrite length_app in Hm. cbn in Hall. lia.
Qed.

Lemma loop_known {DT : DatetimeLib} env fd url es : forall acc w,
  settled (processed_articles w) es -> Forall hashable es ->
  get_new_articles_loop env fd url es acc w = (Ret acc, w).
Proof.
  induction es as [| e es IH]; intros acc w Hs Hall; [reflexivity |].
  rewrite loop_cons. cbn [settled] in Hs.
  apply Forall_cons in Hall as [[h Hh] Hall]. rewrite Hh in Hs |- *.
  destruct Hs as [Hsome Hs]. rewrite bool_decide_eq_true_2 by done.
  by apply IH.
Qed.

(** When a pass has returned, a pass over the same feed from an index that
    holds what it left returns nothing. *)
Lemma pass_over_known {DT : DatetimeLib} env url n w arts w1 w2 :
  get_new_articles env url n w = (Ret arts, w1) ->
  processed_articles w2 = processed_articles w1 ->
  get_new_articles env url n w2 = (Ret [], w2).
Proof.
  rewrite !get_new_articles_eq.
  destruct (fetch_value env url) as [fd |]; [| done].
  intros Hrun Hidx.
  pose proof (loop_settles env fd url (slice_to (entries fd) n) [] w) as Hs.
  rewrite Hrun in Hs. cbn [snd] in Hs. rewrite <- Hidx in Hs.
  apply loop_known; [exact Hs |]. by eapply loop_ret_hashable.
Qed.

(** X11: what a pass has reported is not reported again after a restart.
    When a pass of a freshly constructed manager returns a record, it has
    written the index to its file; a manager constructed on the file
    system that this leaves uses the same file, loads the index that the
    first one had, and its pass over the same feed returns nothing. *)
Theorem restart_reloads_index
    {DT : DatetimeLib} (env : Env) (fs fs' : gmap pystr Node) (url : pystr)
    (n : Z) (w w' : World) (a : Article) (arts : list Article) :
  manager_world fs (RSSManager_init fs) = Some w ->
  get_new_articles env url n w = (Ret (a :: arts), w') ->
  disk_after fs (processed_articles_file (RSSManager_init fs)) w' =
    Some fs' ->
  processed_articles_file (RSSManager_init fs') =
    processed_articles_file (RSSManager_init fs) /\
  exists w'',
    manager_world fs' (RSSManager_init fs') = Some w'' /\
    processed_articles w'' = processed_articles w' /\
    get_new_articles env url n w'' = (Ret [], w'').
Proof.
  intros _ Hrun Hdisk.
  pose proof (pass_with_news_is_written env url n w a arts w' Hrun) as Hs.
  destruct (restart_after_write fs w' fs' Hs Hdisk) as [Hpath Hworld].
  split; [exact Hpath |]. eexists. split; [exact Hworld |].
  split; [reflexivity |].
  by apply (pass_over_known env url n w (a :: arts) w').
Qed.

Lemma restart_reloads_index_witness :
  manager_world Registry.mounted (RSSManager_init Registry.mounted) =
    Some world0 /\
  processed_articles_file (RSSManager_init Registry.mounted) =
    py "processed_articles.json/data.json" /\
  (get_new_articles (DT := py_datetime) Scenario.env (py "http://news/rss")
     10 world0).1 = Ret [Registry.article_a; Registry.article_b] /\
  exists fs' w'',
    fs' !! py "processed_articles.json" = Some Directory /\
    manager_world fs' (RSSManager_init fs') = Some w'' /\
    get_new_articles (DT := py_datetime) Scenario.env (py "http://news/rss")
      10 w'' = (Ret [], w'').
Proof.
  assert (manager_world Registry.mounted (RSSManager_init Registry.mounted) =
          Some world0) as Hw by vm_refl.
  assert (processed_articles_file (RSSManager_init Registry.mounted) =
          py "processed_articles.json/data.json") as Hpath by vm_refl.
  assert ((get_new_articles (DT := py_datetime) Scenario.env
             (py "http://news/rss") 10 world0).1 =
          Ret [Registry.article_a; Registry.article_b]) as Hres by vm_refl.
  split; [exact Hw |]. split; [exact Hpath |]. split; [exact Hres |].
  destruct (get_new_articles (DT := py_datetime) Scenario.env
              (py "http://news/rss") 10 world0) as [r w'] eqn:Hrun.
  cbn [fst] in Hres. subst r.
  pose proof (pass_with_news_is_written _ _ _ _ _ _ _ Hrun) as Hs.
  assert (disk_after Registry.mounted
            (processed_articles_file (RSSManager_init Registry.mounted)) w' =
          Some (<[py "processed_articles.json/data.json" :=
                    RegularFile (Ret (of_str_dict (processed_articles w')))]>
                  Registry.mounted)) as Hdisk.
  { rewrite Hpath. unfold disk_after. rewrite Hs.
    replace (os_path_isdir Registry.mounted
               (py "processed_articles.json/data.json")) with false
      by vm_refl.
    reflexivity. }
  destruct (restart_reloads_index (DT := py_datetime) Scenario.env
              Registry.mounted _ (py "http://news/rss") 10 world0 w'
              Registry.article_a [Registry.article_b] Hw Hrun Hdisk)
    as (_ & w'' & Hw'' & _ & Hnothing).
  eexists _, w''. split; [| split; [exact Hw'' | exact Hnothing]].
  rewrite lookup_insert_ne; [vm_refl |].
  intros H. apply (f_equal length) in H. vm_compute in H. lia.
Defined.

(** X12: a pruned index survives a restart.  When a pruning by a freshly
    constructed manager returns, it has written the pruned index to its
    file; a manager constructed on the file system that this leaves uses
    the same file and loads the pruned index, every entry of which was in
    the index before the pruning with the same timestamp. *)
Theorem pruned_index_survives_restart
    {DT : DatetimeLib} (env : Env) (fs fs' : gmap pystr Node) (days r : Z)
    (w w' : World) :
  manager_world fs (RSSManager_init fs) = Some w ->
  cleanup_old_processed_articles env days w = (Ret r, w') ->
  disk_after fs (processed_articles_file (RSSManager_init fs)) w' =
    Some fs' ->
  processed_articles_file (RSSManager_init fs') =
    processed_articles_file (RSSManager_init fs) /\
  exists w'',
    manager_world fs' (RSSManager_init fs') = Some w'' /\
    processed_articles w'' = processed_articles w' /\
    forall k s,
      processed_articles w'' !! k = Some s ->
      processed_articles w !! k = Some s.
Proof.
  intros _ Hrun Hdisk. rewrite cleanup_eq in Hrun.
  destruct (cutoff_of env days w) as [cutoff | e]; [| discriminate].
  cbv zeta in Hrun. injection Hrun as _ <-.
  match type of Hdisk with
  | disk_after _ _ ?w0 = _ =>
      destruct (restart_after_write fs w0 fs' eq_refl Hdisk)
        as [Hpath Hworld]
  end.
  split; [exact Hpath |]. eexists. split; [exact Hworld |].
  split; [reflexivity |]. cbn [processed_articles].
  intros k s. rewrite cleanup_fold_lookup.
  destruct (processed_articles w !! k) as [s' |]; [| discriminate].
  by destruct (retained cutoff s').
Qed.

Lemma pruned_index_survives_restart_witness :
  exists fs' w'',
    manager_world fs' (RSSManager_init fs') = Some w'' /\
    processed_articles w'' = ∅.
Proof.
  assert (manager_world
            {[ py "processed_articles.json" :=
                 RegularFile
                   (Ret (of_str_dict
                           (processed_articles
                              (Scenario.recorded "2020-01-01T00:00:00")))) ]}
            (RSSManager_init
               {[ py "processed_articles.json" :=
                    RegularFile
                      (Ret (of_str_dict
                              (processed_articles
                                 (Scenario.recorded "2020-01-01T00:00:00"))))
               ]}) =
          Some (mkWorld
                  (processed_articles
                     (Scenario.recorded "2020-01-01T00:00:00"))
                  (Some (processed_articles
                           (Scenario.recorded "2020-01-01T00:00:00")))
                  0 [])) as Hw by vm_refl.
  assert (cleanup_old_processed_articles (DT := py_datetime) Scenario.env 30
            (mkWorld
               (processed_articles (Scenario.recorded "2020-01-01T00:00:00"))
               (Some (processed_articles
                        (Scenario.recorded "2020-01-01T00:00:00")))
               0 []) =
          (Ret 0, mkWorld ∅ (Some ∅) 1 [])) as Hrun by vm_refl.
  destruct (pruned_index_survives_restart (DT := py_datetime) Scenario.env
              _ (<[py "processed_articles.json" :=
                     RegularFile (Ret (of_str_dict ∅))]>
                   {[ py "processed_articles.json" :=
                        RegularFile
                          (Ret (of_str_dict
                                  (processed_articles
                                     (Scenario.recorded
                                        "2020-01-01T00:00:00")))) ]})
              30 0 _ _ Hw Hrun)
    as (_ & w'' & Hw'' & Hidx & _).
  - vm_refl.
  - eexists _, w''. split; [exact Hw'' | exact Hidx].
Defined.

(** What the file may hold besides a dict of strings: a list is loaded as
    it is, and the manager is not one that the model follows; a path that
    is a directory cannot be written. *)
Example index_file_holding_a_list :
  loaded_articles (RSSManager_init Registry.listing) = VList [] /\
  manager_world Registry.listing (RSSManager_init Registry.listing) = None /\
  disk_after Registry.mounted (py "processed_articles.json")
    (mkWorld ∅ (Some ∅) 0 []) = None.
Proof. split; [| split]; vm_refl. Qed.

(** ** Validating and testing a feed URL *)

Section Validation.

Context {UL : UrlLib}.

Lemma validate_feed_url_cases url :
  validate_feed_url url = ValidUrl \/
  exists err, validate_feed_url url = Invalid err.
Proof.
  unfold validate_feed_url. destruct (urlparse url) as [p | e]; [| eauto].
  destruct (netloc p); [eauto |]. case_bool_decide; eauto.
Qed.

Lemma test_feed_url_eq env url w :
  test_feed_url env url w =
  match validate_feed_url url with
  | Invalid err => (Ret (Invalid err), w)
  | _ =>
      match fetch_value env url with
      | None => (Ret (Invalid FetchFailed), w)
      | Some fd =>
          match entries fd with
          | [] => (Ret (Invalid NoEntries), w)
          | first :: _ =>
              (Ret (ValidFeed
                      (FeedParserDict_get (feed fd) (py "title")
                                          (py "Unknown Feed"))
                      (FeedParserDict_get (feed fd) (py "description")
                                          (py ""))
                      (Z.of_nat (length (entries fd)))
                      (FeedParserDict_get first (py "title") (py ""))), w)
          end
      end
  end.
Proof.
  unfold test_feed_url.
  destruct (validate_feed_url_cases url) as [-> | [err ->]]; [| reflexivity].
  unfold try_except, bind. rewrite fetch_feed_value.
  destruct (fetch_value env url) as [fd |]; [| reflexivity].
  by destruct (entries fd).
Qed.

End Validation.

(** X13: [validate_feed_url] accepts a URL exactly when [urlparse] returns
    for it a non-empty network location and the scheme [http] or [https];
    a URL without network location is refused as invalid whatever its
    scheme, and an exception of [urlparse] becomes a refusal. *)
Theorem validate_feed_url_accepts {UL : UrlLib} (url : pystr) :
  (validate_feed_url url = ValidUrl <->
   exists p, urlparse url = Ret p /\ netloc p ≠ [] /\
             (scheme p = py "http" \/ scheme p = py "https")) /\
  (forall p, urlparse url = Ret p -> netloc p = [] ->
             validate_feed_url url = Invalid InvalidUrl) /\
  (forall e, urlparse url = Raise e ->
             validate_feed_url url = Invalid (UrlCheckError e)).
Proof.
  unfold validate_feed_url. split; [| split].
  - destruct (urlparse url) as [p | e].
    + destruct (netloc p) as [| c loc] eqn:Hloc.
      * split; [discriminate |]. intros (p' & [= <-] & Hne & _).
        by rewrite Hloc in Hne.
      * case_bool_decide as Hs.
        -- split; [| done]. intros _. exists p. rewrite Hloc.
           split; [done |]. split; [done |].
           apply elem_of_cons in Hs as [Hs | Hs]; [by left |].
           apply list_elem_of_singleton in Hs. by right.
        -- split; [discriminate |]. intros (p' & [= <-] & _ & Hsch).
           exfalso. apply Hs. destruct Hsch as [-> | ->].
           ++ apply list_elem_of_here.
           ++ apply list_elem_of_further, list_elem_of_here.
    + split; [discriminate |]. by intros (p' & Hp & _).
  - intros p -> Hloc. by rewrite Hloc.
  - by intros e ->.
Qed.

Lemma validate_feed_url_accepts_witness :
  urlparse (UrlLib := py_urllib) (py "ftp://example.com/feed") =
    Ret (mkParseResult (py "ftp") (py "example.com")) /\
  validate_feed_url (UL := py_urllib) (py "ftp://example.com/feed") =
    Invalid SchemeNotAllowed /\
  validate_feed_url (UL := py_urllib) (py "example.com/feed") =
    Invalid InvalidUrl /\
  validate_feed_url (UL := py_urllib) (py "http://[::1/feed") =
    Invalid (UrlCheckError ValueError) /\
  validate_feed_url (UL := py_urllib) (py "HTTPS://example.com/feed") =
    ValidUrl.
Proof.
  split; [vm_refl |]. split; [vm_refl |].
  destruct (validate_feed_url_accepts (UL := py_urllib)
              (py "example.com/feed")) as (_ & Hloc & _).
  destruct (validate_feed_url_accepts (UL := py_urllib)
              (py "http://[::1/feed")) as (_ & _ & Hexn).
  destruct (validate_feed_url_accepts (UL := py_urllib)
              (py "HTTPS://example.com/feed")) as ([_ Hok] & _ & _).
  split; [| split].
  - apply (Hloc (mkParseResult [] [])); vm_refl.
  - apply Hexn. vm_refl.
  - apply Hok. exists (mkParseResult (py "https") (py "example.com")).
    split; [vm_refl |]. split; [discriminate |]. by right.
Defined.

Lemma FeedParserDict_get_description d :
  FeedParserDict_get d (py "description") (py "") =
  first_raw d ["summary"%string; "subtitle"%string; "description"%string] "".
Proof.
  unfold FeedParserDict_get, first_raw.
  rewrite FeedParserDict_getitem_description. cbn [omap list_omap].
  by destruct (d !! py "summary"), (d !! py "subtitle"),
    (d !! py "description").
Qed.

Lemma FeedParserDict_get_title_raw d (literal : string) :
  FeedParserDict_get d (py "title") (py literal) =
  first_raw d ["title"%string] literal.
Proof.
  unfold FeedParserDict_get, first_raw.
  rewrite FeedParserDict_getitem_title. cbn [omap list_omap].
  by destruct (d !! py "title").
Qed.

(** X14: [test_feed_url] never raises and leaves the manager as it found
    it: testing a feed marks nothing.  It reports a valid feed exactly when
    the URL is accepted and the fetch yields a feed with at least one
    entry; the count it reports is the number of entries, at least 1, the
    latest entry is the title of the first one, or the empty string, and
    the description is what the channel holds as its summary, else as its
    subtitle, else as its description, else the empty string. *)
Theorem test_feed_url_reports
    {UL : UrlLib} (env : Env) (url : pystr) (w : World) :
  exists r,
    test_feed_url env url w = (Ret r, w) /\
    (forall name d n latest,
       r = ValidFeed name d n latest <->
       validate_feed_url url = ValidUrl /\
       exists fd first rest,
         fetch_value env url = Some fd /\ entries fd = first :: rest /\
         name = first_raw (feed fd) ["title"%string] "Unknown Feed" /\
         d = first_raw (feed fd)
               ["summary"%string; "subtitle"%string; "description"%string]
               "" /\
         n = Z.of_nat (length (entries fd)) /\ 1 <= n /\
         latest = first_raw first ["title"%string] "").
Proof.
  rewrite test_feed_url_eq.
  destruct (validate_feed_url_cases url) as [Hv | [err Hv]]; rewrite Hv.
  - destruct (fetch_value env url) as [fd |].
    + destruct (entries fd) as [| first rest] eqn:He.
      * eexists. split; [reflexivity |]. intros name d n latest.
        split; [discriminate |].
        intros (_ & fd' & f' & r' & [= <-] & He' & _). congruence.
      * eexists. split; [reflexivity |]. intros name d n latest.
        rewrite FeedParserDict_get_description,
          !FeedParserDict_get_title_raw.
        split.
        -- intros [= <- <- <- <-]. split; [done |].
           exists fd, first, rest. rewrite He. cbn [length].
           repeat split; try done. lia.
        -- intros (_ & fd' & f' & r' & [= <-] & He' & -> & -> & -> & _ & ->).
           rewrite He in He'. injection He' as <- <-. by rewrite He.
    + eexists. split; [reflexivity |]. intros name d n latest.
      split; [discriminate |]. by intros (_ & fd' & f' & r' & Hf & _).
  - eexists. split; [reflexivity |]. intros name d n latest.
    split; [discriminate |]. by intros [Hv' _].
Qed.

Lemma test_feed_url_reports_witness :
  test_feed_url (UL := py_urllib) Scenario.env (py "http://podcast/rss")
    world0 =
    (Ret (ValidFeed (py "Pod") (py "Chan desc") 3 (py "P1")), world0) /\
  validate_feed_url (UL := py_urllib) (py "http://podcast/rss") = ValidUrl.
Proof.
  assert (test_feed_url (UL := py_urllib) Scenario.env
            (py "http://podcast/rss") world0 =
          (Ret (ValidFeed (py "Pod") (py "Chan desc") 3 (py "P1")), world0))
    as Hrun by vm_refl.
  split; [exact Hrun |].
  destruct (test_feed_url_reports (UL := py_urllib) Scenario.env
              (py "http://podcast/rss") world0) as (r & Hr & Hiff).
  rewrite Hrun in Hr. injection Hr as <-.
  by destruct (proj1 (Hiff _ _ _ _) eq_refl) as [Hv _].
Defined.

(** X15: a URL that [validate_feed_url] refuses is not fetched: the result
    of [test_feed_url] is the refusal itself, whatever the network would
    have answered. *)
Theorem refused_url_is_not_fetched
    {UL : UrlLib} (url : pystr) (w : World) (err : FeedError) :
  validate_feed_url url = Invalid err ->
  forall env, test_feed_url env url w = (Ret (Invalid err), w).
Proof. intros Hv env. by rewrite test_feed_url_eq, Hv. Qed.

Lemma refused_url_is_not_fetched_witness :
  test_feed_url (UL := py_urllib) Scenario.env (py "ftp://news/rss") world0 =
    (Ret (Invalid SchemeNotAllowed), world0).
Proof.
  apply (refused_url_is_not_fetched (UL := py_urllib)
           (py "ftp://news/rss") world0 SchemeNotAllowed).
  vm_refl.
Defined.

(** The feeds that fail the test: unreachable, and without entries. *)
Example test_feed_url_failures :
  test_feed_url (UL := py_urllib) Registry.env (py "http://down/rss") world0 =
    (Ret (Invalid FetchFailed), world0) /\
  test_feed_url (UL := py_urllib) Registry.env (py "http://empty/rss") world0 =
    (Ret (Invalid NoEntries), world0).
Proof. split; vm_refl. Qed.

(** ** The configuration *)

Section Items.

Context {V : Type}.
Implicit Types (d : list (pystr * V)) (k : pystr) (v : V).

Lemma items_get_set_eq k v d : items_get k (items_set k v d) = Some v.
Proof.
  induction d as [| [k' x] d IH]; cbn.
  - by rewrite decide_True.
  - destruct (decide (k' = k)) as [-> | Hne]; cbn.
    + by rewrite decide_True.
    + by rewrite decide_False.
Qed.

Lemma items_get_set_ne k k' v d :
  k ≠ k' -> items_get k' (items_set k v d) = items_get k' d.
Proof.
  intros Hne. induction d as [| [k0 x] d IH]; cbn.
  - by rewrite decide_False.
  - destruct (decide (k0 = k)) as [-> | Hne0]; cbn.
    + by rewrite !decide_False.
    + by rewrite IH.
Qed.

Lemma items_get_None k d : items_get k d = None <-> k ∉ d.*1.
Proof.
  induction d as [| [k' x] d IH]; cbn.
  - split; [intros _ H; inversion H | done].
  - rewrite not_elem_of_cons. destruct (decide (k' = k)) as [-> | Hne].
    + split; [discriminate | by intros [? _]].
    + rewrite IH. split; [by intros; split | by intros [_ ?]].
Qed.

Lemma items_get_elem k v d :
  distinct_keys d -> (items_get k d = Some v <-> (k, v) ∈ d).
Proof.
  unfold distinct_keys.
  induction d as [| [k' x] d IH]; cbn; intros Hnd.
  - split; [discriminate | by intros ?%elem_of_nil].
  - apply NoDup_cons in Hnd as [Hk Hnd]. rewrite elem_of_cons.
    destruct (decide (k' = k)) as [-> | Hne].
    + split; [intros [= ->]; by left |].
      intros [[= ->] | Hin]; [done |].
      exfalso. apply Hk. apply list_elem_of_fmap. by exists (k, v).
    + rewrite (IH Hnd). split; [by right |].
      intros [[= -> ->] | Hin]; [done | exact Hin].
Qed.

Lemma items_set_keys k v d :
  (items_set k v d).*1 = if decide (k ∈ d.*1) then d.*1 else d.*1 ++ [k].
Proof.
  induction d as [| [k' x] d IH]; cbn.
  - rewrite decide_False; [done | by intros ?%elem_of_nil].
  - destruct (decide (k' = k)) as [-> | Hne]; cbn.
    + rewrite decide_True; [done | by left].
    + rewrite IH. destruct (decide (k ∈ d.*1)) as [Hin | Hnin].
      * rewrite decide_True; [done | by right].
      * rewrite decide_False; [done |].
        intros [-> | Hin]%elem_of_cons; done.
Qed.


Lemma items_del_sublist k d : sublist (items_del k d) d.
Proof.
  induction d as [| [k' x] d IH]; cbn; [done |].
  destruct (decide (k' = k)); [by apply sublist_cons | by apply sublist_skip].
Qed.

Lemma items_del_distinct k d :
  distinct_keys d -> distinct_keys (items_del k d).
Proof.
  unfold distinct_keys. intros Hnd.
  eapply sublist_NoDup; [exact Hnd |].
  apply fmap_sublist, items_del_sublist.
Qed.

Lemma items_get_del_eq k d :
  distinct_keys d -> items_get k (items_del k d) = None.
Proof.
  unfold distinct_keys.
  induction d as [| [k' x] d IH]; cbn; intros Hnd; [done |].
  apply NoDup_cons in Hnd as [Hk Hnd].
  destruct (decide (k' = k)) as [-> | Hne].
  - by apply items_get_None.
  - cbn. rewrite decide_False by done. by apply IH.
Qed.


End Items.

Lemma get_feeds_cases c feeds :
  ConfigManager.get_feeds c = VDict feeds ->
  items_get (py "feeds") (config c) = Some (VDict feeds) \/
  (items_get (py "feeds") (config c) = None /\ feeds = []).
Proof.
  unfold ConfigManager.get_feeds, ConfigManager.get.
  destruct (items_get (py "feeds") (config c)) as [v |].
  - intros ->. by left.
  - intros [= <-]. by right.
Qed.

(** [add_feed] where the feeds are a dict, or missing, in the model. *)
Lemma add_feed_effect
    (fid : pystr) (data : pyval) (c : ConfigWorld)
    (feeds : list (pystr * pyval)) :
  ConfigManager.get_feeds c = VDict feeds ->
  exists c',
    ConfigManager.add_feed fid data c = (Ret tt, c') /\
    ConfigManager.get_feeds c' = VDict (items_set fid data feeds) /\
    (forall key dflt, key ≠ py "feeds" ->
       ConfigManager.get key dflt c' = ConfigManager.get key dflt c) /\
    config_disk c' = Some (Ret (config c')).
Proof.
  intros Hf. unfold ConfigManager.add_feed, ConfigManager.add_item.
  destruct (get_feeds_cases c feeds Hf) as [Hg | [Hg ->]]; rewrite Hg.
  - rewrite Hg. eexists. split; [reflexivity |].
    unfold ConfigManager.get_feeds, ConfigManager.get,
      ConfigManager.save_config.
    cbn [config config_disk]. rewrite items_get_set_eq.
    split; [reflexivity |]. split; [| reflexivity].
    intros key dflt Hne. by rewrite items_get_set_ne.
  - cbn [config]. rewrite items_get_set_eq.
    eexists. split; [reflexivity |].
    unfold ConfigManager.get_feeds, ConfigManager.get,
      ConfigManager.save_config.
    cbn [config config_disk]. rewrite items_get_set_eq.
    split; [reflexivity |]. split; [| reflexivity].
    intros key dflt Hne. by rewrite !items_get_set_ne.
Qed.

(** X16: [add_feed] on a configuration whose feeds are a dict, or missing:
    as soon as the item is assigned, which is before the file is written,
    the configuration in memory has the data under the feed id, and every
    other feed and every other key of it is as before.  When [add_feed]
    returns, the file holds the configuration, so that a manager
    constructed from it is the same. *)
Theorem add_feed_stores_feed
    (fid : pystr) (data : pyval) (c : ConfigWorld)
    (feeds : list (pystr * pyval)) :
  ConfigManager.get_feeds c = VDict feeds ->
  exists feeds',
    ConfigManager.get_feeds (ConfigManager.add_feed fid data c).2 =
      VDict feeds' /\
    items_get fid feeds' = Some data /\
    (forall fid', fid ≠ fid' ->
       items_get fid' feeds' = items_get fid' feeds) /\
    (forall key dflt, key ≠ py "feeds" ->
       ConfigManager.get key dflt (ConfigManager.add_feed fid data c).2 =
       ConfigManager.get key dflt c) /\
    ((ConfigManager.add_feed fid data c).1 = Ret tt ->
     ConfigManager.init
       (config_disk (ConfigManager.add_feed fid data c).2) =
     Ret (ConfigManager.add_feed fid data c).2).
Proof.
  intros Hf.
  destruct (add_feed_effect fid data c feeds Hf)
    as (c' & -> & Hget & Hframe & Hdisk).
  cbn [fst snd]. exists (items_set fid data feeds).
  split; [exact Hget |]. split; [apply items_get_set_eq |].
  split; [intros; by apply items_get_set_ne |]. split; [exact Hframe |].
  intros _. destruct c' as [cfg disk]. cbn [config config_disk] in *.
  by subst disk.
Qed.

Lemma add_feed_stores_feed_witness :
  ConfigManager.get_feeds Registry.fresh = VDict [] /\
  exists feeds',
    ConfigManager.get_feeds
      (ConfigManager.add_feed (py "feed_1")
         (Registry.feed_data "http://news/rss") Registry.fresh).2 =
      VDict feeds' /\
    items_get (py "feed_1") feeds' =
      Some (Registry.feed_data "http://news/rss") /\
    ConfigManager.get (py "default_check_interval") VNone
      (ConfigManager.add_feed (py "feed_1")
         (Registry.feed_data "http://news/rss") Registry.fresh).2 = VInt 15.
Proof.
  assert (ConfigManager.get_feeds Registry.fresh = VDict []) as Hf by vm_refl.
  split; [exact Hf |].
  destruct (add_feed_stores_feed (py "feed_1")
              (Registry.feed_data "http://news/rss") Registry.fresh [] Hf)
    as (feeds' & Hget & Hitem & _ & Hframe & _).
  exists feeds'. split; [exact Hget |]. split; [exact Hitem |].
  rewrite Hframe; [vm_refl |].
  intros H. apply (f_equal length) in H. vm_compute in H. lia.
Defined.

(** X17: [add_feed] on a configuration whose ["feeds"] is not a dict raises
    [TypeError] and changes neither the configuration nor the file. *)
Theorem add_feed_needs_a_mapping
    (fid : pystr) (data v : pyval) (c : ConfigWorld) :
  items_get (py "feeds") (config c) = Some v ->
  (forall feeds, v ≠ VDict feeds) ->
  ConfigManager.add_feed fid data c = (Raise TypeError, c).
Proof.
  intros Hg Hv. unfold ConfigManager.add_feed, ConfigManager.add_item.
  rewrite Hg, Hg. destruct v; try reflexivity. by destruct (Hv items).
Qed.

Lemma add_feed_needs_a_mapping_witness :
  ConfigManager.add_feed (py "feed_2") (Registry.feed_data "http://more/rss")
                         Registry.misshapen =
  (Raise TypeError, Registry.misshapen).
Proof.
  apply (add_feed_needs_a_mapping (py "feed_2")
           (Registry.feed_data "http://more/rss")
           (VList [VStr (py "feed_1")]) Registry.misshapen).
  - vm_refl.
  - intros feeds H. discriminate H.
Defined.



(** X19: as soon as [set] has assigned the key, which is before the file
    is written, [get] returns the value set; the other keys keep their
    values and their order, a new key going last.  When [set] returns, the
    file holds the configuration, so that a manager constructed from it is
    the same. *)
Theorem set_then_get
    (key : pystr) (value dflt : pyval) (c : ConfigWorld) :
  ConfigManager.get key dflt (ConfigManager.set key value c).2 = value /\
  (forall key' dflt', key ≠ key' ->
     ConfigManager.get key' dflt' (ConfigManager.set key value c).2 =
     ConfigManager.get key' dflt' c) /\
  (config (ConfigManager.set key value c).2).*1 =
    (if decide (key ∈ (config c).*1) then (config c).*1
     else (config c).*1 ++ [key]) /\
  ((ConfigManager.set key value c).1 = Ret tt ->
   ConfigManager.init (config_disk (ConfigManager.set key value c).2) =
     Ret (ConfigManager.set key value c).2).
Proof.
  unfold ConfigManager.get, ConfigManager.set, ConfigManager.save_config.
  cbn [fst snd config config_disk]. rewrite items_get_set_eq.
  split; [reflexivity |]. split; [| split; [apply items_set_keys | done]].
  intros key' dflt' Hne. by rewrite items_get_set_ne.
Qed.

(** ** From the configuration to the tasks of a cycle *)

Section View.

Context {V : Type}.
Implicit Types (d : list (pystr * V)) (k : pystr) (v : V).



Lemma items_del_elem_ne k k' x d :
  k ≠ k' -> (k', x) ∈ items_del k d <-> (k', x) ∈ d.
Proof.
  intros Hne. induction d as [| [k0 y] d IH]; cbn; [done |].
  destruct (decide (k0 = k)) as [-> | Hne0].
  - rewrite elem_of_cons. split; [by right |].
    intros [H | H]; [congruence | done].
  - by rewrite !elem_of_cons, IH.
Qed.

Lemma items_del_no_key k d : distinct_keys d -> k ∉ (items_del k d).*1.
Proof. intros Hnd. apply items_get_None. by apply items_get_del_eq. Qed.

End View.

Lemma feeds_view_Forall2 feeds fv :
  feeds_view (VDict feeds) = Some fv ->
  Forall2 (fun kv y => kv.1 = y.1 /\ as_str_dict kv.2 = Some y.2) feeds fv.
Proof.
  cbn [feeds_view]. intros H%mapM_Some_1.
  induction H as [| [k x] [k' f] feeds fv Hxy _ IH]; constructor; [| done].
  cbn in *. destruct (as_str_dict x); [| discriminate].
  by injection Hxy as -> ->.
Qed.

Lemma Forall2_feeds_view feeds fv :
  Forall2 (fun kv y => kv.1 = y.1 /\ as_str_dict kv.2 = Some y.2) feeds fv ->
  feeds_view (VDict feeds) = Some fv.
Proof.
  intros H. cbn [feeds_view]. apply mapM_Some_2.
  induction H as [| [k x] [k' f] feeds fv [Hk Hx] _ IH]; constructor;
    [| done].
  cbn in *. by rewrite Hx, Hk.
Qed.


Lemma feeds_view_del fid feeds fv :
  feeds_view (VDict feeds) = Some fv ->
  feeds_view (VDict (items_del fid feeds)) = Some (items_del fid fv).
Proof.
  intros Hv%feeds_view_Forall2. apply Forall2_feeds_view.
  induction Hv as [| [k x] [k' f] feeds fv [Hk Hx] Htail IH]; cbn in *.
  - constructor.
  - subst k'. destruct (decide (k = fid)); [exact Htail |]. by constructor.
Qed.

Lemma feeds_view_keys feeds fv :
  feeds_view (VDict feeds) = Some fv -> fv.*1 = feeds.*1.
Proof.
  intros Hv%feeds_view_Forall2.
  induction Hv as [| [k x] [k' f] feeds fv [Hk Hx] _ IH]; cbn in *; [done |].
  by rewrite IH, Hk.
Qed.


(** X21: a feed removed with [remove_feed] is checked no more: the first
    loop of [check_all_feeds] makes no task for it, and the tasks of the
    other feeds are the ones they had. *)
Theorem removed_feed_gets_no_task
    (fid : pystr) (c : ConfigWorld) (feeds : list (pystr * pyval))
    (fv : list (pystr * gmap pystr pystr)) :
  ConfigManager.get_feeds c = VDict feeds ->
  distinct_keys feeds ->
  feeds_view (VDict feeds) = Some fv ->
  exists c' fv',
    ConfigManager.remove_feed fid c = (Ret tt, c') /\
    feeds_view (ConfigManager.get_feeds c') = Some fv' /\
    (forall url, (fid, url) ∉ make_tasks fv') /\
    (forall fid' url, fid ≠ fid' ->
       (fid', url) ∈ make_tasks fv' <-> (fid', url) ∈ make_tasks fv).
Proof.
  intros Hf Hnd Hv.
  assert (distinct_keys fv) as Hndv.
  { unfold distinct_keys. by rewrite (feeds_view_keys feeds fv Hv). }
  assert (exists c',
    ConfigManager.remove_feed fid c = (Ret tt, c') /\
    ConfigManager.get_feeds c' = VDict (items_del fid feeds))
    as (c' & Hrm & Hget).
  { unfold ConfigManager.remove_feed.
    destruct (get_feeds_cases c feeds Hf) as [Hg | [Hg ->]]; rewrite Hg.
    - destruct (items_get fid feeds) as [x |] eqn:Hx.
      + eexists. split; [reflexivity |].
        unfold ConfigManager.get_feeds, ConfigManager.get,
          ConfigManager.save_config.
        cbn [config]. by rewrite items_get_set_eq.
      + exists c. split; [reflexivity |]. rewrite Hf. f_equal.
        clear -Hx. induction feeds as [| [k y] feeds IH]; cbn in *; [done |].
        destruct (decide (k = fid)); [discriminate |]. by rewrite <- IH.
    - exists c. split; [reflexivity | exact Hf]. }
  exists c', (items_del fid fv). split; [exact Hrm |].
  rewrite Hget. split; [by apply feeds_view_del |]. split.
  - intros url Hin.
    apply (items_del_no_key fid fv Hndv).
    eapply elem_of_sublist; [| apply make_tasks_ids].
    apply list_elem_of_fmap. by exists (fid, url).
  - intros fid' url Hne'. rewrite !make_tasks_elem.
    split; intros (fd & Hin & H); exists fd; (split; [| exact H]);
      by apply (items_del_elem_ne fid fid' fd fv Hne').
Qed.


Lemma removed_feed_gets_no_task_witness :
  exists c' fv',
    ConfigManager.remove_feed (py "feed_1")
      (ConfigManager.add_feed (py "feed_1")
         (Registry.feed_data "http://news/rss") Registry.fresh).2 =
      (Ret tt, c') /\
    feeds_view (ConfigManager.get_feeds c') = Some fv' /\
    (py "feed_1", py "http://news/rss") ∉ make_tasks fv'.
Proof.
  destruct (removed_feed_gets_no_task (py "feed_1")
              (ConfigManager.add_feed (py "feed_1")
                 (Registry.feed_data "http://news/rss") Registry.fresh).2
              [(py "feed_1", Registry.feed_data "http://news/rss")]
              [(py "feed_1", Registry.feed_fields "http://news/rss")])
    as (c' & fv' & Hrm & Hview & Hno & _).
  - vm_refl.
  - unfold distinct_keys. cbn. apply NoDup_singleton.
  - vm_refl.
  - exists c', fv'. split; [exact Hrm |]. split; [exact Hview | apply Hno].
Defined.

(** Two feeds registered in a fresh configuration, then one cycle over
    them: the configuration's feeds are the ones of [Registry.env], up to
    the fields that the cycle does not read, and the cycle reports the
    articles of both. *)
Example registered_feeds_are_checked :
  let c2 :=
    (ConfigManager.add_feed (py "feed_2")
       (Registry.feed_data "http://more/rss")
       (ConfigManager.add_feed (py "feed_1")
          (Registry.feed_data "http://news/rss") Registry.fresh).2).2 in
  feeds_view (ConfigManager.get_feeds c2) =
    Some [ (py "feed_1", Registry.feed_fields "http://news/rss");
           (py "feed_2", Registry.feed_fields "http://more/rss") ] /\
  (check_all_feeds (DT := py_datetime)
     (mkEnv (clock Registry.env) (http_get Registry.env)
            (feedparser_parse Registry.env)
            [ (py "feed_1", Registry.feed_fields "http://news/rss");
              (py "feed_2", Registry.feed_fields "http://more/rss") ])
     world0).1 =
    Ret (<[py "feed_2" := [Registry.article_c]]>
           {[ py "feed_1" := [Registry.article_a; Registry.article_b] ]}).
Proof. cbv zeta. split; vm_refl. Qed.

(** ** Registering a feed *)

Lemma test_feed_url_not_valid_url {UL : UrlLib} env url w r w' :
  test_feed_url env url w = (r, w') ->
  w' = w /\
  ((exists err, r = Ret (Invalid err)) \/
   (exists name d n latest, r = Ret (ValidFeed name d n latest))).
Proof.
  rewrite test_feed_url_eq.
  destruct (validate_feed_url url);
    try (intros [= <- <-]; split; [done | left; eauto]);
    (destruct (fetch_value env url) as [fd |];
     [destruct (entries fd) | ]; intros [= <- <-]; split; try done;
     first [left; by eauto | right; by eauto 10]).
Qed.

(** X22: [add_rss] never touches the index of processed articles, its file
    or the log of markings, whatever it answers and whether it returns or
    raises; and when it answers that the URL is refused or that no channel
    could be had, the configuration is as before. *)
Theorem add_rss_leaves_index_alone
    {DT : DatetimeLib} {UL : UrlLib} {BL : Builtins} (env : Env)
    (interaction : Interaction)
    (guild : Guild) (url : pystr) (channel_name : option pystr)
    (w : World) (c : ConfigWorld) :
  processed_articles
    (add_rss env interaction guild url channel_name w c).1.2 =
    processed_articles w /\
  stored (add_rss env interaction guild url channel_name w c).1.2 =
    stored w /\
  marked (add_rss env interaction guild url channel_name w c).1.2 =
    marked w /\
  (forall err,
     (add_rss env interaction guild url channel_name w c).1.1 =
       Ret (AddRefused err) ->
     (add_rss env interaction guild url channel_name w c).2 = c) /\
  ((add_rss env interaction guild url channel_name w c).1.1 =
     Ret AddNoChannel ->
   (add_rss env interaction guild url channel_name w c).2 = c).
Proof.
  unfold add_rss, followup.
  destruct (response_defer interaction) as [[] | e0];
    [| cbn [fst snd]; repeat split; done].
  destruct (test_feed_url env url w) as [r w1] eqn:Ht.
  destruct (test_feed_url_not_valid_url env url w r w1 Ht)
    as [-> [[err ->] | (name & d & n & latest & ->)]].
  { destruct (followup_send interaction (AddRefused err));
      cbn [fst snd]; repeat split; done. }
  match goal with
  | |- context [match ?ch with Some _ => _ | None => _ end] =>
      destruct ch as [channel_id |]
  end.
  2: { destruct (followup_send interaction AddNoChannel);
         cbn [fst snd]; repeat split; done. }
  destruct (py_len (ConfigManager.get_feeds c)) as [count | e];
    [| cbn [fst snd]; repeat split; done].
  cbn [datetime_now].
  match goal with
  | |- context [ConfigManager.add_feed ?fid ?data c] =>
      destruct (ConfigManager.add_feed fid data c) as [[[] | e] c1]
  end.
  - match goal with
    | |- context [followup_send interaction ?r] =>
        destruct (followup_send interaction r)
    end; cbn [fst snd processed_articles stored marked];
      repeat split; intros; discriminate.
  - cbn [fst snd processed_articles stored marked].
    repeat split; intros; discriminate.
Qed.

Lemma add_rss_leaves_index_alone_witness :
  add_rss (DT := py_datetime) (UL := py_urllib) (BL := py_builtins)
    Registry.env Registry.answered Registry.guild (py "http://news/rss")
    None world0 Registry.fresh =
  (Ret AddNoChannel, world0, Registry.fresh).
Proof.
  assert ((add_rss (DT := py_datetime) (UL := py_urllib)
             (BL := py_builtins) Registry.env Registry.answered
             Registry.guild (py "http://news/rss") None world0
             Registry.fresh).1 = (Ret AddNoChannel, world0)) as Hrun
    by vm_refl.
  destruct (add_rss_leaves_index_alone (DT := py_datetime)
              (UL := py_urllib) (BL := py_builtins) Registry.env
              Registry.answered Registry.guild (py "http://news/rss") None
              world0 Registry.fresh) as (_ & _ & _ & _ & Hsame).
  destruct (add_rss (DT := py_datetime) (UL := py_urllib)
              (BL := py_builtins) Registry.env Registry.answered
              Registry.guild (py "http://news/rss") None world0
              Registry.fresh) as [[r w'] c'].
  cbn [fst snd] in *. injection Hrun as -> ->. by rewrite Hsame.
Defined.

(** The answer that the feed was added may fail to be sent: the feed is
    then registered although [add_rss] raises. *)
Example add_rss_unanswered :
  add_rss (DT := py_datetime) (UL := py_urllib) (BL := py_builtins)
    Registry.env Registry.expired Registry.guild (py "http://news/rss")
    (Some (py "news")) world0 Registry.fresh =
  (Raise (ClientError "Unknown interaction"), tick world0,
   (ConfigManager.add_feed (py "feed_1")
      (Registry.feed_data "http://news/rss") Registry.fresh).2).
Proof. vm_refl. Qed.

Lemma py_inj s1 s2 : py s1 = py s2 -> s1 = s2.
Proof.
  unfold py. intros H.
  rewrite <- (string_of_list_ascii_of_string s1),
          <- (string_of_list_ascii_of_string s2).
  f_equal. revert H.
  generalize (list_ascii_of_string s1) (list_ascii_of_string s2).
  induction l as [| a l IH]; intros [| b l']; cbn; try discriminate;
    [done |].
  intros [= Hab Hl]. f_equal; [| by apply IH].
  apply N2Z.inj in Hab.
  rewrite <- (ascii_N_embedding a), <- (ascii_N_embedding b). by rewrite Hab.
Qed.

Lemma N_to_uint_nonnil n : N.to_uint n ≠ Decimal.Nil.
Proof.
  destruct n as [| p]; [discriminate |]. cbn.
  apply DecimalPos.Unsigned.to_uint_nonnil.
Qed.

Lemma str_N_inj n m : str_N n = str_N m -> n = m.
Proof.
  unfold str_N. intros H%py_inj.
  apply DecimalN.Unsigned.to_uint_inj.
  pose proof (NilZero.usu _ (N_to_uint_nonnil n)) as Hn.
  pose proof (NilZero.usu _ (N_to_uint_nonnil m)) as Hm.
  rewrite H in Hn. rewrite Hn in Hm. by injection Hm.
Qed.

Lemma items_set_new {V} (k : pystr) (v : V) (d : list (pystr * V)) :
  k ∉ d.*1 -> items_set k v d = d ++ [(k, v)].
Proof.
  induction d as [| [k' x] d IH]; cbn; [done |].
  intros [Hne Hnin]%not_elem_of_cons.
  rewrite decide_False by done. by rewrite IH.
Qed.

Lemma numbered_next_fresh {V} (d : list (pystr * V)) :
  numbered d ->
  py "feed_" ++ str_N (N.of_nat (length d) + 1) ∉ d.*1.
Proof.
  unfold numbered. intros -> Hin.
  apply list_elem_of_fmap in Hin as (i & Heq & Hi).
  apply app_inv_head, str_N_inj in Heq.
  apply elem_of_seq in Hi. lia.
Qed.

Lemma numbered_snoc {V} (d : list (pystr * V)) (v : V) :
  numbered d ->
  numbered (d ++ [(py "feed_" ++ str_N (N.of_nat (length d) + 1), v)]).
Proof.
  unfold numbered. intros Hd.
  rewrite fmap_app, length_app. cbn [length fmap list_fmap fst].
  rewrite Nat.add_1_r, seq_S, map_app. cbn [map].
  rewrite <- Hd.
  by replace (N.of_nat (1 + length d)) with (N.of_nat (length d) + 1)%N
    by lia.
Qed.

Lemma add_feed_get_feeds fid data c feeds :
  ConfigManager.get_feeds c = VDict feeds ->
  exists c',
    ConfigManager.add_feed fid data c = (Ret tt, c') /\
    ConfigManager.get_feeds c' = VDict (items_set fid data feeds) /\
    config_disk c' = Some (Ret (config c')).
Proof.
  intros Hf. unfold ConfigManager.add_feed, ConfigManager.add_item.
  destruct (get_feeds_cases c feeds Hf) as [Hg | [Hg ->]]; rewrite Hg.
  - rewrite Hg. eexists. split; [reflexivity |].
    unfold ConfigManager.get_feeds, ConfigManager.get,
      ConfigManager.save_config.
    cbn [config config_disk]. by rewrite items_get_set_eq.
  - cbn [config]. rewrite items_get_set_eq.
    eexists. split; [reflexivity |].
    unfold ConfigManager.get_feeds, ConfigManager.get,
      ConfigManager.save_config.
    cbn [config config_disk]. by rewrite items_get_set_eq.
Qed.

Lemma items_set_length {V} (k : pystr) (v x : V) (d : list (pystr * V)) :
  items_get k d = Some x -> length (items_set k v d) = length d.
Proof.
  induction d as [| [k' y] d IH]; cbn; [done |].
  destruct (decide (k' = k)); [done |]. intros H. cbn. by rewrite IH.
Qed.

Section Registration.

Context {DT : DatetimeLib} {UL : UrlLib} {BL : Builtins}.
Variable env : Env.
Variable interaction : Interaction.

(** What has happened when [add_rss] answers that the feed was added. *)
Lemma add_rss_added guild url channel_name w c fid data ch n w' c' :
  add_rss env interaction guild url channel_name w c =
    (Ret (Added fid data ch n), w', c') ->
  exists name d latest count,
    test_feed_url env url w = (Ret (ValidFeed name d n latest), w) /\
    py_len (ConfigManager.get_feeds c) = Ret count /\
    fid = py "feed_" ++ str_N (count + 1) /\
    w' = tick w /\
    data = VDict [ (py "url", VStr url);
                   (py "name", VStr name);
                   (py "channel_id", VStr (str_N ch));
                   (py "added_at",
                    VStr (isoformat (naive (clock env (ticks w))))) ] /\
    ConfigManager.add_feed fid data c = (Ret tt, c').
Proof.
  unfold add_rss, followup.
  destruct (response_defer interaction) as [[] | e0]; [| done].
  destruct (test_feed_url env url w) as [r w1] eqn:Ht.
  destruct (test_feed_url_not_valid_url env url w r w1 Ht)
    as [-> [[err ->] | (name & d & n' & latest & ->)]].
  { by destruct (followup_send interaction (AddRefused err)). }
  match goal with
  | |- context [match ?x with Some _ => _ | None => _ end] =>
      destruct x as [channel_id |]
  end.
  2: { by destruct (followup_send interaction AddNoChannel). }
  destruct (py_len (ConfigManager.get_feeds c)) as [count | e]; [| done].
  cbn [datetime_now].
  match goal with
  | |- context [ConfigManager.add_feed ?f ?x c] =>
      destruct (ConfigManager.add_feed f x c) as [[[] | e] c1] eqn:Hadd
  end; [| done].
  match goal with
  | |- context [followup_send interaction ?r] =>
      destruct (followup_send interaction r)
  end; [| done].
  intros [= <- <- <- <- <- <-]. by exists name, d, latest, count.
Qed.

End Registration.

(** X23: a feed that [add_rss] adds has passed the test: its URL is one
    that [validate_feed_url] accepts, the fetch has yielded a feed with as
    many entries as the answer counts, at least one, and the data stored
    under the new id hold this URL and the title of the feed. *)
Theorem add_rss_stores_only_tested_feeds
    {DT : DatetimeLib} {UL : UrlLib} {BL : Builtins} (env : Env)
    (interaction : Interaction)
    (guild : Guild) (url : pystr) (channel_name : option pystr)
    (w w' : World) (c c' : ConfigWorld)
    (fid : pystr) (data : pyval) (ch : N) (n : Z) :
  add_rss env interaction guild url channel_name w c =
    (Ret (Added fid data ch n), w', c') ->
  validate_feed_url url = ValidUrl /\
  (exists fd,
     fetch_value env url = Some fd /\
     n = Z.of_nat (length (entries fd)) /\ 1 <= n /\
     exists fields,
       data = VDict fields /\
       items_get (py "url") fields = Some (VStr url) /\
       items_get (py "name") fields =
         Some (VStr (dict_get (feed fd) (py "title") (py "Unknown Feed")))) /\
  exists feeds', ConfigManager.get_feeds c' = VDict feeds' /\
                 items_get fid feeds' = Some data.
Proof.
  intros Hadd.
  destruct (add_rss_added env interaction guild url channel_name w c fid
              data ch n w' c' Hadd)
    as (name & d & latest & count & Ht & Hlen & -> & -> & -> & Hfeed).
  rewrite test_feed_url_eq in Ht.
  destruct (validate_feed_url_cases url) as [Hv | [err Hv]];
    rewrite Hv in Ht; [| discriminate Ht].
  split; [done |].
  destruct (fetch_value env url) as [fd |]; [| discriminate Ht].
  destruct (entries fd) as [| first rest] eqn:He; [discriminate Ht |].
  rewrite (FeedParserDict_get_title (feed fd)) in Ht.
  injection Ht as <- _ <- _. split.
  - exists fd. rewrite He. cbn [length]. repeat split; [lia |].
    eexists. split; [reflexivity |]. split; reflexivity.
  - unfold py_len in Hlen.
    destruct (ConfigManager.get_feeds c) as [| | | | | feeds] eqn:Hf;
      try discriminate Hlen.
    + exfalso. revert Hfeed.
      unfold ConfigManager.get_feeds, ConfigManager.get in Hf.
      unfold ConfigManager.add_feed, ConfigManager.add_item.
      destruct (items_get (py "feeds") (config c)) as [v |] eqn:Hg;
        [| discriminate Hf].
      subst v. by rewrite Hg.
    + exfalso. revert Hfeed.
      unfold ConfigManager.get_feeds, ConfigManager.get in Hf.
      unfold ConfigManager.add_feed, ConfigManager.add_item.
      destruct (items_get (py "feeds") (config c)) as [v |] eqn:Hg;
        [| discriminate Hf].
      subst v. by rewrite Hg.
    + destruct (add_feed_get_feeds (py "feed_" ++ str_N (count + 1))
                  (VDict
                     [(py "url", VStr url);
                      (py "name",
                       VStr (dict_get (feed fd) (py "title")
                               (py "Unknown Feed")));
                      (py "channel_id", VStr (str_N ch));
                      (py "added_at",
                       VStr (isoformat (naive (clock env (ticks w)))))])
                  c feeds Hf)
        as (c1 & Hadd1 & Hget & _).
      rewrite Hadd1 in Hfeed. injection Hfeed as <-.
      eexists. split; [exact Hget |]. apply items_get_set_eq.
Qed.

Lemma add_rss_on_fresh :
  add_rss (DT := py_datetime) (UL := py_urllib) (BL := py_builtins)
    Registry.env Registry.answered Registry.guild (py "http://news/rss")
    (Some (py "news")) world0 Registry.fresh =
  (Ret (Added (py "feed_1") (Registry.feed_data "http://news/rss") 42%N 2),
   tick world0,
   (ConfigManager.add_feed (py "feed_1")
      (Registry.feed_data "http://news/rss") Registry.fresh).2).
Proof. vm_refl. Qed.

Lemma add_rss_stores_only_tested_feeds_witness :
  validate_feed_url (UL := py_urllib) (py "http://news/rss") = ValidUrl /\
  fetch_value Registry.env (py "http://news/rss") = Some Scenario.news.
Proof.
  destruct (add_rss_stores_only_tested_feeds (DT := py_datetime)
              (UL := py_urllib) (BL := py_builtins) Registry.env
              Registry.answered
              Registry.guild (py "http://news/rss") (Some (py "news"))
              world0 (tick world0) Registry.fresh _ _ _ _ _ add_rss_on_fresh)
    as (Hv & _ & _).
  split; [exact Hv | vm_refl].
Defined.

(** X24: when the feeds of the configuration are [feed_1], ..., [feed_n],
    a feed that [add_rss] adds is stored as [feed_(n+1)] after them: no
    feed is replaced, and the feeds are again numbered from 1. *)
Theorem add_rss_appends_numbered_feed
    {DT : DatetimeLib} {UL : UrlLib} {BL : Builtins} (env : Env)
    (interaction : Interaction)
    (guild : Guild) (url : pystr) (channel_name : option pystr)
    (w w' : World) (c c' : ConfigWorld) (feeds : list (pystr * pyval))
    (fid : pystr) (data : pyval) (ch : N) (n : Z) :
  ConfigManager.get_feeds c = VDict feeds ->
  numbered feeds ->
  add_rss env interaction guild url channel_name w c =
    (Ret (Added fid data ch n), w', c') ->
  fid = py "feed_" ++ str_N (N.of_nat (length feeds) + 1) /\
  ConfigManager.get_feeds c' = VDict (feeds ++ [(fid, data)]) /\
  numbered (feeds ++ [(fid, data)]).
Proof.
  intros Hf Hnum Hadd.
  destruct (add_rss_added env interaction guild url channel_name w c fid
              data ch n w' c' Hadd)
    as (name & d & latest & count & _ & Hlen & Hfid & _ & _ & Hfeed).
  rewrite Hf in Hlen. injection Hlen as <-.
  destruct (add_feed_get_feeds fid data c feeds Hf) as (c1 & Hadd1 & Hget & _).
  rewrite Hadd1 in Hfeed. injection Hfeed as <-.
  pose proof (numbered_next_fresh feeds Hnum) as Hfresh.
  rewrite <- Hfid in Hfresh.
  split; [exact Hfid |]. split.
  - by rewrite Hget, items_set_new.
  - rewrite Hfid. by apply numbered_snoc.
Qed.

Lemma add_rss_on_listed :
  add_rss (DT := py_datetime) (UL := py_urllib) (BL := py_builtins)
    Registry.env Registry.answered Registry.guild (py "http://news/rss")
    (Some (py "news")) world0 Registry.listed =
  (Ret (Added (py "feed_2") (Registry.feed_data "http://news/rss") 42%N 2),
   tick world0,
   (ConfigManager.add_feed (py "feed_2")
      (Registry.feed_data "http://news/rss") Registry.listed).2).
Proof. vm_refl. Qed.

Lemma add_rss_appends_numbered_feed_witness :
  ConfigManager.get_feeds
    (ConfigManager.add_feed (py "feed_2")
       (Registry.feed_data "http://news/rss") Registry.listed).2 =
  VDict ([(py "feed_1", Registry.feed_data "http://more/rss")] ++
         [(py "feed_2", Registry.feed_data "http://news/rss")]).
Proof.
  assert (ConfigManager.get_feeds Registry.listed =
          VDict [(py "feed_1", Registry.feed_data "http://more/rss")])
    as Hf by vm_refl.
  assert (numbered [(py "feed_1", Registry.feed_data "http://more/rss")])
    as Hnum by (unfold numbered; vm_refl).
  destruct (add_rss_appends_numbered_feed (DT := py_datetime)
              (UL := py_urllib) (BL := py_builtins) Registry.env
              Registry.answered
              Registry.guild (py "http://news/rss") (Some (py "news"))
              world0 (tick world0) Registry.listed _ _ _ _ _ _
              Hf Hnum add_rss_on_listed)
    as (_ & Hget & _).
  exact Hget.
Defined.

(** X25: the new id is made from the number of feeds alone.  When the
    configuration already has a feed under [feed_(n+1)], n being the
    number of its feeds - as after [feed_1] was removed from two feeds -
    a feed that [add_rss] adds takes the place of that feed: the number of
    feeds stays n. *)
Theorem add_rss_replaces_feed_on_id_clash
    {DT : DatetimeLib} {UL : UrlLib} {BL : Builtins} (env : Env)
    (interaction : Interaction)
    (guild : Guild) (url : pystr) (channel_name : option pystr)
    (w w' : World) (c c' : ConfigWorld) (feeds : list (pystr * pyval))
    (old : pyval) (fid : pystr) (data : pyval) (ch : N) (n : Z) :
  ConfigManager.get_feeds c = VDict feeds ->
  items_get (py "feed_" ++ str_N (N.of_nat (length feeds) + 1)) feeds =
    Some old ->
  add_rss env interaction guild url channel_name w c =
    (Ret (Added fid data ch n), w', c') ->
  items_get fid feeds = Some old /\
  exists feeds',
    ConfigManager.get_feeds c' = VDict feeds' /\
    length feeds' = length feeds /\
    items_get fid feeds' = Some data /\
    forall fid', fid ≠ fid' -> items_get fid' feeds' = items_get fid' feeds.
Proof.
  intros Hf Hold Hadd.
  destruct (add_rss_added env interaction guild url channel_name w c fid
              data ch n w' c' Hadd)
    as (name & d & latest & count & _ & Hlen & Hfid & _ & _ & Hfeed).
  rewrite Hf in Hlen. injection Hlen as <-.
  rewrite <- Hfid in Hold.
  destruct (add_feed_get_feeds fid data c feeds Hf) as (c1 & Hadd1 & Hget & _).
  rewrite Hadd1 in Hfeed. injection Hfeed as <-.
  split; [exact Hold |].
  exists (items_set fid data feeds). split; [exact Hget |].
  split; [by eapply items_set_length |].
  split; [apply items_get_set_eq |].
  intros fid' Hne. by apply items_get_set_ne.
Qed.

Lemma add_rss_on_thinned :
  add_rss (DT := py_datetime) (UL := py_urllib) (BL := py_builtins)
    Registry.env Registry.answered Registry.guild (py "http://news/rss")
    (Some (py "news")) world0 Registry.thinned =
  (Ret (Added (py "feed_2") (Registry.feed_data "http://news/rss") 42%N 2),
   tick world0,
   (ConfigManager.add_feed (py "feed_2")
      (Registry.feed_data "http://news/rss") Registry.thinned).2).
Proof. vm_refl. Qed.

Lemma add_rss_replaces_feed_on_id_clash_witness :
  items_get (py "feed_2")
    [(py "feed_2", Registry.feed_data "http://more/rss")] =
    Some (Registry.feed_data "http://more/rss") /\
  ConfigManager.get_feeds
    (ConfigManager.add_feed (py "feed_2")
       (Registry.feed_data "http://news/rss") Registry.thinned).2 =
    VDict [(py "feed_2", Registry.feed_data "http://news/rss")].
Proof.
  assert (ConfigManager.get_feeds Registry.thinned =
          VDict [(py "feed_2", Registry.feed_data "http://more/rss")])
    as Hf by vm_refl.
  assert (items_get
            (py "feed_" ++
             str_N (N.of_nat
                      (length [(py "feed_2",
                                Registry.feed_data "http://more/rss")]) + 1))
            [(py "feed_2", Registry.feed_data "http://more/rss")] =
          Some (Registry.feed_data "http://more/rss")) as Hold by vm_refl.
  destruct (add_rss_replaces_feed_on_id_clash (DT := py_datetime)
              (UL := py_urllib) (BL := py_builtins) Registry.env
              Registry.answered
              Registry.guild (py "http://news/rss") (Some (py "news"))
              world0 (tick world0) Registry.thinned _ _ _ _ _ _ _
              Hf Hold add_rss_on_thinned)
    as (Hwas & _).
  split; [exact Hwas | vm_refl].
Defined.

(** ** The channel of a feed and the check interval *)

(** X26: [create_or_get_channel] returns a channel of the guild that has
    the name whenever there is one, whatever creating a channel would lead
    to: no second channel of that name is created. *)
Theorem existing_channel_is_reused
    (channels : list (pystr * N)) (channel_name : pystr) (id : N) :
  (channel_name, id) ∈ channels ->
  exists id',
    (channel_name, id') ∈ channels /\
    forall create,
      create_or_get_channel (mkGuild channels create) channel_name = Some id'.
Proof.
  intros Hin. unfold create_or_get_channel. cbn [text_channels].
  destruct (find (fun ch => bool_decide (ch.1 = channel_name)) channels)
    as [[name id'] |] eqn:Hfind.
  - apply find_some in Hfind as [Hin' Hname].
    apply bool_decide_eq_true in Hname. cbn in Hname. subst name.
    exists id'. split; [by apply list_elem_of_In | done].
  - apply list_elem_of_In in Hin.
    pose proof (find_none _ _ Hfind _ Hin) as Hno.
    by rewrite bool_decide_eq_false in Hno.
Qed.

Lemma existing_channel_is_reused_witness :
  create_or_get_channel Registry.guild (py "news") = Some 42%N.
Proof.
  destruct (existing_channel_is_reused [(py "news", 42%N)] (py "news") 42%N)
    as (id' & Hin & Hget).
  - apply list_elem_of_here.
  - apply list_elem_of_singleton in Hin. injection Hin as <-.
    apply Hget.
Defined.

Lemma allowed_interval_set i c :
  i ∈ [5; 15; 30; 60] ->
  allowed_interval
    (ConfigManager.set (py "default_check_interval") (VInt i) c).2.
Proof.
  intros Hin. exists i. split; [exact Hin |].
  unfold ConfigManager.get, ConfigManager.set, ConfigManager.save_config.
  cbn [snd config]. by rewrite items_get_set_eq.
Qed.

(** X27: [IntervalSettingsModal.on_submit] keeps the check interval one of
    5, 15, 30 and 60 minutes, whether it returns or raises.  When it
    answers that the interval was changed, the text is the number it
    names, the configuration and its file hold that number and the
    checking loop has been restarted.  When the text is not a number, or is
    a number that is not allowed, the configuration is as before and the
    loop is left alone. *)
Theorem interval_stays_allowed
    {BL : Builtins} (interaction : Interaction) (value : pystr)
    (c : ConfigWorld) :
  allowed_interval c ->
  allowed_interval (IntervalSettingsModal_on_submit interaction value c).2 /\
  (forall i,
     (IntervalSettingsModal_on_submit interaction value c).1.1 =
       Ret (IntervalChanged i) ->
     py_int value = Ret i /\
     (IntervalSettingsModal_on_submit interaction value c).1.2 = true /\
     ConfigManager.init
       (config_disk (IntervalSettingsModal_on_submit interaction value c).2) =
       Ret (IntervalSettingsModal_on_submit interaction value c).2 /\
     forall dflt,
       ConfigManager.get (py "default_check_interval") dflt
         (IntervalSettingsModal_on_submit interaction value c).2 = VInt i) /\
  ((forall i, py_int value = Ret i -> i ∉ [5; 15; 30; 60]) ->
   (IntervalSettingsModal_on_submit interaction value c).2 = c /\
   (IntervalSettingsModal_on_submit interaction value c).1.2 = false).
Proof.
  intros Hallowed. unfold IntervalSettingsModal_on_submit.
  assert (forall e restarted c1,
    (on_submit_except interaction e restarted c1).2 = c1 /\
    (on_submit_except interaction e restarted c1).1.2 = restarted /\
    forall i, (on_submit_except interaction e restarted c1).1.1 ≠
              Ret (IntervalChanged i)) as Hexcept.
  { intros e restarted c1. unfold on_submit_except.
    destruct (is_ValueError e); [| by repeat split].
    destruct (response_send_message interaction IntervalNotANumber);
      by repeat split. }
  destruct (py_int value) as [interval | e].
  - case_bool_decide as Hin.
    + pose proof (allowed_interval_set interval c Hin) as Hset.
      unfold ConfigManager.set at 1. cbn [fst snd] in Hset.
      unfold ConfigManager.set in Hset. cbn [snd] in Hset.
      assert (forall dflt,
        ConfigManager.get (py "default_check_interval") dflt
          (ConfigManager.save_config
             (mkConfigWorld
                (items_set (py "default_check_interval") (VInt interval)
                           (config c))
                (config_disk c))) = VInt interval) as Hget.
      { intros dflt. unfold ConfigManager.get, ConfigManager.save_config.
        cbn [config]. by rewrite items_get_set_eq. }
      destruct (response_send_message interaction (IntervalChanged interval)).
      * cbn [fst snd]. split; [exact Hset |]. split.
        -- intros i [= <-]. by repeat split.
        -- intros Hno. by destruct (Hno interval).
      * destruct (Hexcept e true
                    (ConfigManager.save_config
                       (mkConfigWorld
                          (items_set (py "default_check_interval")
                                     (VInt interval) (config c))
                          (config_disk c)))) as (Hc & Hr & Hno).
        rewrite Hc. split; [exact Hset |]. split.
        -- intros i Hi. by destruct (Hno i).
        -- intros Hnot. by destruct (Hnot interval).
    + destruct (response_send_message interaction IntervalNotAllowed).
      * cbn [fst snd]. split; [exact Hallowed |].
        split; [discriminate | done].
      * destruct (Hexcept e false c) as (Hc & Hr & Hno).
        rewrite Hc, Hr. split; [exact Hallowed |]. split; [| done].
        intros i Hi. by destruct (Hno i).
  - destruct (Hexcept e false c) as (Hc & Hr & Hno).
    rewrite Hc, Hr. split; [exact Hallowed |]. split; [| done].
    intros i Hi. by destruct (Hno i).
Qed.

Lemma interval_stays_allowed_witness :
  allowed_interval Registry.fresh /\
  allowed_interval
    (IntervalSettingsModal_on_submit (BL := py_builtins) Registry.answered
       (py "30") Registry.fresh).2 /\
  (IntervalSettingsModal_on_submit (BL := py_builtins) Registry.answered
     (py "7") Registry.fresh).2 = Registry.fresh.
Proof.
  assert (allowed_interval Registry.fresh) as Hallowed.
  { exists 15. split; [| vm_refl].
    apply list_elem_of_further, list_elem_of_here. }
  split; [exact Hallowed |]. split.
  - destruct (interval_stays_allowed (BL := py_builtins) Registry.answered
                (py "30") Registry.fresh Hallowed) as (Hkept & _).
    exact Hkept.
  - destruct (interval_stays_allowed (BL := py_builtins) Registry.answered
                (py "7") Registry.fresh Hallowed) as (_ & _ & Hsame).
    apply Hsame. intros i Hi.
    replace (py_int (Builtins := py_builtins) (py "7")) with (Ret (A := Z) 7)
      in Hi by vm_refl.
    injection Hi as <-. intros Hin.
    repeat (apply elem_of_cons in Hin as [Hin | Hin]; [discriminate Hin |]).
    inversion Hin.
Defined.

(** The answer that the interval was changed may fail to be sent: the
    interval is then changed and the loop restarted although [on_submit]
    raises. *)
Example on_submit_unanswered :
  let run := IntervalSettingsModal_on_submit (BL := py_builtins)
               Registry.expired (py "30") Registry.fresh in
  run.1 = (Raise (ClientError "Unknown interaction"), true) /\
  ConfigManager.get (py "default_check_interval") VNone run.2 = VInt 30.
Proof. cbv zeta. split; vm_refl. Qed.
